(** * AWNet: attentive wavelet network, model graph

    A shallow embedding of [models/modules_4channel.py] and
    [models/model_3channel.py].  Module constructors ([__init__]) are
    functions into an exception monad; forward passes are functions over an
    abstract tensor framework, into the same exceptions paired with the count
    of framework operators applied. *)

From Stdlib Require Import ZArith List String Bool Lia.
Import ListNotations.
Local Open Scope string_scope.
Local Open Scope list_scope.
Local Open Scope Z_scope.

(** ** Exceptions *)

(** What can be raised while a module is built or run.  Every constructor but
    the last is raised by the host: the tensor framework's validation
    ([RuntimeError]) or the Python runtime.  [AssertionError] is raised by an
    [assert] statement of the repository. *)
Inductive exception : Type :=
| RuntimeError (msg : string)
| ValueError (msg : string)
| TypeError (msg : string)
| IndexError (msg : string)
| ZeroDivisionError (msg : string)
| AttributeError (msg : string)
| AssertionError (msg : string).

Definition raised_by_host (e : exception) : bool :=
  match e with
  | AssertionError _ => false
  | _ => true
  end.

Inductive result (A : Type) : Type :=
| Ok (a : A)
| Err (e : exception).
Arguments Ok {A} a.
Arguments Err {A} e.

(** A forward pass: the number of framework operators applied so far, and
    the outcome. *)
Definition counted (A : Type) : Type := (nat * result A)%type.

Definition steps {A} (m : counted A) : nat := fst m.
Definition outcome {A} (m : counted A) : result A := snd m.

Class Raising (m : Type -> Type) : Type := {
  pure : forall {A}, A -> m A;
  and_then : forall {A B}, m A -> (A -> m B) -> m B;
  raise : forall {A}, exception -> m A
}.

#[export] Instance result_raising : Raising result := {
  pure := fun A a => Ok a;
  and_then := fun A B r k => match r with Ok a => k a | Err e => Err e end;
  raise := fun A e => Err e
}.

#[export] Instance counted_raising : Raising counted := {
  pure := fun A a => (O, Ok a);
  and_then := fun A B m k =>
    match m with
    | (n, Ok a) => let (n', r) := k a in ((n + n')%nat, r)
    | (n, Err e) => (n, Err e)
    end;
  raise := fun A e => (O, Err e)
}.

Notation "x <- e ;; k" := (and_then e (fun x => k))
  (at level 61, e at next level, right associativity).
Notation "' p <- e ;; k" := (and_then e (fun v => match v with p => k end))
  (at level 61, p pattern, e at next level, right associativity).

(** One application of a framework operator; [None] is the framework
    rejecting its operands. *)
Definition lift {A} (o : option A) : result A :=
  match o with
  | Some a => Ok a
  | None => Err (RuntimeError "operand rejected")
  end.

Definition op {A} (o : option A) : counted A := (1%nat, lift o).

(** ** Python built-ins *)

(** [a // b] *)
Definition floordiv {m} `{Raising m} (a b : Z) : m Z :=
  if b =? 0 then raise (ZeroDivisionError "integer division or modulo by zero")
  else pure (a / b).

(** [for i in range(n): s = body(i, s)] *)
Fixpoint for_range_from {S : Type} (i : Z) (n : nat)
         (body : Z -> S -> result S) (s : S) : result S :=
  match n with
  | O => Ok s
  | Datatypes.S k => s' <- body i s ;; for_range_from (i + 1) k body s'
  end.

Definition for_range {S : Type} (n : Z) (body : Z -> S -> result S) (s : S)
  : result S :=
  for_range_from 0 (Z.to_nat n) body s.

(** [seq[i]] for a non-negative literal index *)
Definition getitem {A} (l : list A) (i : nat) : result A :=
  match nth_error l i with
  | Some a => Ok a
  | None => Err (IndexError "list index out of range")
  end.

(** [x in l] on strings *)
Definition str_in (x : string) (l : list string) : bool :=
  existsb (String.eqb x) l.

(** [sub in s] on a string: substring test *)
Fixpoint substr_in (sub s : string) : bool :=
  String.prefix sub s ||
  match s with
  | EmptyString => false
  | String _ rest => substr_in sub rest
  end.

(** ** Layers of [torch.nn] *)

Record Conv2d : Type := {
  conv_in_channels : Z;
  conv_out_channels : Z;
  conv_kernel_size : Z;
  conv_stride : Z;
  conv_padding : Z;
  conv_bias : bool
}.

Record BatchNorm2d : Type := { num_features : Z }.
Record LayerNorm : Type := { normalized_shape : list Z }.
Record PixelShuffle : Type := { upscale_factor : Z }.
Record AdaptiveAvgPool2d : Type := { output_size : Z * Z }.
Record Softmax : Type := { softmax_dim : Z }.
Inductive PReLU : Type := PReLU_new.
Inductive ReLU : Type := ReLU_new.

(** What [nn.Sequential] holds in this code. *)
Inductive layer : Type :=
| LConv2d (c : Conv2d)
| LBatchNorm2d (b : BatchNorm2d)
| LLayerNorm (l : LayerNorm)
| LPReLU (p : PReLU)
| LPixelShuffle (p : PixelShuffle)
| LAdaptiveAvgPool2d (p : AdaptiveAvgPool2d).

(** The layer constructors allocate their parameter tensors; a negative
    dimension is rejected by the framework.  The weight of a convolution has
    [out_channels * in_channels * kernel_size * kernel_size] entries. *)
Definition nn_Conv2d (in_channels out_channels kernel_size stride padding : Z)
           (bias : bool) : result Conv2d :=
  if (in_channels <? 0) || (out_channels <? 0) || (kernel_size <? 0)
  then Err (RuntimeError "Trying to create tensor with negative dimension")
  else Ok {| conv_in_channels := in_channels;
             conv_out_channels := out_channels;
             conv_kernel_size := kernel_size;
             conv_stride := stride;
             conv_padding := padding;
             conv_bias := bias |}.

Definition nn_BatchNorm2d (n : Z) : result BatchNorm2d :=
  if n <? 0
  then Err (RuntimeError "Trying to create tensor with negative dimension")
  else Ok {| num_features := n |}.

Definition nn_LayerNorm (shape : list Z) : result LayerNorm :=
  if existsb (fun d => d <? 0) shape
  then Err (RuntimeError "Trying to create tensor with negative dimension")
  else Ok {| normalized_shape := shape |}.

(** A normalisation class passed as [norm_layer]: called with the channel
    count, it gives a layer. *)
Definition norm_class : Type := Z -> result layer.

Definition BatchNorm2d_class : norm_class :=
  fun n => b <- nn_BatchNorm2d n ;; pure (LBatchNorm2d b).

(** The two classes of [models/utils.py]; they take no argument. *)
Inductive DWT : Type := DWT_new.
Inductive IWT : Type := IWT_new.

(** ** The tensor framework *)

(** The operators the code calls, over an abstract tensor: the [forward] of
    each [torch.nn] layer, the functions of [torch] and
    [torch.nn.functional], the tensor methods, and the [forward] of the two
    wavelet classes of [models/utils.py].  [None] stands for the operator
    rejecting its operands. *)
Class Framework : Type := {
  tensor : Type;
  tensor_size : tensor -> list Z;
  Conv2d_forward : Conv2d -> tensor -> option tensor;
  BatchNorm2d_forward : BatchNorm2d -> tensor -> option tensor;
  LayerNorm_forward : LayerNorm -> tensor -> option tensor;
  PReLU_forward : PReLU -> tensor -> option tensor;
  ReLU_forward : ReLU -> tensor -> option tensor;
  PixelShuffle_forward : PixelShuffle -> tensor -> option tensor;
  AdaptiveAvgPool2d_forward : AdaptiveAvgPool2d -> tensor -> option tensor;
  Softmax_forward : Softmax -> tensor -> option tensor;
  F_relu : tensor -> option tensor;
  torch_sigmoid : tensor -> option tensor;
  F_upsample : tensor -> Z * Z -> string -> option tensor;
  torch_cat : list tensor -> Z -> option tensor;
  torch_matmul : tensor -> tensor -> option tensor;
  tensor_add : tensor -> tensor -> option tensor;
  tensor_mul : tensor -> tensor -> option tensor;
  tensor_view : tensor -> list Z -> option tensor;
  tensor_unsqueeze : tensor -> Z -> option tensor;
  DWT_forward : DWT -> tensor -> option (tensor * tensor);
  IWT_forward : IWT -> tensor -> option tensor
}.

Section Calls.
Context `{Framework}.

(** [nn.BatchNorm2d.forward] of a module in training mode, which is the
    mode of a module as constructed and the repository never leaves it:
    before the operator is applied, an input that has not four axes, or
    that has one value per channel only, raises [ValueError]. *)
Definition BatchNorm2d_call (b : BatchNorm2d) (x : tensor) : counted tensor :=
  match tensor_size x with
  | [n; _; h; w] =>
      if n * h * w =? 1
      then raise (ValueError
                    "Expected more than 1 value per channel when training")
      else op (BatchNorm2d_forward b x)
  | _ => raise (ValueError "expected 4D input")
  end.

Definition apply_layer (l : layer) (x : tensor) : counted tensor :=
  match l with
  | LConv2d c => op (Conv2d_forward c x)
  | LBatchNorm2d b => BatchNorm2d_call b x
  | LLayerNorm l => op (LayerNorm_forward l x)
  | LPReLU p => op (PReLU_forward p x)
  | LPixelShuffle p => op (PixelShuffle_forward p x)
  | LAdaptiveAvgPool2d p => op (AdaptiveAvgPool2d_forward p x)
  end.

(** [nn.Sequential.forward]: each module is applied to the output of the
    one before. *)
Fixpoint chain {A : Type} (call : A -> tensor -> counted tensor)
         (modules : list A) (x : tensor) : counted tensor :=
  match modules with
  | [] => pure x
  | m :: rest => y <- call m x ;; chain call rest y
  end.

Definition Sequential_forward : list layer -> tensor -> counted tensor :=
  chain apply_layer.

(** A module instance seen from its caller. *)
Definition callable : Type := tensor -> counted tensor.

(** A class passed as [att_block]: called with [inplanes=] and [planes=]. *)
Definition att_class : Type := Z -> Z -> result callable.

(** [t.size(dim)] *)
Definition size_at (t : tensor) (dim : nat) : counted Z :=
  match nth_error (tensor_size t) dim with
  | Some d => pure d
  | None => raise (IndexError "Dimension out of range")
  end.

(** [a, b, c, d = t.size()] *)
Definition unpack4 (l : list Z) : counted (Z * Z * Z * Z) :=
  match l with
  | [a; b; c; d] => pure (a, b, c, d)
  | _ => raise (ValueError "wrong number of values to unpack")
  end.

End Calls.

(** [[f(a) for a in l]] *)
Fixpoint map_m {m} `{Raising m} {A B : Type} (f : A -> m B) (l : list A)
  : m (list B) :=
  match l with
  | [] => pure []
  | a :: rest => b <- f a ;; bs <- map_m f rest ;; pure (b :: bs)
  end.

(** [assert c, msg] *)
Definition assert (c : bool) (msg : string) : result unit :=
  if c then Ok tt else Err (AssertionError msg).

(** [self.name] for an attribute that [__init__] sets on one branch only. *)
Definition getattr {A} (a : option A) (name : string) : counted A :=
  match a with
  | Some v => pure v
  | None => raise (AttributeError name)
  end.

(** * models/modules_4channel.py *)

Module modules_4channel.

Module MakeDense.
Section Defs.
Context `{Framework}.

Record t : Type := { conv : Conv2d; norm_layer : BatchNorm2d }.

Definition init (in_channels growth_rate kernel_size : Z) : result t :=
  conv <- nn_Conv2d in_channels growth_rate kernel_size 1
                    ((kernel_size - 1) / 2) true ;;
  norm_layer <- nn_BatchNorm2d growth_rate ;;
  pure {| conv := conv; norm_layer := norm_layer |}.

Definition forward (self : t) (x : tensor) : counted tensor :=
  c <- op (Conv2d_forward (conv self) x) ;;
  out <- op (F_relu c) ;;
  out <- BatchNorm2d_call (norm_layer self) out ;;
  out <- op (torch_cat [x; out] 1) ;;
  pure out.

End Defs.
End MakeDense.

Module GCRDB.
Section Defs.
Context `{Framework}.

Record t : Type := {
  residual_dense_layers : list MakeDense.t;
  conv_1x1 : Conv2d;
  final_att : callable
}.

Definition init (in_channels : Z) (att_block : att_class)
           (num_dense_layer growth_rate : Z) : result t :=
  ' (modules, _in_channels) <-
    for_range num_dense_layer
      (fun i st =>
         let '(modules, _in_channels) := st in
         (* kernel_size is left at its default, 3 *)
         m <- MakeDense.init _in_channels growth_rate 3 ;;
         pure (modules ++ [m], _in_channels + growth_rate))
      ([], in_channels) ;;
  conv_1x1 <- nn_Conv2d _in_channels in_channels 1 1 0 true ;;
  final_att <- att_block in_channels in_channels ;;
  pure {| residual_dense_layers := modules;
          conv_1x1 := conv_1x1;
          final_att := final_att |}.

Definition forward (self : t) (x : tensor) : counted tensor :=
  out_rdb <- chain MakeDense.forward (residual_dense_layers self) x ;;
  out_rdb <- op (Conv2d_forward (conv_1x1 self) out_rdb) ;;
  out_rdb <- final_att self out_rdb ;;
  out <- op (tensor_add out_rdb x) ;;
  pure out.

End Defs.
End GCRDB.

Module SE_net.
Section Defs.
Context `{Framework}.

Record t : Type := {
  attention : bool;
  avg_pool : AdaptiveAvgPool2d;
  conv_in : Conv2d;
  conv_mid : Conv2d;
  conv_out : Conv2d;
  x_red : Conv2d
}.

Definition init (in_channels out_channels reduction : Z) (attention : bool)
  : result t :=
  let avg_pool := {| output_size := (1, 1) |} in
  conv_in <- nn_Conv2d in_channels in_channels 1 1 0 true ;;
  mid <- floordiv in_channels reduction ;;
  conv_mid <- nn_Conv2d in_channels mid 1 1 0 true ;;
  mid <- floordiv in_channels reduction ;;
  conv_out <- nn_Conv2d mid out_channels 1 1 0 true ;;
  x_red <- nn_Conv2d in_channels out_channels 1 1 0 true ;;
  pure {| attention := attention; avg_pool := avg_pool; conv_in := conv_in;
          conv_mid := conv_mid; conv_out := conv_out; x_red := x_red |}.

Definition forward (self : t) (x : tensor) : counted tensor :=
  if attention self then
    y <- op (AdaptiveAvgPool2d_forward (avg_pool self) x) ;;
    c <- op (Conv2d_forward (conv_in self) y) ;;
    y <- op (F_relu c) ;;
    c <- op (Conv2d_forward (conv_mid self) y) ;;
    y <- op (F_relu c) ;;
    c <- op (Conv2d_forward (conv_out self) y) ;;
    y <- op (torch_sigmoid c) ;;
    x <- op (Conv2d_forward (x_red self) x) ;;
    op (tensor_mul x y)
  else
    pure x.

End Defs.
End SE_net.

Module ContextBlock2d.
Section Defs.
Context `{Framework}.

Record t : Type := {
  inplanes : Z;
  planes : Z;
  pool : string;
  fusions : list string;
  conv_mask : option Conv2d;
  softmax : option Softmax;
  avg_pool : option AdaptiveAvgPool2d;
  channel_add_conv : option (list layer);
  channel_mul_conv : option (list layer)
}.

(** The [nn.Sequential] built, with the same arguments, for each fusion. *)
Definition channel_conv (inplanes planes ratio : Z) : result (list layer) :=
  mid <- floordiv planes ratio ;;
  c1 <- nn_Conv2d inplanes mid 1 1 0 true ;;
  mid <- floordiv planes ratio ;;
  ln <- nn_LayerNorm [mid; 1; 1] ;;
  mid <- floordiv planes ratio ;;
  c2 <- nn_Conv2d mid inplanes 1 1 0 true ;;
  pure [LConv2d c1; LLayerNorm ln; LPReLU PReLU_new; LConv2d c2].

Definition init (inplanes planes : Z) (pool : string) (fusions : list string)
           (ratio : Z) : result t :=
  _ <- assert (str_in pool ["avg"; "att"]) "" ;;
  _ <- assert (forallb (fun f => str_in f ["channel_add"; "channel_mul"])
                       fusions) "" ;;
  _ <- assert (0 <? Z.of_nat (List.length fusions))
              "at least one fusion should be used" ;;
  ' (conv_mask, softmax, avg_pool) <-
    (if substr_in "att" pool then
       conv_mask <- nn_Conv2d inplanes 1 1 1 0 true ;;
       pure (Some conv_mask, Some {| softmax_dim := 2 |}, None)
     else
       pure (None, None, Some {| output_size := (1, 1) |})) ;;
  channel_add_conv <-
    (if str_in "channel_add" fusions then
       s <- channel_conv inplanes planes ratio ;; pure (Some s)
     else pure None) ;;
  channel_mul_conv <-
    (if str_in "channel_mul" fusions then
       s <- channel_conv inplanes planes ratio ;; pure (Some s)
     else pure None) ;;
  pure {| inplanes := inplanes; planes := planes; pool := pool;
          fusions := fusions; conv_mask := conv_mask; softmax := softmax;
          avg_pool := avg_pool; channel_add_conv := channel_add_conv;
          channel_mul_conv := channel_mul_conv |}.

Definition spatial_pool (self : t) (x : tensor) : counted tensor :=
  ' (batch, channel, height, width) <- unpack4 (tensor_size x) ;;
  if String.eqb (pool self) "att" then
    let input_x := x in
    input_x <- op (tensor_view input_x [batch; channel; height * width]) ;;
    input_x <- op (tensor_unsqueeze input_x 1) ;;
    conv_mask <- getattr (conv_mask self) "conv_mask" ;;
    context_mask <- op (Conv2d_forward conv_mask x) ;;
    context_mask <- op (tensor_view context_mask [batch; 1; height * width]) ;;
    softmax <- getattr (softmax self) "softmax" ;;
    context_mask <- op (Softmax_forward softmax context_mask) ;;
    context_mask <- op (tensor_unsqueeze context_mask 3) ;;
    context <- op (torch_matmul input_x context_mask) ;;
    context <- op (tensor_view context [batch; channel; 1; 1]) ;;
    pure context
  else
    avg_pool <- getattr (avg_pool self) "avg_pool" ;;
    context <- op (AdaptiveAvgPool2d_forward avg_pool x) ;;
    pure context.

Definition forward (self : t) (x : tensor) : counted tensor :=
  context <- spatial_pool self x ;;
  out <-
    match channel_mul_conv self with
    | Some channel_mul_conv =>
        s <- Sequential_forward channel_mul_conv context ;;
        channel_mul_term <- op (torch_sigmoid s) ;;
        op (tensor_mul x channel_mul_term)
    | None => pure x
    end ;;
  out <-
    match channel_add_conv self with
    | Some channel_add_conv =>
        channel_add_term <- Sequential_forward channel_add_conv context ;;
        op (tensor_add out channel_add_term)
    | None => pure out
    end ;;
  pure out.

(** The class as an [att_block] argument: [att_block(inplanes=.., planes=..)]
    leaves [pool], [fusions] and [ratio] at their defaults. *)
Definition class : att_class :=
  fun inplanes planes =>
    self <- init inplanes planes "att" ["channel_add"] 4 ;;
    pure (forward self).

End Defs.
End ContextBlock2d.

Module GCWTResDown.
Section Defs.
Context `{Framework}.

Record t : Type := {
  dwt : DWT;
  stem : list layer;
  conv1x1 : Conv2d;
  conv_down : Conv2d
}.

Definition init (in_channels : Z) (att_block : att_class)
           (norm_layer : option norm_class) : result t :=
  let dwt := DWT_new in
  stem <-
    match norm_layer with
    | Some norm_layer =>
        c1 <- nn_Conv2d in_channels in_channels 3 2 1 true ;;
        n1 <- norm_layer in_channels ;;
        c2 <- nn_Conv2d in_channels in_channels 3 1 1 true ;;
        n2 <- norm_layer in_channels ;;
        pure [LConv2d c1; n1; LPReLU PReLU_new;
              LConv2d c2; n2; LPReLU PReLU_new]
    | None =>
        c1 <- nn_Conv2d in_channels in_channels 3 2 1 true ;;
        c2 <- nn_Conv2d in_channels in_channels 3 1 1 true ;;
        pure [LConv2d c1; LPReLU PReLU_new; LConv2d c2; LPReLU PReLU_new]
    end ;;
  conv1x1 <- nn_Conv2d in_channels in_channels 1 1 0 true ;;
  conv_down <- nn_Conv2d in_channels in_channels 3 2 1 true ;;
  pure {| dwt := dwt; stem := stem; conv1x1 := conv1x1;
          conv_down := conv_down |}.

Definition forward (self : t) (x : tensor) : counted (tensor * tensor) :=
  stem <- Sequential_forward (stem self) x ;;
  ' (xLL, dwt) <- op (DWT_forward (dwt self) x) ;;
  res <- op (Conv2d_forward (conv1x1 self) xLL) ;;
  out <- op (torch_cat [stem; res] 1) ;;
  pure (out, dwt).

End Defs.
End GCWTResDown.

Module GCIWTResUp.
Section Defs.
Context `{Framework}.

Record t : Type := {
  stem : list layer;
  pre_conv_stem : Conv2d;
  pre_conv : Conv2d;
  post_conv : Conv2d;
  iwt : IWT;
  last_conv : Conv2d
}.

Definition init (in_channels : Z) (att_block : att_class)
           (norm_layer : option norm_class) : result t :=
  stem <-
    match norm_layer with
    | Some norm_layer =>
        c1 <- nn_Conv2d (in_channels / 4) (in_channels / 4) 3 1 1 true ;;
        n1 <- norm_layer (in_channels / 4) ;;
        c2 <- nn_Conv2d (in_channels / 4) (in_channels / 4) 3 1 1 true ;;
        n2 <- norm_layer (in_channels / 4) ;;
        pure [LPixelShuffle {| upscale_factor := 2 |};
              LConv2d c1; n1; LPReLU PReLU_new;
              LConv2d c2; n2; LPReLU PReLU_new]
    | None =>
        c1 <- nn_Conv2d (in_channels / 4) (in_channels / 4) 3 1 1 true ;;
        c2 <- nn_Conv2d (in_channels / 4) (in_channels / 4) 3 1 1 true ;;
        pure [LPixelShuffle {| upscale_factor := 2 |};
              LConv2d c1; LPReLU PReLU_new;
              LConv2d c2; LPReLU PReLU_new]
    end ;;
  pre_conv_stem <- nn_Conv2d (in_channels / 2) in_channels 1 1 0 true ;;
  pre_conv <- nn_Conv2d in_channels in_channels 1 1 0 true ;;
  post_conv <- nn_Conv2d (in_channels / 4) (in_channels / 4) 1 1 0 true ;;
  let iwt := IWT_new in
  last_conv <- nn_Conv2d (in_channels / 2) (in_channels / 4) 1 1 0 true ;;
  pure {| stem := stem; pre_conv_stem := pre_conv_stem; pre_conv := pre_conv;
          post_conv := post_conv; iwt := iwt; last_conv := last_conv |}.

Definition forward (self : t) (x x_dwt : tensor) : counted tensor :=
  x <- op (Conv2d_forward (pre_conv_stem self) x) ;;
  stem <- Sequential_forward (stem self) x ;;
  x_dwt <- op (Conv2d_forward (pre_conv self) x_dwt) ;;
  x_iwt <- op (IWT_forward (iwt self) x_dwt) ;;
  x_iwt <- op (Conv2d_forward (post_conv self) x_iwt) ;;
  out <- op (torch_cat [stem; x_iwt] 1) ;;
  out <- op (Conv2d_forward (last_conv self) out) ;;
  pure out.

End Defs.
End GCIWTResUp.

Module shortcutblock.
Section Defs.
Context `{Framework}.

Record t : Type := {
  conv1 : Conv2d;
  conv2 : Conv2d;
  se : SE_net.t;
  relu : ReLU
}.

Definition init (in_channels out_channels : Z) : result t :=
  conv1 <- nn_Conv2d in_channels out_channels 3 1 1 true ;;
  conv2 <- nn_Conv2d out_channels out_channels 3 1 1 true ;;
  (* reduction and attention are left at their defaults, 4 and True *)
  se <- SE_net.init out_channels out_channels 4 true ;;
  pure {| conv1 := conv1; conv2 := conv2; se := se; relu := ReLU_new |}.

Definition forward (self : t) (x : tensor) : counted tensor :=
  a <- op (Conv2d_forward (conv1 self) x) ;;
  a <- op (ReLU_forward (relu self) a) ;;
  a <- op (Conv2d_forward (conv2 self) a) ;;
  a <- op (ReLU_forward (relu self) a) ;;
  SE_net.forward (se self) a.

End Defs.
End shortcutblock.

Module PSPModule.
Section Defs.
Context `{Framework}.

Record t : Type := {
  stages : list (list layer);
  bottleneck : Conv2d;
  relu : ReLU
}.

Definition _make_stage (features size : Z) : result (list layer) :=
  let prior := {| output_size := (size, size) |} in
  conv <- nn_Conv2d features features 1 1 0 false ;;
  pure [LAdaptiveAvgPool2d prior; LConv2d conv].

(** The defaults of [out_features] and [sizes]. *)
Definition default_out_features : Z := 1024.
Definition default_sizes : list Z := [1; 2; 3; 6].

Definition init (features out_features : Z) (sizes : list Z) : result t :=
  stages <- map_m (fun size => _make_stage features size) sizes ;;
  bottleneck <- nn_Conv2d (features * (Z.of_nat (List.length sizes) + 1))
                          out_features 1 1 0 true ;;
  pure {| stages := stages; bottleneck := bottleneck; relu := ReLU_new |}.

Definition forward (self : t) (feats : tensor) : counted tensor :=
  h <- size_at feats 2 ;;
  w <- size_at feats 3 ;;
  priors <- map_m (fun stage =>
                     s <- Sequential_forward stage feats ;;
                     op (F_upsample s (h, w) "bilinear"))
                  (stages self) ;;
  let priors := priors ++ [feats] in
  c <- op (torch_cat priors 1) ;;
  bottle <- op (Conv2d_forward (bottleneck self) c) ;;
  op (ReLU_forward (relu self) bottle).

End Defs.
End PSPModule.

Module last_upsample.
Section Defs.
Context `{Framework}.

Record t : Type := {
  up : PixelShuffle;
  pre_enhance : Conv2d;
  enhance : PSPModule.t;
  post_conv : Conv2d;
  se : SE_net.t;
  final : Conv2d
}.

Definition init : result t :=
  let up := {| upscale_factor := 2 |} in
  pre_enhance <- nn_Conv2d 16 16 3 1 1 true ;;
  enhance <- PSPModule.init 16 16 PSPModule.default_sizes ;;
  post_conv <- nn_Conv2d 32 32 3 1 1 true ;;
  se <- SE_net.init 32 32 4 true ;;
  final <- nn_Conv2d 32 3 3 1 1 true ;;
  pure {| up := up; pre_enhance := pre_enhance; enhance := enhance;
          post_conv := post_conv; se := se; final := final |}.

Definition forward (self : t) (x : tensor) : counted tensor :=
  x <- op (PixelShuffle_forward (up self) x) ;;
  x <- op (Conv2d_forward (pre_enhance self) x) ;;
  enhanced <- PSPModule.forward (enhance self) x ;;
  x <- op (torch_cat [enhanced; x] 1) ;;
  a <- op (Conv2d_forward (post_conv self) x) ;;
  out <- SE_net.forward (se self) a ;;
  out <- op (Conv2d_forward (final self) out) ;;
  op (torch_sigmoid out).

End Defs.
End last_upsample.

End modules_4channel.

(** * models/model_3channel.py *)

Module model_3channel.

(** [from models.modules_3channel import shortcutblock, GCIWTResUp,
    GCWTResDown, GCRDB, ContextBlock2d, SE_net, PSPModule]: the classes as
    [AWNet] calls them: each applied to the arguments its call site passes,
    giving an instance that is applied to tensors. *)
Class modules_3channel `{Framework} : Type := {
  shortcutblock : Z -> result callable;
  GCIWTResUp : Z -> att_class -> result (tensor -> tensor -> counted tensor);
  GCWTResDown : Z -> att_class -> option norm_class ->
                result (tensor -> counted (tensor * tensor));
  GCRDB : Z -> att_class -> result callable;
  ContextBlock2d : att_class;
  SE_net : Z -> Z -> result callable;
  PSPModule : Z -> Z -> list Z -> result callable
}.

Module AWNet.
Section Defs.
Context `{Framework}.

(** An [nn.Sequential] of residual blocks closed by a down-sampling block,
    whose [forward] returns a pair. *)
Definition encoder : Type :=
  (list callable * (tensor -> counted (tensor * tensor)))%type.

Definition encoder_forward (layer : encoder) (x : tensor)
  : counted (tensor * tensor) :=
  y <- chain (fun m => m) (fst layer) x ;; snd layer y.

Record t : Type := {
  conv1 : Conv2d;
  layer1 : encoder;
  layer2 : encoder;
  layer3 : encoder;
  layer4 : encoder;
  layer5 : list callable;
  layer4_up : tensor -> tensor -> counted tensor;
  layer3_up : tensor -> tensor -> counted tensor;
  layer2_up : tensor -> tensor -> counted tensor;
  layer1_up : tensor -> tensor -> counted tensor;
  sc_x1 : callable;
  sc_x2 : callable;
  sc_x3 : callable;
  sc_x4 : callable;
  scale_5 : Conv2d;
  scale_4 : Conv2d;
  scale_3 : Conv2d;
  scale_2 : Conv2d;
  final_conv : Conv2d;
  se1 : callable;
  se2 : callable;
  se3 : callable;
  se4 : callable;
  se5 : callable;
  enhance : callable
}.

Context {imports : modules_3channel}.

(** [for i in range(n): l.append(GCRDB(c, ContextBlock2d))] *)
Definition append_GCRDB (n c : Z) (l : list callable) : result (list callable) :=
  for_range n (fun i l => m <- GCRDB c ContextBlock2d ;; pure (l ++ [m])) l.

Definition init (in_channels out_channels : Z) (block : list Z) : result t :=
  conv1 <- nn_Conv2d in_channels 64 3 1 1 true ;;
  (* layer1 *)
  n <- getitem block 0 ;;
  _layer_1_dw <- append_GCRDB n 64 [] ;;
  d1 <- GCWTResDown 64 ContextBlock2d None ;;
  (* layer 2 *)
  n <- getitem block 1 ;;
  _layer_2_dw <- append_GCRDB n 128 [] ;;
  d2 <- GCWTResDown 128 ContextBlock2d None ;;
  (* layer 3 *)
  n <- getitem block 2 ;;
  _layer_3_dw <- append_GCRDB n 256 [] ;;
  d3 <- GCWTResDown 256 ContextBlock2d None ;;
  (* layer 4 *)
  n <- getitem block 3 ;;
  _layer_4_dw <- append_GCRDB n 512 [] ;;
  d4 <- GCWTResDown 512 ContextBlock2d None ;;
  (* layer 5 *)
  n <- getitem block 4 ;;
  _layer_5_dw <- append_GCRDB n 1024 [] ;;
  layer4_up <- GCIWTResUp 1024 ContextBlock2d ;;
  layer3_up <- GCIWTResUp 512 ContextBlock2d ;;
  layer2_up <- GCIWTResUp 256 ContextBlock2d ;;
  layer1_up <- GCIWTResUp 128 ContextBlock2d ;;
  sc_x1 <- shortcutblock 64 ;;
  sc_x2 <- shortcutblock 128 ;;
  sc_x3 <- shortcutblock 256 ;;
  sc_x4 <- shortcutblock 512 ;;
  scale_5 <- nn_Conv2d 1024 out_channels 3 1 1 true ;;
  scale_4 <- nn_Conv2d 512 out_channels 3 1 1 true ;;
  scale_3 <- nn_Conv2d 256 out_channels 3 1 1 true ;;
  scale_2 <- nn_Conv2d 128 out_channels 3 1 1 true ;;
  final_conv <- nn_Conv2d 64 out_channels 3 1 1 true ;;
  se1 <- SE_net 64 64 ;;
  se2 <- SE_net 128 128 ;;
  se3 <- SE_net 256 256 ;;
  se4 <- SE_net 512 512 ;;
  se5 <- SE_net 1024 1024 ;;
  enhance <- PSPModule 64 64 [1; 2; 3; 6] ;;
  pure {| conv1 := conv1;
          layer1 := (_layer_1_dw, d1); layer2 := (_layer_2_dw, d2);
          layer3 := (_layer_3_dw, d3); layer4 := (_layer_4_dw, d4);
          layer5 := _layer_5_dw;
          layer4_up := layer4_up; layer3_up := layer3_up;
          layer2_up := layer2_up; layer1_up := layer1_up;
          sc_x1 := sc_x1; sc_x2 := sc_x2; sc_x3 := sc_x3; sc_x4 := sc_x4;
          scale_5 := scale_5; scale_4 := scale_4; scale_3 := scale_3;
          scale_2 := scale_2; final_conv := final_conv;
          se1 := se1; se2 := se2; se3 := se3; se4 := se4; se5 := se5;
          enhance := enhance |}.

(** The default of the [block] parameter. *)
Definition default_block : list Z := [2; 2; 2; 3; 4].

Definition outputs : Type :=
  ((tensor * tensor * tensor * tensor * tensor) * tensor)%type.

Definition forward (self : t) (x : tensor)
           (target teacher_latent : option tensor) : counted outputs :=
  x1 <- op (Conv2d_forward (conv1 self) x) ;;
  a <- se1 self x1 ;;
  ' (x2, x2_dwt) <- encoder_forward (layer1 self) a ;;
  a <- se2 self x2 ;;
  ' (x3, x3_dwt) <- encoder_forward (layer2 self) a ;;
  a <- se3 self x3 ;;
  ' (x4, x4_dwt) <- encoder_forward (layer3 self) a ;;
  a <- se4 self x4 ;;
  ' (x5, x5_dwt) <- encoder_forward (layer4 self) a ;;
  a <- se5 self x5 ;;
  x5_latent <- chain (fun m => m) (layer5 self) a ;;
  x5_out <- op (Conv2d_forward (scale_5 self) x5_latent) ;;
  x5_out <- op (torch_sigmoid x5_out) ;;
  u <- layer4_up self x5_latent x5_dwt ;;
  s <- sc_x4 self x4 ;;
  x4_up <- op (tensor_add u s) ;;
  x4_out <- op (Conv2d_forward (scale_4 self) x4_up) ;;
  x4_out <- op (torch_sigmoid x4_out) ;;
  u <- layer3_up self x4_up x4_dwt ;;
  s <- sc_x3 self x3 ;;
  x3_up <- op (tensor_add u s) ;;
  x3_out <- op (Conv2d_forward (scale_3 self) x3_up) ;;
  x3_out <- op (torch_sigmoid x3_out) ;;
  u <- layer2_up self x3_up x3_dwt ;;
  s <- sc_x2 self x2 ;;
  x2_up <- op (tensor_add u s) ;;
  x2_out <- op (Conv2d_forward (scale_2 self) x2_up) ;;
  x2_out <- op (torch_sigmoid x2_out) ;;
  u <- layer1_up self x2_up x2_dwt ;;
  s <- sc_x1 self x1 ;;
  x1_up <- op (tensor_add u s) ;;
  x1_up <- enhance self x1_up ;;
  out <- op (Conv2d_forward (final_conv self) x1_up) ;;
  out <- op (torch_sigmoid out) ;;
  pure ((out, x2_out, x3_out, x4_out, x5_out), x5_latent).

End Defs.
End AWNet.

End model_3channel.

(** * Binding the import to the modules file of the repository *)

(** A call with positional arguments [args] of an [__init__] that has two
    required parameters. *)
Definition call_init2 {A} (init : Z -> Z -> result A) (args : list Z)
  : result A :=
  match args with
  | [a; b] => init a b
  | [] => Err (TypeError "__init__() missing 2 required positional arguments")
  | [_] => Err (TypeError "__init__() missing 1 required positional argument: 'out_channels'")
  | _ => Err (TypeError "__init__() takes 3 positional arguments but more were given")
  end.

Section Linking.
Context `{Framework}.
Import modules_4channel.

(** The names [AWNet] imports, bound to the classes of
    [models/modules_4channel.py]; parameters a call site leaves out take the
    defaults of the class. *)
Definition from_modules_4channel : model_3channel.modules_3channel := {|
  model_3channel.shortcutblock := fun c =>
    self <- call_init2 shortcutblock.init [c] ;;
    pure (shortcutblock.forward self);
  model_3channel.GCIWTResUp := fun c att =>
    self <- GCIWTResUp.init c att None ;;
    pure (GCIWTResUp.forward self);
  model_3channel.GCWTResDown := fun c att norm_layer =>
    self <- GCWTResDown.init c att norm_layer ;;
    pure (GCWTResDown.forward self);
  model_3channel.GCRDB := fun c att =>
    self <- GCRDB.init c att 6 16 ;;
    pure (GCRDB.forward self);
  model_3channel.ContextBlock2d := ContextBlock2d.class;
  model_3channel.SE_net := fun i o =>
    self <- SE_net.init i o 4 true ;;
    pure (SE_net.forward self);
  model_3channel.PSPModule := fun f o sizes =>
    self <- PSPModule.init f o sizes ;;
    pure (PSPModule.forward self)
|}.

End Linking.

(** * The framework on shapes *)

(** The operators acting on the shape of a tensor only: each one checks its
    operands as the framework documents and gives the shape of the result.
    A shape stands for a contiguous tensor, as the operators return them.
    The layers are applied to batches: an input of four axes. *)
Module Shape.

Fixpoint list_eqb (a b : list Z) : bool :=
  match a, b with
  | [], [] => true
  | x :: a', y :: b' => (x =? y) && list_eqb a' b'
  | _, _ => false
  end.

Definition prod (s : list Z) : Z := fold_right Z.mul 1 s.

Fixpoint set_dim (s : list Z) (d : nat) (v : Z) : list Z :=
  match s, d with
  | [], _ => []
  | _ :: rest, O => v :: rest
  | x :: rest, S d' => x :: set_dim rest d' v
  end.

Definition dim_of (s : list Z) (d : nat) : Z := nth d s 0.

(** Size of a convolution output along one axis. *)
Definition conv_len (len k s p : Z) : Z := (len + 2 * p - k) / s + 1.

(** A convolution needs the input's channels to be its [in_channels], at
    least one output channel, and a kernel no larger than the padded
    input. *)
Definition conv2d (c : Conv2d) (t : list Z) : option (list Z) :=
  match t with
  | [n; ch; h; w] =>
      if (ch =? conv_in_channels c)
         && (0 <? conv_out_channels c)
         && (0 <? conv_stride c)
         && (conv_kernel_size c <=? h + 2 * conv_padding c)
         && (conv_kernel_size c <=? w + 2 * conv_padding c)
      then Some [n; conv_out_channels c;
                 conv_len h (conv_kernel_size c) (conv_stride c) (conv_padding c);
                 conv_len w (conv_kernel_size c) (conv_stride c) (conv_padding c)]
      else None
  | _ => None
  end.

(** The operator behind [nn.BatchNorm2d]: the statistics have one entry
    per channel.  What the layer checks before it is [BatchNorm2d_call]. *)
Definition batch_norm (b : BatchNorm2d) (t : list Z)
  : option (list Z) :=
  match t with
  | [n; ch; h; w] => if ch =? num_features b then Some t else None
  | _ => None
  end.

Definition layer_norm (l : LayerNorm) (t : list Z) : option (list Z) :=
  let k := List.length (normalized_shape l) in
  if (k <=? List.length t)%nat
     && list_eqb (skipn (List.length t - k) t) (normalized_shape l)
  then Some t else None.

Definition pixel_shuffle (p : PixelShuffle) (t : list Z)
  : option (list Z) :=
  let r := upscale_factor p in
  match t with
  | [n; ch; h; w] =>
      if (0 <? r) && (ch mod (r * r) =? 0)
      then Some [n; ch / (r * r); h * r; w * r]
      else None
  | _ => None
  end.

Definition adaptive_avg_pool2d (p : AdaptiveAvgPool2d) (t : list Z)
  : option (list Z) :=
  match t with
  | [n; ch; h; w] => Some [n; ch; fst (output_size p); snd (output_size p)]
  | _ => None
  end.

Definition softmax (s : Softmax) (t : list Z) : option (list Z) :=
  if (0 <=? softmax_dim s) && (softmax_dim s <? Z.of_nat (List.length t))
  then Some t else None.

Definition upsample (t : list Z) (size : Z * Z) (mode : string)
  : option (list Z) :=
  match t with
  | [n; ch; h; w] =>
      if (0 <? h) && (0 <? w) && (0 <? fst size) && (0 <? snd size)
      then Some [n; ch; fst size; snd size]
      else None
  | _ => None
  end.

(** [torch.cat]: the tensors agree on every axis but [dim], along which
    their sizes add up. *)
Definition cat (ts : list (list Z)) (dim : Z) : option (list Z) :=
  let d := Z.to_nat dim in
  match ts with
  | [] => None
  | t0 :: rest =>
      if (0 <=? dim) && (d <? List.length t0)%nat
         && forallb (fun t => list_eqb (set_dim t d 0) (set_dim t0 d 0)) rest
      then Some (set_dim t0 d (fold_right Z.add 0 (map (fun t => dim_of t d) ts)))
      else None
  end.

(** Two sizes along one axis are compatible when equal or when one is 1. *)
Definition broadcast_dim (x y : Z) : option Z :=
  if x =? y then Some x
  else if y =? 1 then Some x
  else if x =? 1 then Some y
  else None.

Fixpoint broadcast_rev (a b : list Z) : option (list Z) :=
  match a, b with
  | [], _ => Some b
  | _, [] => Some a
  | x :: a', y :: b' =>
      match broadcast_dim x y, broadcast_rev a' b' with
      | Some d, Some r => Some (d :: r)
      | _, _ => None
      end
  end.

(** Shapes are aligned on their last axis. *)
Definition broadcast (a b : list Z) : option (list Z) :=
  option_map (@rev Z) (broadcast_rev (rev a) (rev b)).

(** [torch.matmul] of two stacks of matrices. *)
Definition matmul (a b : list Z) : option (list Z) :=
  match a, b with
  | [a1; a2; m; k], [b1; b2; k'; n] =>
      match broadcast_dim a1 b1, broadcast_dim a2 b2 with
      | Some d1, Some d2 => if k =? k' then Some [d1; d2; m; n] else None
      | _, _ => None
      end
  | _, _ => None
  end.

Definition view (t shape : list Z) : option (list Z) :=
  if forallb (fun d => 0 <=? d) shape && (prod t =? prod shape)
  then Some shape else None.

Fixpoint insert_at (s : list Z) (d : nat) (v : Z) : list Z :=
  match d, s with
  | O, _ => v :: s
  | S d', x :: rest => x :: insert_at rest d' v
  | S _, [] => [v]
  end.

Definition unsqueeze (t : list Z) (dim : Z) : option (list Z) :=
  if (0 <=? dim) && (dim <=? Z.of_nat (List.length t))
  then Some (insert_at t (Z.to_nat dim) 1) else None.

(** Modelled from the spec: [models.utils.DWT], which src/ lacks.  The
    wavelet transform is a fixed down-sampling operator: it halves height
    and width, and returns the low-frequency band together with the four
    bands stacked along the channel axis. *)
Definition dwt (_ : DWT) (t : list Z) : option (list Z * list Z) :=
  match t with
  | [n; ch; h; w] =>
      if (h mod 2 =? 0) && (w mod 2 =? 0)
      then Some ([n; ch; h / 2; w / 2], [n; 4 * ch; h / 2; w / 2])
      else None
  | _ => None
  end.

(** Modelled from the spec: [models.utils.IWT], which src/ lacks.  The
    inverse transform is a fixed up-sampling operator: it doubles height and
    width and folds four bands into one. *)
Definition iwt (_ : IWT) (t : list Z) : option (list Z) :=
  match t with
  | [n; ch; h; w] => Some [n; ch / 4; 2 * h; 2 * w]
  | _ => None
  end.

#[export] Instance framework : Framework := {|
  tensor := list Z;
  tensor_size := fun t => t;
  Conv2d_forward := conv2d;
  BatchNorm2d_forward := batch_norm;
  LayerNorm_forward := layer_norm;
  PReLU_forward := fun _ t => Some t;
  ReLU_forward := fun _ t => Some t;
  PixelShuffle_forward := pixel_shuffle;
  AdaptiveAvgPool2d_forward := adaptive_avg_pool2d;
  Softmax_forward := softmax;
  F_relu := fun t => Some t;
  torch_sigmoid := fun t => Some t;
  F_upsample := upsample;
  torch_cat := cat;
  torch_matmul := matmul;
  tensor_add := broadcast;
  tensor_mul := broadcast;
  tensor_view := view;
  tensor_unsqueeze := unsqueeze;
  DWT_forward := dwt;
  IWT_forward := iwt
|}.

End Shape.

(** * What the classes are said to compute *)

Section Described.
Context `{Framework}.

Definition conv (i o k s p : Z) (bias : bool) : Conv2d :=
  {| conv_in_channels := i; conv_out_channels := o; conv_kernel_size := k;
     conv_stride := s; conv_padding := p; conv_bias := bias |}.

(** [n] dense layers from [c] channels on: each runs a 3x3 convolution, ReLU
    and batch normalisation, and concatenates the result onto its own input
    along the channel axis. *)
Fixpoint described_dense_layers (c g : Z) (n : nat) (x : tensor)
  : result tensor :=
  match n with
  | O => Ok x
  | S k =>
      y <- lift (Conv2d_forward (conv c g 3 1 1 true) x) ;;
      y <- lift (F_relu y) ;;
      y <- outcome (BatchNorm2d_call {| num_features := g |} y) ;;
      x' <- lift (torch_cat [x; y] 1) ;;
      described_dense_layers (c + g) g k x'
  end.

(** The dense layers, a 1x1 convolution back to [c] channels, the attention
    block, and the input added back. *)
Definition described_GCRDB (c g : Z) (n : nat) (att : callable) (x : tensor)
  : result tensor :=
  d <- described_dense_layers c g n x ;;
  p <- lift (Conv2d_forward (conv (c + Z.of_nat n * g) c 1 1 0 true) d) ;;
  a <- outcome (att p) ;;
  lift (tensor_add a x).

(** The stem of the down-sampling block: a stride-2 convolution and a
    stride-1 convolution, each followed by the optional normalisation and a
    PReLU. *)
Definition described_down_stem (c : Z) (norm : option layer) : list layer :=
  match norm with
  | Some n => [LConv2d (conv c c 3 2 1 true); n; LPReLU PReLU_new;
               LConv2d (conv c c 3 1 1 true); n; LPReLU PReLU_new]
  | None => [LConv2d (conv c c 3 2 1 true); LPReLU PReLU_new;
             LConv2d (conv c c 3 1 1 true); LPReLU PReLU_new]
  end.

(** The wavelet transform of the input; the stem concatenated with a 1x1
    convolution of the low-frequency band, paired with the coefficients. *)
Definition described_GCWTResDown (c : Z) (norm : option layer) (x : tensor)
  : result (tensor * tensor) :=
  stem <- outcome (Sequential_forward (described_down_stem c norm) x) ;;
  ' (xLL, coefficients) <- lift (DWT_forward DWT_new x) ;;
  res <- lift (Conv2d_forward (conv c c 1 1 0 true) xLL) ;;
  out <- lift (torch_cat [stem; res] 1) ;;
  Ok (out, coefficients).

(** The main path of the up-sampling block: pixel shuffle by 2, then two 3x3
    convolutions with the optional normalisation and a PReLU each. *)
Definition described_up_stem (c : Z) (norm : option layer) : list layer :=
  match norm with
  | Some n => [LPixelShuffle {| upscale_factor := 2 |};
               LConv2d (conv (c / 4) (c / 4) 3 1 1 true); n; LPReLU PReLU_new;
               LConv2d (conv (c / 4) (c / 4) 3 1 1 true); n; LPReLU PReLU_new]
  | None => [LPixelShuffle {| upscale_factor := 2 |};
             LConv2d (conv (c / 4) (c / 4) 3 1 1 true); LPReLU PReLU_new;
             LConv2d (conv (c / 4) (c / 4) 3 1 1 true); LPReLU PReLU_new]
  end.

(** The inverse wavelet transform of the (convolved) coefficients, fused by
    concatenation and a 1x1 convolution with the pixel-shuffled main path. *)
Definition described_GCIWTResUp (c : Z) (norm : option layer)
           (x x_dwt : tensor) : result tensor :=
  x <- lift (Conv2d_forward (conv (c / 2) c 1 1 0 true) x) ;;
  main <- outcome (Sequential_forward (described_up_stem c norm) x) ;;
  w <- lift (Conv2d_forward (conv c c 1 1 0 true) x_dwt) ;;
  up <- lift (IWT_forward IWT_new w) ;;
  up <- lift (Conv2d_forward (conv (c / 4) (c / 4) 1 1 0 true) up) ;;
  fused <- lift (torch_cat [main; up] 1) ;;
  lift (Conv2d_forward (conv (c / 2) (c / 4) 1 1 0 true) fused).

(** One pyramid level: pool to [size] x [size], 1x1 convolution without
    bias, bilinear up-sampling back to [h] x [w]. *)
Definition described_prior (features h w : Z) (feats : tensor) (size : Z)
  : result tensor :=
  pooled <- lift (AdaptiveAvgPool2d_forward {| output_size := (size, size) |}
                                            feats) ;;
  c <- lift (Conv2d_forward (conv features features 1 1 0 false) pooled) ;;
  lift (F_upsample c (h, w) "bilinear").

(** The pyramid levels and the input, concatenated along the channel axis,
    through a 1x1 bottleneck convolution and a ReLU. *)
Definition described_PSPModule (features out_features : Z) (sizes : list Z)
           (feats : tensor) : result tensor :=
  h <- outcome (size_at feats 2) ;;
  w <- outcome (size_at feats 3) ;;
  priors <- map_m (described_prior features h w feats) sizes ;;
  c <- lift (torch_cat (priors ++ [feats]) 1) ;;
  b <- lift (Conv2d_forward
               (conv (features * (Z.of_nat (List.length sizes) + 1))
                     out_features 1 1 0 true) c) ;;
  lift (ReLU_forward ReLU_new b).

End Described.

(** * The sub-modules of an AWNet instance *)

Section Submodules.
Context `{Framework}.
Import model_3channel.

(** The instances [forward] applies to one tensor. *)
Definition unary_submodules (self : AWNet.t) : list callable :=
  [AWNet.se1 self; AWNet.se2 self; AWNet.se3 self; AWNet.se4 self;
   AWNet.se5 self]
  ++ fst (AWNet.layer1 self) ++ fst (AWNet.layer2 self)
  ++ fst (AWNet.layer3 self) ++ fst (AWNet.layer4 self)
  ++ AWNet.layer5 self
  ++ [AWNet.sc_x1 self; AWNet.sc_x2 self; AWNet.sc_x3 self; AWNet.sc_x4 self;
      AWNet.enhance self].

(** The down-sampling blocks, which return a pair. *)
Definition down_submodules (self : AWNet.t)
  : list (tensor -> counted (tensor * tensor)) :=
  [snd (AWNet.layer1 self); snd (AWNet.layer2 self);
   snd (AWNet.layer3 self); snd (AWNet.layer4 self)].

(** The up-sampling blocks, applied to two tensors. *)
Definition up_submodules (self : AWNet.t)
  : list (tensor -> tensor -> counted tensor) :=
  [AWNet.layer4_up self; AWNet.layer3_up self; AWNet.layer2_up self;
   AWNet.layer1_up self].

(** [P] holds of every call of every sub-module. *)
Definition every_call (P : forall A, counted A -> Prop) (self : AWNet.t)
  : Prop :=
  (forall m, In m (unary_submodules self) -> forall x, P _ (m x))
  /\ (forall m, In m (down_submodules self) -> forall x, P _ (m x))
  /\ (forall m, In m (up_submodules self) -> forall x y, P _ (m x y)).

(** How many sub-module instances one forward pass applies. *)
Definition submodule_calls (self : AWNet.t) : nat :=
  (List.length (unary_submodules self) + 4 + 4)%nat.

End Submodules.

(** A result that is not an exception of the repository's own. *)
Definition host_only {A} (r : result A) : Prop :=
  match r with
  | Ok _ => True
  | Err e => raised_by_host e = true
  end.

(** * AWNet on shapes *)

Section OnShapes.
Local Existing Instance Shape.framework.
Import modules_4channel.

(** Modelled from the spec: [models/modules_3channel.py], which [AWNet]
    imports and src/ lacks.  Its classes are taken to be those of the
    sibling file [models/modules_4channel.py] behind the signatures that the
    call sites of [AWNet] use: [shortcutblock(c)] keeps [c] channels, and
    [GCIWTResUp(c)] takes a [c]-channel tensor, which in the sibling file is
    the class built for [2 * c]. *)
Definition fitted_modules_4channel : model_3channel.modules_3channel := {|
  model_3channel.shortcutblock := fun c =>
    self <- shortcutblock.init c c ;;
    pure (shortcutblock.forward self);
  model_3channel.GCIWTResUp := fun c att =>
    self <- GCIWTResUp.init (2 * c) att None ;;
    pure (GCIWTResUp.forward self);
  model_3channel.GCWTResDown := fun c att norm_layer =>
    self <- GCWTResDown.init c att norm_layer ;;
    pure (GCWTResDown.forward self);
  model_3channel.GCRDB := fun c att =>
    self <- GCRDB.init c att 6 16 ;;
    pure (GCRDB.forward self);
  model_3channel.ContextBlock2d := ContextBlock2d.class;
  model_3channel.SE_net := fun i o =>
    self <- SE_net.init i o 4 true ;;
    pure (SE_net.forward self);
  model_3channel.PSPModule := fun f o sizes =>
    self <- PSPModule.init f o sizes ;;
    pure (PSPModule.forward self)
|}.

(** A non-empty image batch: [N] images of [c] channels and [H] x [W]
    pixels. *)
Definition image (N c H W : Z) : list Z := [N; c; H; W].







End OnShapes.

(** What the three assertions of [ContextBlock2d.__init__] require. *)
Definition asserted (pool : string) (fusions : list string) : bool :=
  str_in pool ["avg"; "att"]
  && forallb (fun f => str_in f ["channel_add"; "channel_mul"]) fusions
  && (0 <? Z.of_nat (List.length fusions)).

(** * The steps of AWNet.forward *)

Section Steps.
Context `{Framework}.
Import model_3channel.





End Steps.

(** The layer a normalisation class gives for [c] channels, when there is
    one. *)
Definition norm_called (norm_layer : option norm_class) (c : Z)
           (norm : option layer) : Prop :=
  match norm_layer, norm with
  | Some f, Some l => f c = Ok l
  | None, None => True
  | _, _ => False
  end.

(** The length of an optional [nn.Sequential]. *)
Definition layers (o : option (list layer)) : nat :=
  match o with
  | Some l => List.length l
  | None => 0%nat
  end.

(** Operators applied by the pyramid levels: those of the stage, and one
    up-sampling. *)
Definition pyramid_steps (stages : list (list layer)) : nat :=
  list_sum (map (fun stage => (List.length stage + 1)%nat) stages).

(** A result whose exception, if any, is one that [allowed] admits. *)
Definition raises_only (allowed : exception -> bool) {A} (r : result A)
  : Prop :=
  match r with
  | Ok _ => True
  | Err e => allowed e = true
  end.

(** An operator of the framework rejecting its operands. *)
Definition rejection (e : exception) : bool :=
  match e with
  | RuntimeError _ => true
  | _ => false
  end.

(** A rejection, or the [ValueError] of unpacking a size that has not four
    entries. *)
Definition rejection_or_unpacking (e : exception) : bool :=
  match e with
  | RuntimeError _ | ValueError _ => true
  | _ => false
  end.

(** A rejection, or the [IndexError] of asking for an axis that the tensor
    has not. *)
Definition rejection_or_axis (e : exception) : bool :=
  match e with
  | RuntimeError _ | IndexError _ => true
  | _ => false
  end.

(** A rejection, the [ValueError] of unpacking or of a batch normalisation
    in training mode, or the [IndexError] of a missing axis. *)
Definition rejection_unpacking_or_axis (e : exception) : bool :=
  match e with
  | RuntimeError _ | ValueError _ | IndexError _ => true
  | _ => false
  end.

(** The [nn.Sequential] that [ContextBlock2d.__init__] builds for a fusion. *)
Definition fusion_layers (inplanes planes ratio : Z) : list layer :=
  [LConv2d {| conv_in_channels := inplanes;
              conv_out_channels := planes / ratio;
              conv_kernel_size := 1; conv_stride := 1; conv_padding := 0;
              conv_bias := true |};
   LLayerNorm {| normalized_shape := [planes / ratio; 1; 1] |};
   LPReLU PReLU_new;
   LConv2d {| conv_in_channels := planes / ratio;
              conv_out_channels := inplanes;
              conv_kernel_size := 1; conv_stride := 1; conv_padding := 0;
              conv_bias := true |}].

(** The layer that the [i]-th turn of the loop of [GCRDB.__init__] appends:
    [MakeDense(_in_channels, growth_rate)] with [_in_channels] grown [i]
    times. *)
Definition dense_layer (c g : Z) (i : nat) : modules_4channel.MakeDense.t :=
  {| modules_4channel.MakeDense.conv :=
       {| conv_in_channels := c + Z.of_nat i * g; conv_out_channels := g;
          conv_kernel_size := 3; conv_stride := 1; conv_padding := 1;
          conv_bias := true |};
     modules_4channel.MakeDense.norm_layer := {| num_features := g |} |}.

(** A batch of [c]-channel maps, whatever its other sizes. *)
Definition has_channels (t : list Z) (c : Z) : Prop :=
  exists N H W, t = image N c H W.

(** A forward pass that, if it returns, has applied [n] operators. *)
Definition returns_after {A} (m : counted A) (n : nat) : Prop :=
  forall y, outcome m = Ok y -> steps m = n.

(** * Outcomes and step counts of sequenced computations *)

Lemma outcome_bind {A B} (m : counted A) (k : A -> counted B) :
  outcome (x <- m ;; k x) = (x <- outcome m ;; outcome (k x)).
Proof.
  destruct m as [n [a | e]]; simpl; [ | reflexivity ].
  destruct (k a); reflexivity.
Qed.

Lemma outcome_op {A} (o : option A) : outcome (op o) = lift o.
Proof. reflexivity. Qed.

Lemma outcome_pure {A} (a : A) : outcome (pure a) = Ok a.
Proof. reflexivity. Qed.

Lemma steps_bind {A B} (m : counted A) (k : A -> counted B) (b : nat) :
  (forall a, steps (k a) <= b)%nat ->
  (steps (x <- m ;; k x) <= steps m + b)%nat.
Proof.
  intros Hk. destruct m as [n [a | e]]; simpl; [ | lia ].
  specialize (Hk a). destruct (k a) as [n' r]; simpl in *. lia.
Qed.

Lemma steps_op {A} (o : option A) : steps (op o) = 1%nat.
Proof. reflexivity. Qed.

Lemma steps_pure {A} (a : A) : steps (pure a) = 0%nat.
Proof. reflexivity. Qed.

Ltac outcomes :=
  repeat (rewrite outcome_bind || rewrite outcome_op || rewrite outcome_pure).

(** * AWNet.forward ignores its auxiliary arguments *)

Section Forward.
Context `{Framework}.
Import model_3channel.

(** C8: the result of [AWNet.forward] does not depend on [target] or
    [teacher_latent]: two runs on the same input with any two choices of
    both arguments return the same thing. *)
Theorem AWNet_forward_ignores_auxiliary :
  forall (self : AWNet.t) (x : tensor)
         (target target' teacher_latent teacher_latent' : option tensor),
    AWNet.forward self x target teacher_latent
    = AWNet.forward self x target' teacher_latent'.
Proof. intros. unfold AWNet.forward. reflexivity. Qed.

End Forward.

(** * Building AWNet on the modules file of the repository *)

Section Construction.
Context `{Framework}.
Import model_3channel.

Lemma shortcutblock_one_argument (c : Z) :
  shortcutblock (modules_3channel := from_modules_4channel) c
  = Err (TypeError "__init__() missing 1 required positional argument: 'out_channels'").
Proof. reflexivity. Qed.

(** C4: with the imported names bound to the classes of
    [models/modules_4channel.py], [AWNet.__init__] raises for every choice
    of [in_channels], [out_channels] and [block]: no instance is built. *)
Theorem AWNet_init_fails_on_modules_4channel :
  forall (in_channels out_channels : Z) (block : list Z),
    exists e,
      AWNet.init (imports := from_modules_4channel)
                 in_channels out_channels block = Err e.
Proof.
  intros. unfold AWNet.init. cbn [and_then result_raising].
  repeat match goal with
         | |- exists e, match ?r with Ok _ => _ | Err _ => _ end = Err e =>
             let E := fresh "E" in
             destruct r eqn:E; [ | eexists; reflexivity ]
         end.
  rewrite shortcutblock_one_argument in *. congruence.
Qed.

End Construction.

(** * Which exceptions a module can raise *)

Lemma result_bind_Ok {A B} (a : A) (k : A -> result B) :
  (x <- Ok a ;; k x) = k a.
Proof. reflexivity. Qed.

Lemma host_only_bind {A B} (r : result A) (k : A -> result B) :
  host_only r -> (forall a, r = Ok a -> host_only (k a)) ->
  host_only (x <- r ;; k x).
Proof. destruct r; simpl; auto. Qed.

Lemma host_only_lift {A} (o : option A) : host_only (lift o).
Proof. destruct o; simpl; auto. Qed.

Lemma host_only_Ok {A} (a : A) : host_only (Ok a).
Proof. exact I. Qed.

Lemma host_only_Conv2d i o k s p b : host_only (nn_Conv2d i o k s p b).
Proof. unfold nn_Conv2d. destruct (_ || _); simpl; auto. Qed.

Lemma host_only_BatchNorm2d n : host_only (nn_BatchNorm2d n).
Proof. unfold nn_BatchNorm2d. destruct (_ <? _); simpl; auto. Qed.

Lemma host_only_LayerNorm l : host_only (nn_LayerNorm l).
Proof. unfold nn_LayerNorm. destruct (existsb _ _); simpl; auto. Qed.

Lemma host_only_floordiv a b : host_only (floordiv (m := result) a b).
Proof. unfold floordiv. destruct (_ =? _); simpl; auto. Qed.

Lemma host_only_BatchNorm2d_class n : host_only (BatchNorm2d_class n).
Proof.
  unfold BatchNorm2d_class. apply host_only_bind; simpl; auto.
  apply host_only_BatchNorm2d.
Qed.

Lemma host_only_for_range {S} (body : Z -> S -> result S) :
  (forall i s, host_only (body i s)) ->
  forall n s, host_only (for_range n body s).
Proof.
  intros Hb n s. unfold for_range. generalize 0 as i.
  revert s. induction (Z.to_nat n) as [ | k IH ]; intros s i; simpl; auto.
  specialize (Hb i s). destruct (body i s); simpl in *; auto.
Qed.

Lemma host_only_map_m {A B} (f : A -> result B) :
  (forall a, host_only (f a)) -> forall l, host_only (map_m f l).
Proof.
  intros Hf. induction l as [ | a l IH ]; simpl; auto.
  specialize (Hf a). destruct (f a); simpl in *; auto.
  destruct (map_m f l); simpl in *; auto.
Qed.

Lemma host_only_unpack4 `{Framework} l : host_only (outcome (unpack4 l)).
Proof.
  destruct l as [ | a [ | b [ | c [ | d [ | ? ? ] ] ] ] ]; simpl; auto.
Qed.

Lemma host_only_size_at `{Framework} t d : host_only (outcome (size_at t d)).
Proof. unfold size_at. destruct (nth_error _ _); simpl; auto. Qed.

Lemma host_only_getattr {A} (a : option A) name :
  host_only (outcome (getattr a name)).
Proof. destruct a; simpl; auto. Qed.

Lemma host_only_BatchNorm2d_call `{Framework} b x :
  host_only (outcome (BatchNorm2d_call b x)).
Proof.
  unfold BatchNorm2d_call.
  destruct (tensor_size x) as [ | n [ | c [ | h [ | w [ | ? ? ] ] ] ] ];
    try exact eq_refl.
  destruct (n * h * w =? 1); [ exact eq_refl | apply host_only_lift ].
Qed.

Ltac host_step :=
  first
    [ apply host_only_Ok
    | apply host_only_lift
    | apply host_only_BatchNorm2d_call
    | apply host_only_Conv2d
    | apply host_only_BatchNorm2d
    | apply host_only_LayerNorm
    | apply host_only_floordiv
    | apply host_only_BatchNorm2d_class
    | apply host_only_unpack4
    | apply host_only_size_at
    | apply host_only_getattr
    | assumption
    | match goal with
      | |- host_only (and_then _ _) => apply host_only_bind; [ | intros ? _ ]
      | |- host_only (match ?p with (_, _) => _ end) => destruct p
      | |- host_only (outcome (match ?p with (_, _) => _ end)) => destruct p
      end ].

Ltac host := outcomes; repeat (host_step; outcomes).

Section HostOnly.
Context `{Framework}.
Import modules_4channel.

Lemma host_only_apply_layer l x : host_only (outcome (apply_layer l x)).
Proof.
  destruct l; cbn [apply_layer];
    first [ apply host_only_BatchNorm2d_call | apply host_only_lift ].
Qed.

Lemma host_only_chain {A} (call : A -> tensor -> counted tensor) ms :
  (forall m, In m ms -> forall x, host_only (outcome (call m x))) ->
  forall x, host_only (outcome (chain call ms x)).
Proof.
  induction ms as [ | m ms IH ]; intros Hc x; cbn [chain]; [ exact I | ].
  outcomes. apply host_only_bind.
  - apply Hc. now left.
  - intros y _. apply IH. intros m' Hin. apply Hc. now right.
Qed.

Lemma host_only_Sequential ls x :
  host_only (outcome (Sequential_forward ls x)).
Proof.
  apply host_only_chain. intros. apply host_only_apply_layer.
Qed.

Lemma host_only_MakeDense_init i g k : host_only (MakeDense.init i g k).
Proof. unfold MakeDense.init. host. Qed.

Lemma host_only_MakeDense_forward self x :
  host_only (outcome (MakeDense.forward self x)).
Proof. unfold MakeDense.forward. host. Qed.

Lemma host_only_SE_net_init i o r a : host_only (SE_net.init i o r a).
Proof. unfold SE_net.init. host. Qed.

Lemma host_only_SE_net_forward self x :
  host_only (outcome (SE_net.forward self x)).
Proof. unfold SE_net.forward. destruct (SE_net.attention self); host. Qed.

Lemma host_only_channel_conv i p r :
  host_only (ContextBlock2d.channel_conv i p r).
Proof. unfold ContextBlock2d.channel_conv. host. Qed.

Lemma ContextBlock2d_init_asserted i p pool fusions ratio :
  asserted pool fusions = true ->
  host_only (ContextBlock2d.init i p pool fusions ratio).
Proof.
  unfold asserted, ContextBlock2d.init. intros Ha.
  apply andb_prop in Ha as [Ha H3]. apply andb_prop in Ha as [H1 H2].
  rewrite H1, H2, H3. cbn [assert]. rewrite !result_bind_Ok.
  apply host_only_bind.
  - destruct (substr_in "att" pool); host.
  - intros [[? ?] ?] _. apply host_only_bind.
    + destruct (str_in "channel_add" fusions); host.
      apply host_only_channel_conv.
    + intros ? _. apply host_only_bind; [ | intros; exact I ].
      destruct (str_in "channel_mul" fusions); host.
      apply host_only_channel_conv.
Qed.

Lemma ContextBlock2d_init_rejected i p pool fusions ratio :
  asserted pool fusions = false ->
  exists msg,
    ContextBlock2d.init i p pool fusions ratio = Err (AssertionError msg).
Proof.
  unfold asserted, ContextBlock2d.init. intros Ha.
  destruct (str_in pool _); [ | eexists; reflexivity ].
  destruct (forallb _ fusions); [ | eexists; reflexivity ].
  simpl in Ha. rewrite Ha. eexists; reflexivity.
Qed.

Lemma host_only_spatial_pool self x :
  host_only (outcome (ContextBlock2d.spatial_pool self x)).
Proof.
  unfold ContextBlock2d.spatial_pool. host.
  destruct (String.eqb _ _); host.
Qed.

Lemma host_only_ContextBlock2d_forward self x :
  host_only (outcome (ContextBlock2d.forward self x)).
Proof.
  unfold ContextBlock2d.forward. host.
  - apply host_only_spatial_pool.
  - destruct (ContextBlock2d.channel_mul_conv self); host.
    apply host_only_Sequential.
  - destruct (ContextBlock2d.channel_add_conv self); host.
    apply host_only_Sequential.
Qed.

End HostOnly.

Section EveryCall.
Context `{Framework}.
Import model_3channel.

Lemma every_call_fields (P : forall A, counted A -> Prop) (self : AWNet.t) :
  every_call P self ->
  ((forall x, P _ (AWNet.se1 self x)) /\ (forall x, P _ (AWNet.se2 self x))
   /\ (forall x, P _ (AWNet.se3 self x)) /\ (forall x, P _ (AWNet.se4 self x))
   /\ (forall x, P _ (AWNet.se5 self x)))
  /\ ((forall x, P _ (AWNet.sc_x1 self x)) /\ (forall x, P _ (AWNet.sc_x2 self x))
      /\ (forall x, P _ (AWNet.sc_x3 self x))
      /\ (forall x, P _ (AWNet.sc_x4 self x))
      /\ (forall x, P _ (AWNet.enhance self x)))
  /\ ((forall m, In m (fst (AWNet.layer1 self)) -> forall x, P _ (m x))
      /\ (forall m, In m (fst (AWNet.layer2 self)) -> forall x, P _ (m x))
      /\ (forall m, In m (fst (AWNet.layer3 self)) -> forall x, P _ (m x))
      /\ (forall m, In m (fst (AWNet.layer4 self)) -> forall x, P _ (m x))
      /\ (forall m, In m (AWNet.layer5 self) -> forall x, P _ (m x)))
  /\ ((forall x, P _ (snd (AWNet.layer1 self) x))
      /\ (forall x, P _ (snd (AWNet.layer2 self) x))
      /\ (forall x, P _ (snd (AWNet.layer3 self) x))
      /\ (forall x, P _ (snd (AWNet.layer4 self) x)))
  /\ ((forall x y, P _ (AWNet.layer4_up self x y))
      /\ (forall x y, P _ (AWNet.layer3_up self x y))
      /\ (forall x y, P _ (AWNet.layer2_up self x y))
      /\ (forall x y, P _ (AWNet.layer1_up self x y))).
Proof.
  unfold every_call, unary_submodules, down_submodules, up_submodules.
  intros (Hu & Hd & Hup).
  repeat split; intros;
    first [ apply Hup | apply Hd | apply Hu ];
    repeat (rewrite in_app_iff; cbn [In]); cbn [In]; intuition auto.
Qed.

End EveryCall.

Section HostOnlyModules.
Context `{Framework}.
Import modules_4channel.

Lemma host_only_counted_map_m {A B} (f : A -> counted B) :
  (forall a, host_only (outcome (f a))) ->
  forall l, host_only (outcome (map_m f l)).
Proof.
  intros Hf. induction l as [ | a l IH ]; cbn [map_m]; [ exact I | ].
  outcomes. apply host_only_bind; [ apply Hf | intros b _ ].
  outcomes. apply host_only_bind; [ apply IH | intros; exact I ].
Qed.

Lemma host_only_ContextBlock2d_class i p :
  host_only (ContextBlock2d.class i p).
Proof.
  unfold ContextBlock2d.class. apply host_only_bind; [ | intros; exact I ].
  apply ContextBlock2d_init_asserted. reflexivity.
Qed.

Lemma ContextBlock2d_class_forward i p f :
  ContextBlock2d.class i p = Ok f ->
  exists self, ContextBlock2d.init i p "att" ["channel_add"] 4 = Ok self
               /\ f = ContextBlock2d.forward self.
Proof.
  unfold ContextBlock2d.class. intros E.
  destruct (ContextBlock2d.init i p "att" ["channel_add"] 4) as [self | e];
    [ | discriminate ].
  exists self. split; [ reflexivity | ]. now inversion E.
Qed.

Lemma host_only_GCRDB_init c n g :
  host_only (GCRDB.init c ContextBlock2d.class n g).
Proof.
  unfold GCRDB.init. apply host_only_bind.
  - apply host_only_for_range. intros i [ms cin]. cbv beta iota. host.
    apply host_only_MakeDense_init.
  - intros [ms cin] _. host. apply host_only_ContextBlock2d_class.
Qed.

Lemma host_only_GCRDB_forward self x :
  (forall y, host_only (outcome (GCRDB.final_att self y))) ->
  host_only (outcome (GCRDB.forward self x)).
Proof.
  intros Ha. unfold GCRDB.forward. host.
  - apply host_only_chain. intros. apply host_only_MakeDense_forward.
  - apply Ha.
Qed.

Lemma GCRDB_init_final_att c att n g self :
  GCRDB.init c att n g = Ok self -> att c c = Ok (GCRDB.final_att self).
Proof.
  unfold GCRDB.init. intros E.
  destruct (for_range _ _ _) as [[ms cin] | ]; [ | discriminate ].
  cbn [and_then result_raising] in E.
  destruct (nn_Conv2d _ _ _ _ _ _); [ | discriminate ].
  destruct (att c c); [ | discriminate ].
  now inversion E.
Qed.

Lemma host_only_GCWTResDown_init c att norm_layer :
  norm_layer = None \/ norm_layer = Some BatchNorm2d_class ->
  host_only (GCWTResDown.init c att norm_layer).
Proof. intros [-> | ->]; unfold GCWTResDown.init; host. Qed.

Lemma host_only_GCWTResDown_forward self x :
  host_only (outcome (GCWTResDown.forward self x)).
Proof.
  unfold GCWTResDown.forward. host.
  apply host_only_Sequential.
Qed.

Lemma host_only_GCIWTResUp_init c att norm_layer :
  norm_layer = None \/ norm_layer = Some BatchNorm2d_class ->
  host_only (GCIWTResUp.init c att norm_layer).
Proof. intros [-> | ->]; unfold GCIWTResUp.init; host. Qed.

Lemma host_only_GCIWTResUp_forward self x y :
  host_only (outcome (GCIWTResUp.forward self x y)).
Proof. unfold GCIWTResUp.forward. host. apply host_only_Sequential. Qed.

Lemma host_only_shortcutblock_init i o : host_only (shortcutblock.init i o).
Proof. unfold shortcutblock.init. host. apply host_only_SE_net_init. Qed.

Lemma host_only_shortcutblock_forward self x :
  host_only (outcome (shortcutblock.forward self x)).
Proof. unfold shortcutblock.forward. host. apply host_only_SE_net_forward. Qed.

Lemma host_only_PSPModule_init f o sizes : host_only (PSPModule.init f o sizes).
Proof.
  unfold PSPModule.init. host.
  apply host_only_map_m. intros size. unfold PSPModule._make_stage. host.
Qed.

Lemma host_only_PSPModule_forward self x :
  host_only (outcome (PSPModule.forward self x)).
Proof.
  unfold PSPModule.forward. host.
  apply host_only_counted_map_m. intros stage. host.
  apply host_only_Sequential.
Qed.

Lemma host_only_last_upsample_init : host_only last_upsample.init.
Proof.
  unfold last_upsample.init. host.
Qed.

Lemma host_only_last_upsample_forward self x :
  host_only (outcome (last_upsample.forward self x)).
Proof.
  unfold last_upsample.forward. host.
  - apply host_only_PSPModule_forward.
  - apply host_only_SE_net_forward.
Qed.

Import model_3channel.

Lemma host_only_AWNet_forward self x target teacher_latent :
  every_call (fun _ m => host_only (outcome m)) self ->
  host_only (outcome (AWNet.forward self x target teacher_latent)).
Proof.
  intros Hc. apply every_call_fields in Hc.
  destruct Hc as ((? & ? & ? & ? & ?) & (? & ? & ? & ? & ?)
                  & (? & ? & ? & ? & ?) & (? & ? & ? & ?) & (? & ? & ? & ?)).
  unfold AWNet.forward, AWNet.encoder_forward.
  repeat (outcomes;
          first [ host_step
                | apply host_only_chain; assumption
                | match goal with
                  | |- context [ match ?p with (_, _) => _ end ] => destruct p
                  end
                | match goal with
                  | Hx : forall x, host_only _ |- _ => apply Hx
                  end
                | match goal with
                  | Hx : forall x y, host_only _ |- _ => apply Hx
                  end ]).
Qed.

End HostOnlyModules.

Lemma host_only_getitem {A} (l : list A) (i : nat) : host_only (getitem l i).
Proof. unfold getitem. destruct (nth_error l i); [ exact I | reflexivity ]. Qed.

Lemma host_only_call_init2 {A} (init : Z -> Z -> result A) args :
  (forall a b, host_only (init a b)) -> host_only (call_init2 init args).
Proof.
  intros Hi. unfold call_init2.
  destruct args as [ | a [ | b [ | ? ? ] ] ];
    first [ apply Hi | reflexivity ].
Qed.

Section HostOnlyAWNet.
Context `{Framework}.
Import model_3channel.

Lemma host_only_AWNet_init (imports : modules_3channel)
      in_channels out_channels block :
  (forall c, host_only (shortcutblock c)) ->
  (forall c, host_only (GCIWTResUp c ContextBlock2d)) ->
  (forall c, host_only (GCWTResDown c ContextBlock2d None)) ->
  (forall c, host_only (GCRDB c ContextBlock2d)) ->
  (forall i o, host_only (SE_net i o)) ->
  (forall f o sizes, host_only (PSPModule f o sizes)) ->
  host_only (AWNet.init in_channels out_channels block).
Proof.
  intros Hs Hu Hd Hr He Hp.
  unfold AWNet.init, AWNet.append_GCRDB.
  repeat first
         [ host_step
         | apply host_only_getitem
         | apply host_only_for_range; intros ? ?
         | apply Hs | apply Hu | apply Hd | apply Hr | apply He | apply Hp ].
Qed.

Lemma host_only_AWNet_init_modules_4channel in_channels out_channels block :
  host_only (AWNet.init (imports := from_modules_4channel)
                        in_channels out_channels block).
Proof.
  apply host_only_AWNet_init; intros;
    cbn [shortcutblock GCIWTResUp GCWTResDown GCRDB ContextBlock2d SE_net
         PSPModule from_modules_4channel];
    (apply host_only_bind; [ | intros; exact I ]).
  - apply host_only_call_init2. apply host_only_shortcutblock_init.
  - apply host_only_GCIWTResUp_init. now left.
  - apply host_only_GCWTResDown_init. now left.
  - apply host_only_GCRDB_init.
  - apply host_only_SE_net_init.
  - apply host_only_PSPModule_init.
Qed.

End HostOnlyAWNet.

(** * No validation of its own, but for one constructor *)

Section Validation.
Context `{Framework}.
Import modules_4channel.
Import model_3channel.

(** C3, as amended: the only exception this code raises itself is the
    [AssertionError] of [ContextBlock2d.__init__], raised exactly when
    [pool] is not "avg" or "att", a fusion is not "channel_add" or
    "channel_mul", or [fusions] is empty.  Every other constructor of the
    modules file (with [att_block] the context block and [norm_layer] absent
    or batch normalisation) and every forward pass raises only what the
    host raises; [GCRDB.forward] and [AWNet.forward] raise only what the host
    or their sub-modules raise.  [AWNet.__init__] raises only what the host
    or the constructors it imports raise, as it calls them; with the
    imported names bound to the classes of the modules file, only what the
    host raises. *)
Theorem validation_only_in_ContextBlock2d :
  (forall i p pool fusions ratio,
      (asserted pool fusions = true ->
       host_only (ContextBlock2d.init i p pool fusions ratio))
      /\ (asserted pool fusions = false ->
          exists msg, ContextBlock2d.init i p pool fusions ratio
                      = Err (AssertionError msg)))
  /\ ((forall i g k, host_only (MakeDense.init i g k))
      /\ (forall c n g, host_only (GCRDB.init c ContextBlock2d.class n g))
      /\ (forall i o r a, host_only (SE_net.init i o r a))
      /\ (forall c att norm_layer,
             norm_layer = None \/ norm_layer = Some BatchNorm2d_class ->
             host_only (GCWTResDown.init c att norm_layer))
      /\ (forall c att norm_layer,
             norm_layer = None \/ norm_layer = Some BatchNorm2d_class ->
             host_only (GCIWTResUp.init c att norm_layer))
      /\ (forall i o, host_only (shortcutblock.init i o))
      /\ (forall f o sizes, host_only (PSPModule.init f o sizes))
      /\ host_only last_upsample.init)
  /\ ((forall self x, host_only (outcome (MakeDense.forward self x)))
      /\ (forall self x, host_only (outcome (SE_net.forward self x)))
      /\ (forall self x, host_only (outcome (ContextBlock2d.forward self x)))
      /\ (forall self x, host_only (outcome (GCWTResDown.forward self x)))
      /\ (forall self x y, host_only (outcome (GCIWTResUp.forward self x y)))
      /\ (forall self x, host_only (outcome (shortcutblock.forward self x)))
      /\ (forall self x, host_only (outcome (PSPModule.forward self x)))
      /\ (forall self x, host_only (outcome (last_upsample.forward self x)))
      /\ (forall self x,
             (forall y, host_only (outcome (GCRDB.final_att self y))) ->
             host_only (outcome (GCRDB.forward self x)))
      /\ (forall c n g self x,
             GCRDB.init c ContextBlock2d.class n g = Ok self ->
             host_only (outcome (GCRDB.forward self x)))
      /\ (forall self x target teacher_latent,
             every_call (fun _ m => host_only (outcome m)) self ->
             host_only (outcome (AWNet.forward self x target teacher_latent))))
  /\ ((forall (imports : modules_3channel) in_channels out_channels block,
          (forall c, host_only (model_3channel.shortcutblock c)) ->
          (forall c,
              host_only (model_3channel.GCIWTResUp
                           c model_3channel.ContextBlock2d)) ->
          (forall c,
              host_only (model_3channel.GCWTResDown
                           c model_3channel.ContextBlock2d None)) ->
          (forall c,
              host_only (model_3channel.GCRDB
                           c model_3channel.ContextBlock2d)) ->
          (forall i o, host_only (model_3channel.SE_net i o)) ->
          (forall f o sizes, host_only (model_3channel.PSPModule f o sizes)) ->
          host_only (AWNet.init in_channels out_channels block))
      /\ (forall in_channels out_channels block,
             host_only (AWNet.init (imports := from_modules_4channel)
                                   in_channels out_channels block))).
Proof.
  split; [ | split; [ | split ] ]; cycle 3.
  { split.
    - intros. now apply host_only_AWNet_init.
    - apply host_only_AWNet_init_modules_4channel. }
  - intros. split.
    + apply ContextBlock2d_init_asserted.
    + apply ContextBlock2d_init_rejected.
  - repeat split; intros;
      first [ apply host_only_MakeDense_init
            | apply host_only_GCRDB_init
            | apply host_only_SE_net_init
            | now apply host_only_GCWTResDown_init
            | now apply host_only_GCIWTResUp_init
            | apply host_only_shortcutblock_init
            | apply host_only_PSPModule_init
            | apply host_only_last_upsample_init ].
  - repeat split; intros;
      first [ apply host_only_MakeDense_forward
            | apply host_only_SE_net_forward
            | apply host_only_ContextBlock2d_forward
            | apply host_only_GCWTResDown_forward
            | apply host_only_GCIWTResUp_forward
            | apply host_only_shortcutblock_forward
            | apply host_only_PSPModule_forward
            | apply host_only_last_upsample_forward
            | now apply host_only_AWNet_forward
            | now apply host_only_GCRDB_forward
            | idtac ].
    apply host_only_GCRDB_forward.
    match goal with
    | E : GCRDB.init _ _ _ _ = Ok _ |- _ =>
        apply GCRDB_init_final_att in E;
        apply ContextBlock2d_class_forward in E as (inst & _ & ->)
    end.
    intros y. apply host_only_ContextBlock2d_forward.
Qed.

End Validation.

(** C3, as stated, fails: [ContextBlock2d(pool='max')] is rejected by an
    assertion of the constructor itself, not by the host. *)
Lemma ContextBlock2d_init_rejects_pool :
  modules_4channel.ContextBlock2d.init 9 32 "max" ["channel_add"] 4
  = Err (AssertionError "")
  /\ ~ host_only
       (modules_4channel.ContextBlock2d.init 9 32 "max" ["channel_add"] 4).
Proof.
  split; [ reflexivity | ].
  intros Hh. vm_compute in Hh. discriminate.
Qed.

Lemma validation_only_in_ContextBlock2d_witness :
  host_only (modules_4channel.ContextBlock2d.init 9 32 "att" ["channel_add"] 4)
  /\ (exists msg,
         modules_4channel.ContextBlock2d.init 9 32 "avg" [] 4
         = Err (AssertionError msg))
  /\ host_only
       (modules_4channel.GCWTResDown.init
          64 (modules_4channel.ContextBlock2d.class (H := Shape.framework))
          None)
  /\ host_only
       (model_3channel.AWNet.init
          (H := Shape.framework) (imports := from_modules_4channel)
          3 3 model_3channel.AWNet.default_block).
Proof.
  destruct (validation_only_in_ContextBlock2d (H := Shape.framework))
    as (Hc & (_ & _ & _ & Hd & _) & _ & (_ & Hi)).
  split; [ | split; [ | split ] ].
  - apply (Hc 9 32 "att" ["channel_add"] 4). reflexivity.
  - apply (Hc 9 32 "avg" [] 4). reflexivity.
  - apply Hd. left. reflexivity.
  - apply Hi.
Defined.

(** * What AWNet.forward returns *)

Lemma result_bind_inv {A B} (r : result A) (k : A -> result B) (b : B) :
  (x <- r ;; k x) = Ok b <-> exists a, r = Ok a /\ k a = Ok b.
Proof.
  destruct r as [a | e]; simpl; split.
  - intros E. now exists a.
  - now intros (a' & [= ->] & E).
  - discriminate.
  - now intros (a' & [=] & _).
Qed.

(** Taking apart a run that returned. *)
Ltac run_inv :=
  repeat match goal with
         | E : outcome (and_then _ _) = Ok _ |- _ => rewrite outcome_bind in E
         | E : outcome (op _) = Ok _ |- _ => rewrite outcome_op in E
         | E : outcome (pure _) = Ok _ |- _ => rewrite outcome_pure in E
         | E : and_then _ _ = Ok _ |- _ =>
             apply result_bind_inv in E;
             let a := fresh "a" in
             let Ea := fresh "Ea" in
             destruct E as (a & Ea & E); cbv beta in E
         | E : outcome (match ?p with (_, _) => _ end) = Ok _ |- _ =>
             destruct p
         | E : match ?p with (_, _) => _ end = Ok _ |- _ => destruct p
         | E : Ok _ = Ok _ |- _ => inversion E; clear E; subst
         end.


Section Returns.
Context `{Framework}.
Import model_3channel.


End Returns.

(** * The forward passes of the blocks, as described *)

Lemma result_bind_ext {A B} (r : result A) (k k' : A -> result B) :
  (forall a, k a = k' a) -> (x <- r ;; k x) = (x <- r ;; k' x).
Proof. intros E. destruct r; simpl; auto. Qed.

Lemma result_bind_ret {A} (r : result A) : (x <- r ;; Ok x) = r.
Proof. now destruct r. Qed.

Lemma result_bind_assoc {A B C} (r : result A) (k : A -> result B)
      (k' : B -> result C) :
  (y <- (x <- r ;; k x) ;; k' y) = (x <- r ;; y <- k x ;; k' y).
Proof. now destruct r. Qed.

Lemma nn_Conv2d_Ok i o k s p b c :
  nn_Conv2d i o k s p b = Ok c ->
  c = conv i o k s p b /\ 0 <= i /\ 0 <= o /\ 0 <= k.
Proof.
  unfold nn_Conv2d. destruct (i <? 0) eqn:Ei; [ discriminate | ].
  destruct (o <? 0) eqn:Eo; [ discriminate | ].
  destruct (k <? 0) eqn:Ek; [ discriminate | ]. simpl.
  intros [= <-]. repeat split; lia.
Qed.

Lemma nn_BatchNorm2d_Ok n b :
  nn_BatchNorm2d n = Ok b -> b = {| num_features := n |} /\ 0 <= n.
Proof.
  unfold nn_BatchNorm2d. destruct (n <? 0) eqn:E; [ discriminate | ].
  intros [= <-]. split; [ reflexivity | lia ].
Qed.

(** Taking apart a constructor that returned. *)
Ltac init_inv :=
  repeat match goal with
         | E : and_then _ _ = Ok _ |- _ =>
             apply result_bind_inv in E;
             let a := fresh "a" in
             let Ea := fresh "Ea" in
             destruct E as (a & Ea & E); cbv beta in E
         | E : match ?p with (_, _) => _ end = Ok _ |- _ => destruct p
         | E : pure _ = Ok _ |- _ => inversion E; clear E; subst
         | E : Ok _ = Ok _ |- _ => inversion E; clear E; subst
         | E : nn_Conv2d _ _ _ _ _ _ = Ok _ |- _ =>
             apply nn_Conv2d_Ok in E; destruct E as (-> & ? & ? & ?)
         | E : nn_BatchNorm2d _ = Ok _ |- _ =>
             apply nn_BatchNorm2d_Ok in E; destruct E as (-> & ?)
         end.

Section AsDescribed.
Context `{Framework}.
Import modules_4channel.

Lemma chain_app {A} (call : A -> tensor -> counted tensor) (a b : list A) x :
  outcome (chain call (a ++ b) x)
  = (y <- outcome (chain call a x) ;; outcome (chain call b y)).
Proof.
  revert x. induction a as [ | m a IH ]; intros x; cbn [chain app].
  - reflexivity.
  - rewrite !outcome_bind, result_bind_assoc.
    apply result_bind_ext. intros y. apply IH.
Qed.

Lemma chain_singleton {A} (call : A -> tensor -> counted tensor) m x :
  outcome (chain call [m] x) = outcome (call m x).
Proof.
  cbn [chain]. rewrite outcome_bind.
  rewrite <- (result_bind_ret (outcome (call m x))) at 2.
  apply result_bind_ext. reflexivity.
Qed.

Lemma MakeDense_forward_described c g self x :
  MakeDense.init c g 3 = Ok self ->
  outcome (MakeDense.forward self x)
  = (y <- lift (Conv2d_forward (conv c g 3 1 1 true) x) ;;
     y <- lift (F_relu y) ;;
     y <- outcome (BatchNorm2d_call {| num_features := g |} y) ;;
     lift (torch_cat [x; y] 1)).
Proof.
  unfold MakeDense.init. intros E. init_inv.
  unfold MakeDense.forward. cbn [MakeDense.conv MakeDense.norm_layer].
  change ((3 - 1) / 2) with 1.
  repeat (outcomes; apply result_bind_ext; intros ?).
  outcomes. apply result_bind_ret.
Qed.

Lemma dense_loop_described g :
  forall n i ms cin ms' cin',
    for_range_from i n
      (fun _ st =>
         let '(modules, _in_channels) := st in
         m <- MakeDense.init _in_channels g 3 ;;
         pure (modules ++ [m], _in_channels + g))
      (ms, cin) = Ok (ms', cin') ->
    cin' = cin + Z.of_nat n * g
    /\ forall x,
        outcome (chain MakeDense.forward ms' x)
        = (y <- outcome (chain MakeDense.forward ms x) ;;
           described_dense_layers cin g n y).
Proof.
  induction n as [ | n IH ]; intros i ms cin ms' cin' E.
  - cbn in E. inversion E; subst. split; [ lia | ].
    intros x. cbn [described_dense_layers]. now rewrite result_bind_ret.
  - cbn [for_range_from] in E. apply result_bind_inv in E.
    destruct E as ([ms1 cin1] & Eb & E).
    apply result_bind_inv in Eb. destruct Eb as (m & Em & Eb).
    inversion Eb; subst; clear Eb.
    apply IH in E. destruct E as (-> & E). split; [ lia | ].
    intros x. rewrite E, chain_app, result_bind_assoc.
    apply result_bind_ext. intros y.
    cbn [described_dense_layers].
    rewrite chain_singleton, (MakeDense_forward_described _ _ _ _ Em).
    repeat (rewrite ?result_bind_assoc;
            first [ reflexivity | apply result_bind_ext; intros ? ]).
Qed.

Lemma GCRDB_forward_described c att_block n g self :
  GCRDB.init c att_block n g = Ok self ->
  forall x,
    outcome (GCRDB.forward self x)
    = described_GCRDB c g (Z.to_nat n) (GCRDB.final_att self) x.
Proof.
  intros E.
  unfold GCRDB.init, for_range in E.
  apply result_bind_inv in E. destruct E as ([ms cin] & Eloop & E).
  apply dense_loop_described in Eloop. destruct Eloop as (-> & Echain).
  init_inv. intros x.
  unfold GCRDB.forward, described_GCRDB.
  cbn [GCRDB.residual_dense_layers GCRDB.conv_1x1 GCRDB.final_att].
  rewrite outcome_bind, Echain. cbn [chain].
  rewrite outcome_pure, result_bind_Ok.
  repeat (outcomes; apply result_bind_ext; intros ?).
  outcomes. apply result_bind_ret.
Qed.

(** C6: a block built by [GCRDB.__init__] computes, on every input [x], the
    chain of dense layers (each concatenating its output onto its input),
    then the 1x1 convolution back to [in_channels], then the attention block
    built from [att_block], and adds the gated result to [x]. *)
Theorem GCRDB_forward_dense_then_gate :
  forall (c : Z) (att_block : att_class) (n g : Z) (self : GCRDB.t),
    GCRDB.init c att_block n g = Ok self ->
    att_block c c = Ok (GCRDB.final_att self)
    /\ forall x,
        outcome (GCRDB.forward self x)
        = described_GCRDB c g (Z.to_nat n) (GCRDB.final_att self) x.
Proof.
  intros c att_block n g self E. split.
  - now apply GCRDB_init_final_att in E.
  - now apply (GCRDB_forward_described c att_block).
Qed.

(** Both sides run the same steps. *)
Ltac same_steps :=
  repeat (outcomes; rewrite ?result_bind_assoc, ?result_bind_Ok;
          first [ reflexivity
                | apply result_bind_ret
                | apply result_bind_ext; intros ?
                | match goal with
                  | |- context [ match ?p with (_, _) => _ end ] => destruct p
                  end ]).

Lemma GCWTResDown_forward_described c att norm_layer self :
  GCWTResDown.init c att norm_layer = Ok self ->
  exists norm,
    norm_called norm_layer c norm
    /\ forall x,
        outcome (GCWTResDown.forward self x) = described_GCWTResDown c norm x.
Proof.
  unfold GCWTResDown.init. intros E.
  destruct norm_layer as [f | ]; init_inv.
  - match goal with
    | E1 : f c = Ok ?n1, E2 : f c = Ok ?n2 |- _ =>
        assert (n2 = n1) by congruence; subst n2; exists (Some n1)
    end.
    split; [ assumption | ]. intros x.
    unfold GCWTResDown.forward, described_GCWTResDown.
    cbn [GCWTResDown.stem GCWTResDown.dwt GCWTResDown.conv1x1
         described_down_stem].
    same_steps.
  - exists None. split; [ exact I | ]. intros x.
    unfold GCWTResDown.forward, described_GCWTResDown.
    cbn [GCWTResDown.stem GCWTResDown.dwt GCWTResDown.conv1x1
         described_down_stem].
    same_steps.
Qed.

Lemma GCIWTResUp_forward_described c att norm_layer self :
  GCIWTResUp.init c att norm_layer = Ok self ->
  exists norm,
    norm_called norm_layer (c / 4) norm
    /\ forall x x_dwt,
        outcome (GCIWTResUp.forward self x x_dwt)
        = described_GCIWTResUp c norm x x_dwt.
Proof.
  unfold GCIWTResUp.init. intros E.
  destruct norm_layer as [f | ]; init_inv.
  - match goal with
    | E1 : f (c / 4) = Ok ?n1, E2 : f (c / 4) = Ok ?n2 |- _ =>
        assert (n2 = n1) by congruence; subst n2; exists (Some n1)
    end.
    split; [ assumption | ]. intros x x_dwt.
    unfold GCIWTResUp.forward, described_GCIWTResUp.
    cbn [GCIWTResUp.stem GCIWTResUp.pre_conv_stem GCIWTResUp.pre_conv
         GCIWTResUp.post_conv GCIWTResUp.iwt GCIWTResUp.last_conv
         described_up_stem].
    same_steps.
  - exists None. split; [ exact I | ]. intros x x_dwt.
    unfold GCIWTResUp.forward, described_GCIWTResUp.
    cbn [GCIWTResUp.stem GCIWTResUp.pre_conv_stem GCIWTResUp.pre_conv
         GCIWTResUp.post_conv GCIWTResUp.iwt GCIWTResUp.last_conv
         described_up_stem].
    same_steps.
Qed.

(** C5: the wavelet transforms are the re-sampling operators.  A block
    built by [GCWTResDown.__init__] applies the DWT to its input and returns
    the stride-2 convolution stem concatenated with a 1x1 convolution of the
    low-frequency band, paired with the wavelet coefficients; a block built
    by [GCIWTResUp.__init__] applies the IWT to the coefficients it is given
    and fuses the result with the pixel-shuffled main path. *)
Theorem wavelet_blocks_resample :
  (forall c att norm_layer self,
      GCWTResDown.init c att norm_layer = Ok self ->
      exists norm,
        norm_called norm_layer c norm
        /\ forall x,
            outcome (GCWTResDown.forward self x)
            = described_GCWTResDown c norm x)
  /\ (forall c att norm_layer self,
         GCIWTResUp.init c att norm_layer = Ok self ->
         exists norm,
           norm_called norm_layer (c / 4) norm
           /\ forall x x_dwt,
               outcome (GCIWTResUp.forward self x x_dwt)
               = described_GCIWTResUp c norm x x_dwt).
Proof.
  split.
  - apply GCWTResDown_forward_described.
  - apply GCIWTResUp_forward_described.
Qed.

Lemma stages_described features h w feats :
  forall sizes stages,
    map_m (fun size => PSPModule._make_stage features size) sizes = Ok stages ->
    outcome (map_m (fun stage =>
                      s <- Sequential_forward stage feats ;;
                      op (F_upsample s (h, w) "bilinear")) stages)
    = map_m (described_prior features h w feats) sizes.
Proof.
  induction sizes as [ | size sizes IH ]; intros stages E.
  - inversion E. reflexivity.
  - cbn [map_m] in E. unfold PSPModule._make_stage at 1 in E.
    init_inv. cbn [map_m].
    match goal with
    | E : map_m _ sizes = Ok _ |- _ => apply IH in E; rewrite <- E
    end.
    unfold described_prior at 1, Sequential_forward.
    cbn [chain apply_layer].
    same_steps.
Qed.

Lemma PSPModule_forward_described features out_features sizes self :
  PSPModule.init features out_features sizes = Ok self ->
  forall feats,
    outcome (PSPModule.forward self feats)
    = described_PSPModule features out_features sizes feats.
Proof.
  unfold PSPModule.init. intros E feats.
  init_inv.
  unfold PSPModule.forward, described_PSPModule.
  cbn [PSPModule.stages PSPModule.bottleneck PSPModule.relu].
  outcomes. apply result_bind_ext. intros h.
  outcomes. apply result_bind_ext. intros w.
  outcomes.
  match goal with
  | E : map_m _ sizes = Ok _ |- _ =>
      rewrite (stages_described _ h w feats _ _ E)
  end.
  same_steps.
Qed.

(** C7: a module built by [PSPModule.__init__] pools its input to each
    configured size (1, 2, 3 and 6 by default), applies a 1x1 convolution to
    each pooled map, up-samples each bilinearly to the height and width of
    the input, concatenates the [len(sizes)] maps and the input itself along
    the channel axis, and returns the ReLU of a 1x1 bottleneck convolution
    of the concatenation. *)
Theorem PSPModule_forward_pools_and_aggregates :
  forall features out_features sizes self,
    PSPModule.init features out_features sizes = Ok self ->
    forall feats,
      outcome (PSPModule.forward self feats)
      = described_PSPModule features out_features sizes feats.
Proof.
  intros features out_features sizes self E feats.
  now apply PSPModule_forward_described.
Qed.

End AsDescribed.

(** * How many operators a forward pass applies *)

Lemma steps_bind_le {A B} (m : counted A) (k : A -> counted B) (a b : nat) :
  (steps m <= a)%nat -> (forall x, steps (k x) <= b)%nat ->
  (steps (x <- m ;; k x) <= a + b)%nat.
Proof.
  intros Hm Hk. pose proof (steps_bind m k b Hk). lia.
Qed.

(** Bounding a run step by step; [leaf] bounds the calls of sub-modules. *)
Ltac count_with leaf :=
  match goal with
  | |- (steps (and_then _ _) <= _)%nat =>
      eapply steps_bind_le; [ count_with leaf | intros ?; count_with leaf ]
  | |- (steps (op _) <= _)%nat => exact (le_n 1)
  | |- (steps (pure _) <= _)%nat => exact (le_n 0)
  | |- (steps (raise _) <= _)%nat => exact (le_n 0)
  | |- (steps (match ?p with (_, _) => _ end) <= _)%nat =>
      destruct p; count_with leaf
  | _ => leaf
  end.

Ltac bounded_by leaf :=
  eapply Nat.le_trans;
  [ count_with leaf | cbn [steps op pure counted_raising fst Nat.add]; try lia ].

Section StepCounts.
Context `{Framework}.
Import modules_4channel.

Lemma steps_chain {A} (call : A -> tensor -> counted tensor) (b : nat) ms :
  (forall m, In m ms -> forall x, (steps (call m x) <= b)%nat) ->
  forall x, (steps (chain call ms x) <= List.length ms * b)%nat.
Proof.
  induction ms as [ | m ms IH ]; intros Hc x; cbn [chain List.length].
  - apply Nat.le_0_l.
  - eapply Nat.le_trans.
    + eapply steps_bind_le.
      * apply Hc. now left.
      * intros y. apply IH. intros m' Hin. apply Hc. now right.
    + lia.
Qed.

Lemma steps_BatchNorm2d_call b x : (steps (BatchNorm2d_call b x) <= 1)%nat.
Proof.
  unfold BatchNorm2d_call.
  destruct (tensor_size x) as [ | n [ | c [ | h [ | w [ | ? ? ] ] ] ] ];
    try exact (Nat.le_0_l 1).
  destruct (n * h * w =? 1); [ exact (Nat.le_0_l 1) | exact (le_n 1) ].
Qed.

Lemma steps_apply_layer l x : (steps (apply_layer l x) <= 1)%nat.
Proof.
  destruct l; first [ apply steps_BatchNorm2d_call | apply le_n ].
Qed.

Lemma steps_Sequential ls x :
  (steps (Sequential_forward ls x) <= List.length ls)%nat.
Proof.
  pose proof (steps_chain apply_layer 1 ls
                (fun m _ x => steps_apply_layer m x) x).
  unfold Sequential_forward. lia.
Qed.

Lemma steps_MakeDense self x : (steps (MakeDense.forward self x) <= 4)%nat.
Proof.
  unfold MakeDense.forward. bounded_by ltac:(apply steps_BatchNorm2d_call).
Qed.

Lemma steps_SE_net self x : (steps (SE_net.forward self x) <= 9)%nat.
Proof.
  unfold SE_net.forward. destruct (SE_net.attention self).
  - bounded_by idtac.
  - cbn. lia.
Qed.

Lemma steps_unpack4 l : (steps (unpack4 l) <= 0)%nat.
Proof.
  destruct l as [ | a [ | b [ | c [ | d [ | ? ? ] ] ] ] ]; apply le_n.
Qed.

Lemma steps_size_at t d : (steps (size_at t d) <= 0)%nat.
Proof. unfold size_at. destruct (nth_error _ _); apply le_n. Qed.

Lemma steps_getattr {A} (a : option A) name : (steps (getattr a name) <= 0)%nat.
Proof. destruct a; apply le_n. Qed.

Lemma steps_spatial_pool self x :
  (steps (ContextBlock2d.spatial_pool self x) <= 8)%nat.
Proof.
  unfold ContextBlock2d.spatial_pool.
  eapply Nat.le_trans.
  - eapply steps_bind_le; [ apply steps_unpack4 | ].
    intros [[[batch channel] height] width].
    instantiate (1 := 8%nat).
    destruct (String.eqb _ _).
    + bounded_by ltac:(apply steps_getattr).
    + bounded_by ltac:(apply steps_getattr).
  - lia.
Qed.

Lemma steps_ContextBlock2d self x :
  (steps (ContextBlock2d.forward self x)
   <= 11 + layers (ContextBlock2d.channel_mul_conv self)
      + layers (ContextBlock2d.channel_add_conv self))%nat.
Proof.
  unfold ContextBlock2d.forward.
  eapply Nat.le_trans.
  - eapply steps_bind_le; [ apply steps_spatial_pool | intros context ].
    eapply steps_bind_le.
    + instantiate (1 := (layers (ContextBlock2d.channel_mul_conv self) + 2)%nat).
      destruct (ContextBlock2d.channel_mul_conv self); cbn [layers].
      * bounded_by ltac:(apply steps_Sequential).
      * cbn. lia.
    + intros out. eapply steps_bind_le; [ | intros; exact (le_n 0) ].
      instantiate (1 := (layers (ContextBlock2d.channel_add_conv self) + 1)%nat).
      destruct (ContextBlock2d.channel_add_conv self); cbn [layers].
      * bounded_by ltac:(apply steps_Sequential).
      * cbn. lia.
  - cbn [steps pure counted_raising fst]. lia.
Qed.

Lemma steps_GCRDB self a x :
  (forall y, (steps (GCRDB.final_att self y) <= a)%nat) ->
  (steps (GCRDB.forward self x)
   <= 4 * List.length (GCRDB.residual_dense_layers self) + a + 2)%nat.
Proof.
  intros Ha. unfold GCRDB.forward.
  bounded_by ltac:(first [ apply Ha
                         | apply steps_chain; intros; apply steps_MakeDense ]).
Qed.

Lemma steps_GCWTResDown self x :
  (steps (GCWTResDown.forward self x)
   <= List.length (GCWTResDown.stem self) + 3)%nat.
Proof.
  unfold GCWTResDown.forward. bounded_by ltac:(apply steps_Sequential).
Qed.

Lemma steps_GCIWTResUp self x y :
  (steps (GCIWTResUp.forward self x y)
   <= List.length (GCIWTResUp.stem self) + 6)%nat.
Proof.
  unfold GCIWTResUp.forward. bounded_by ltac:(apply steps_Sequential).
Qed.

Lemma steps_shortcutblock self x :
  (steps (shortcutblock.forward self x) <= 13)%nat.
Proof.
  unfold shortcutblock.forward. bounded_by ltac:(apply steps_SE_net).
Qed.

Lemma steps_priors feats h w stages :
  (steps (map_m (fun stage =>
                   s <- Sequential_forward stage feats ;;
                   op (F_upsample s (h, w) "bilinear")) stages)
   <= pyramid_steps stages)%nat.
Proof.
  induction stages as [ | stage stages IH ]; cbn [map_m]; [ apply le_n | ].
  bounded_by ltac:(first [ apply steps_Sequential | apply IH ]).
  change (pyramid_steps (stage :: stages))
    with (List.length stage + 1 + pyramid_steps stages)%nat.
  lia.
Qed.

Lemma steps_PSPModule self x :
  (steps (PSPModule.forward self x)
   <= pyramid_steps (PSPModule.stages self) + 3)%nat.
Proof.
  unfold PSPModule.forward.
  bounded_by ltac:(first [ apply steps_size_at | apply steps_priors ]).
Qed.

Lemma steps_last_upsample self x :
  (steps (last_upsample.forward self x)
   <= pyramid_steps (PSPModule.stages (last_upsample.enhance self)) + 18)%nat.
Proof.
  unfold last_upsample.forward.
  bounded_by ltac:(first [ apply steps_PSPModule | apply steps_SE_net ]).
Qed.

End StepCounts.

Section StepsOfAWNet.
Context `{Framework}.
Import modules_4channel.
Import model_3channel.

Lemma steps_chain_id (b : nat) (ms : list callable) :
  (forall m, In m ms -> forall x, (steps (m x) <= b)%nat) ->
  forall x, (steps (chain (fun m => m) ms x) <= List.length ms * b)%nat.
Proof. intros Hc. now apply steps_chain. Qed.

Lemma steps_AWNet self x target teacher_latent (b : nat) :
  every_call (fun _ m => (steps m <= b)%nat) self ->
  (steps (AWNet.forward self x target teacher_latent)
   <= 15 + submodule_calls self * b)%nat.
Proof.
  intros Hc. apply every_call_fields in Hc.
  destruct Hc as ((? & ? & ? & ? & ?) & (? & ? & ? & ? & ?)
                  & (? & ? & ? & ? & ?) & (? & ? & ? & ?) & (? & ? & ? & ?)).
  unfold AWNet.forward, AWNet.encoder_forward.
  eapply Nat.le_trans.
  - count_with ltac:(first [ eapply steps_chain_id; eassumption
                           | match goal with
                             | Hx : forall x, (steps _ <= b)%nat |- _ =>
                                 apply Hx
                             end
                           | match goal with
                             | Hx : forall x y, (steps _ <= b)%nat |- _ =>
                                 apply Hx
                             end ]).
  - unfold submodule_calls, unary_submodules.
    repeat rewrite length_app. cbn [List.length]. lia.
Qed.

(** Every forward pass ends, with a value or an exception, after a number of
    operator applications bounded by the configuration of the module alone.
    [AWNet.forward] applies fifteen operators of its own and calls each
    sub-module once. *)
Theorem forward_passes_are_finite :
  (forall self x, (steps (MakeDense.forward self x) <= 4)%nat)
  /\ (forall self x, (steps (SE_net.forward self x) <= 9)%nat)
  /\ (forall self x,
         (steps (ContextBlock2d.forward self x)
          <= 11 + layers (ContextBlock2d.channel_mul_conv self)
             + layers (ContextBlock2d.channel_add_conv self))%nat)
  /\ (forall self a x,
         (forall y, (steps (GCRDB.final_att self y) <= a)%nat) ->
         (steps (GCRDB.forward self x)
          <= 4 * List.length (GCRDB.residual_dense_layers self) + a + 2)%nat)
  /\ (forall self x,
         (steps (GCWTResDown.forward self x)
          <= List.length (GCWTResDown.stem self) + 3)%nat)
  /\ (forall self x y,
         (steps (GCIWTResUp.forward self x y)
          <= List.length (GCIWTResUp.stem self) + 6)%nat)
  /\ (forall self x, (steps (shortcutblock.forward self x) <= 13)%nat)
  /\ (forall self x,
         (steps (PSPModule.forward self x)
          <= pyramid_steps (PSPModule.stages self) + 3)%nat)
  /\ (forall self x,
         (steps (last_upsample.forward self x)
          <= pyramid_steps (PSPModule.stages (last_upsample.enhance self))
             + 18)%nat)
  /\ (forall self x target teacher_latent b,
         every_call (fun _ m => (steps m <= b)%nat) self ->
         (steps (AWNet.forward self x target teacher_latent)
          <= 15 + submodule_calls self * b)%nat).
Proof.
  repeat split; intros.
  - apply steps_MakeDense.
  - apply steps_SE_net.
  - apply steps_ContextBlock2d.
  - now apply steps_GCRDB.
  - apply steps_GCWTResDown.
  - apply steps_GCIWTResUp.
  - apply steps_shortcutblock.
  - apply steps_PSPModule.
  - apply steps_last_upsample.
  - now apply steps_AWNet.
Qed.

End StepsOfAWNet.

(** * Shapes through the blocks *)

(** Linear arithmetic with division by constants. *)
Ltac arith := first [ lia | Z.div_mod_to_equations; lia ].

(** Comparisons that arithmetic decides. *)
Ltac bool_true :=
  repeat match goal with
         | |- context [ ?a <=? ?b ] =>
             rewrite (proj2 (Z.leb_le a b)) by arith
         | |- context [ ?a <? ?b ] =>
             rewrite (proj2 (Z.ltb_lt a b)) by arith
         | |- context [ ?a =? ?b ] =>
             rewrite (proj2 (Z.eqb_eq a b)) by arith
         end.

(** Evaluating the operators on a shape, leaving the arithmetic. *)
Ltac shape_cbn :=
  cbn -[Z.eqb Z.leb Z.ltb Z.div Z.modulo Z.mul Z.add Z.sub Shape.conv_len
        Shape.broadcast_dim Shape.prod].

Section ShapeOperators.
Local Existing Instance Shape.framework.

Lemma conv_len_same len : Shape.conv_len len 3 1 1 = len.
Proof. unfold Shape.conv_len. rewrite Z.div_1_r. lia. Qed.

Lemma conv_len_pointwise len : Shape.conv_len len 1 1 0 = len.
Proof. unfold Shape.conv_len. rewrite Z.div_1_r. lia. Qed.

Lemma conv_len_half len : len mod 2 = 0 -> Shape.conv_len len 3 2 1 = len / 2.
Proof. unfold Shape.conv_len. intros. arith. Qed.

Lemma conv_same_size i o b N H W :
  0 < o -> 0 < H -> 0 < W ->
  Conv2d_forward (conv i o 3 1 1 b) [N; i; H; W] = Some [N; o; H; W].
Proof.
  intros Ho HH HW. shape_cbn. rewrite Z.eqb_refl. bool_true.
  shape_cbn. now rewrite !conv_len_same.
Qed.

Lemma conv_pointwise i o b N H W :
  0 < o -> 0 < H -> 0 < W ->
  Conv2d_forward (conv i o 1 1 0 b) [N; i; H; W] = Some [N; o; H; W].
Proof.
  intros Ho HH HW. shape_cbn. rewrite Z.eqb_refl. bool_true.
  shape_cbn. now rewrite !conv_len_pointwise.
Qed.

Lemma conv_stride_2 i o b N H W :
  0 < o -> 0 < H -> 0 < W -> H mod 2 = 0 -> W mod 2 = 0 ->
  Conv2d_forward (conv i o 3 2 1 b) [N; i; H; W]
  = Some [N; o; H / 2; W / 2].
Proof.
  intros Ho HH HW EH EW. shape_cbn. rewrite Z.eqb_refl. bool_true.
  shape_cbn. now rewrite !conv_len_half.
Qed.

Lemma batch_norm_same n N H W :
  BatchNorm2d_forward {| num_features := n |} [N; n; H; W]
  = Some [N; n; H; W].
Proof. shape_cbn. now rewrite Z.eqb_refl. Qed.

Lemma batch_norm_in_training n N H W :
  N * H * W <> 1 ->
  outcome (BatchNorm2d_call {| num_features := n |} [N; n; H; W])
  = Ok [N; n; H; W].
Proof.
  intros Hv. unfold BatchNorm2d_call. cbn [tensor_size Shape.framework].
  rewrite (proj2 (Z.eqb_neq _ _) Hv), outcome_op, batch_norm_same.
  reflexivity.
Qed.

Lemma cat_channels a b N H W :
  torch_cat [[N; a; H; W]; [N; b; H; W]] 1 = Some [N; a + b; H; W].
Proof.
  cbn [torch_cat Shape.framework]. unfold Shape.cat, Shape.dim_of.
  change (Z.to_nat 1) with 1%nat.
  cbn [Shape.set_dim List.length Nat.ltb Nat.leb forallb Shape.list_eqb map
       fold_right nth].
  rewrite !Z.eqb_refl. bool_true. cbn [andb].
  now rewrite Z.add_0_r.
Qed.

Lemma broadcast_dim_one x : Shape.broadcast_dim x 1 = Some x.
Proof.
  unfold Shape.broadcast_dim. destruct (x =? 1); reflexivity.
Qed.

Lemma broadcast_dim_same x : Shape.broadcast_dim x x = Some x.
Proof. unfold Shape.broadcast_dim. now rewrite Z.eqb_refl. Qed.

Lemma add_same N C H W :
  tensor_add [N; C; H; W] [N; C; H; W] = Some [N; C; H; W].
Proof.
  cbn [tensor_add Shape.framework]. unfold Shape.broadcast.
  cbn [rev app Shape.broadcast_rev].
  now rewrite !broadcast_dim_same.
Qed.

Lemma add_per_channel N C H W :
  tensor_add [N; C; H; W] [N; C; 1; 1] = Some [N; C; H; W].
Proof.
  cbn [tensor_add Shape.framework]. unfold Shape.broadcast.
  cbn [rev app Shape.broadcast_rev].
  now rewrite !broadcast_dim_one, !broadcast_dim_same.
Qed.

Lemma mul_per_channel N C H W :
  tensor_mul [N; C; H; W] [N; C; 1; 1] = Some [N; C; H; W].
Proof. apply add_per_channel. Qed.

Lemma view_as (t shape : list Z) :
  Forall (fun d => 0 <= d) shape -> Shape.prod t = Shape.prod shape ->
  tensor_view t shape = Some shape.
Proof.
  intros Hs Hp. cbn [tensor_view Shape.framework]. unfold Shape.view.
  replace (forallb (fun d => 0 <=? d) shape) with true.
  - rewrite Hp, Z.eqb_refl. reflexivity.
  - symmetry. apply forallb_forall. intros d Hd.
    rewrite Forall_forall in Hs. apply Hs in Hd. lia.
Qed.

End ShapeOperators.

Section ShapeOperators2.
Local Existing Instance Shape.framework.

Lemma unsqueeze_1 a b c : tensor_unsqueeze [a; b; c] 1 = Some [a; 1; b; c].
Proof. reflexivity. Qed.

Lemma unsqueeze_3 a b c : tensor_unsqueeze [a; b; c] 3 = Some [a; b; c; 1].
Proof. reflexivity. Qed.

Lemma softmax_last a b c :
  Softmax_forward {| softmax_dim := 2 |} [a; b; c] = Some [a; b; c].
Proof. reflexivity. Qed.

Lemma matmul_column N C K :
  torch_matmul [N; 1; C; K] [N; 1; K; 1] = Some [N; 1; C; 1].
Proof.
  cbn [torch_matmul Shape.framework]. unfold Shape.matmul.
  now rewrite !broadcast_dim_same, Z.eqb_refl.
Qed.

Lemma layer_norm_channels N m :
  LayerNorm_forward {| normalized_shape := [m; 1; 1] |} [N; m; 1; 1]
  = Some [N; m; 1; 1].
Proof.
  cbn [LayerNorm_forward Shape.framework]. unfold Shape.layer_norm.
  cbn [normalized_shape List.length Nat.leb Nat.sub skipn Shape.list_eqb andb].
  now rewrite !Z.eqb_refl.
Qed.

Lemma pool_to size N C H W :
  AdaptiveAvgPool2d_forward {| output_size := (size, size) |} [N; C; H; W]
  = Some [N; C; size; size].
Proof. reflexivity. Qed.

Lemma upsample_to N C h w H W mode :
  0 < h -> 0 < w -> 0 < H -> 0 < W ->
  F_upsample [N; C; h; w] (H, W) mode = Some [N; C; H; W].
Proof.
  intros. cbn [F_upsample Shape.framework]. unfold Shape.upsample.
  cbn [fst snd]. bool_true. reflexivity.
Qed.

Lemma pixel_shuffle_2 N C H W :
  C mod 4 = 0 ->
  PixelShuffle_forward {| upscale_factor := 2 |} [N; C; H; W]
  = Some [N; C / 4; H * 2; W * 2].
Proof.
  intros. cbn [PixelShuffle_forward Shape.framework].
  unfold Shape.pixel_shuffle. cbn [upscale_factor].
  change (2 * 2) with 4. bool_true. reflexivity.
Qed.

Lemma dwt_halves N C H W :
  H mod 2 = 0 -> W mod 2 = 0 ->
  DWT_forward DWT_new [N; C; H; W]
  = Some ([N; C; H / 2; W / 2], [N; 4 * C; H / 2; W / 2]).
Proof.
  intros. cbn [DWT_forward Shape.framework]. unfold Shape.dwt.
  bool_true. reflexivity.
Qed.

Lemma iwt_doubles N C H W :
  IWT_forward IWT_new [N; C; H; W] = Some [N; C / 4; 2 * H; 2 * W].
Proof. reflexivity. Qed.

End ShapeOperators2.

(** Running a block on a shape, one operator at a time. *)
Ltac shape_run :=
  repeat first
         [ rewrite outcome_bind
         | rewrite outcome_op
         | rewrite outcome_pure
         | rewrite result_bind_Ok
         | rewrite conv_same_size by arith
         | rewrite conv_pointwise by arith
         | rewrite conv_stride_2 by arith
         | rewrite batch_norm_same
         | rewrite batch_norm_in_training by first [ arith | nia ]
         | rewrite cat_channels
         | rewrite add_same
         | rewrite add_per_channel
         | rewrite mul_per_channel
         | rewrite unsqueeze_1
         | rewrite unsqueeze_3
         | rewrite softmax_last
         | rewrite matmul_column
         | rewrite layer_norm_channels
         | rewrite pool_to
         | rewrite upsample_to by arith
         | rewrite pixel_shuffle_2 by arith
         | rewrite dwt_halves by arith
         | rewrite iwt_doubles
         | progress cbn [lift apply_layer chain Sequential_forward
                         F_relu torch_sigmoid PReLU_forward ReLU_forward
                         Shape.framework unpack4 tensor_size getattr
                         size_at nth_error] ].

Lemma nn_LayerNorm_Ok shape l :
  nn_LayerNorm shape = Ok l -> l = {| normalized_shape := shape |}.
Proof.
  unfold nn_LayerNorm. destruct (existsb _ _); [ discriminate | ].
  now intros [= <-].
Qed.

Section ShapesOfBlocks.
Local Existing Instance Shape.framework.
Import modules_4channel.

Lemma dense_layers_shape g N H W :
  0 < H -> 0 < W -> 0 < g -> N * H * W <> 1 ->
  forall n c,
    described_dense_layers c g n [N; c; H; W]
    = Ok [N; c + Z.of_nat n * g; H; W].
Proof.
  intros HH HW Hg Hv. induction n as [ | n IH ]; intros c.
  - cbn [described_dense_layers]. do 3 f_equal. lia.
  - cbn [described_dense_layers]. shape_run. rewrite IH.
    do 3 f_equal. lia.
Qed.

Lemma ContextBlock2d_init_default i p :
  ContextBlock2d.init i p "att" ["channel_add"] 4
  = (conv_mask <- nn_Conv2d i 1 1 1 0 true ;;
     c1 <- nn_Conv2d i (p / 4) 1 1 0 true ;;
     ln <- nn_LayerNorm [p / 4; 1; 1] ;;
     c2 <- nn_Conv2d (p / 4) i 1 1 0 true ;;
     pure {| ContextBlock2d.inplanes := i;
             ContextBlock2d.planes := p;
             ContextBlock2d.pool := "att";
             ContextBlock2d.fusions := ["channel_add"];
             ContextBlock2d.conv_mask := Some conv_mask;
             ContextBlock2d.softmax := Some {| softmax_dim := 2 |};
             ContextBlock2d.avg_pool := None;
             ContextBlock2d.channel_add_conv :=
               Some [LConv2d c1; LLayerNorm ln; LPReLU PReLU_new; LConv2d c2];
             ContextBlock2d.channel_mul_conv := None |}).
Proof.
  unfold ContextBlock2d.init, ContextBlock2d.channel_conv, floordiv.
  cbv -[nn_Conv2d nn_LayerNorm Z.div].
  destruct (nn_Conv2d i 1 1 1 0 true); [ | reflexivity ].
  destruct (nn_Conv2d i (p / 4) 1 1 0 true); [ | reflexivity ].
  destruct (nn_LayerNorm [p / 4; 1; 1]); [ | reflexivity ].
  destruct (nn_Conv2d (p / 4) i 1 1 0 true); reflexivity.
Qed.

Lemma ContextBlock2d_keeps_shape c self N H W :
  ContextBlock2d.init c c "att" ["channel_add"] 4 = Ok self ->
  0 < c / 4 -> 0 <= N -> 0 < H -> 0 < W ->
  outcome (ContextBlock2d.forward self [N; c; H; W]) = Ok [N; c; H; W].
Proof.
  rewrite ContextBlock2d_init_default. intros E Hc HN HH HW.
  init_inv.
  match goal with
  | E : nn_LayerNorm _ = Ok _ |- _ => apply nn_LayerNorm_Ok in E; subst
  end.
  unfold ContextBlock2d.forward, ContextBlock2d.spatial_pool.
  cbn [ContextBlock2d.pool ContextBlock2d.conv_mask ContextBlock2d.softmax
       ContextBlock2d.channel_mul_conv ContextBlock2d.channel_add_conv].
  change (String.eqb "att" "att") with true. cbv iota.
  shape_run.
  rewrite (view_as [N; c; H; W] [N; c; H * W]).
  2: { repeat constructor; nia. }
  2: { unfold Shape.prod. cbn [fold_right]. ring. }
  shape_run.
  rewrite (view_as [N; 1; H; W] [N; 1; H * W]).
  2: { repeat constructor; nia. }
  2: { unfold Shape.prod. cbn [fold_right]. ring. }
  shape_run.
  rewrite (view_as [N; 1; c; 1] [N; c; 1; 1]).
  2: { repeat constructor; lia. }
  2: { unfold Shape.prod. cbn [fold_right]. ring. }
  shape_run. reflexivity.
Qed.

Lemma GCRDB_keeps_shape c n g self N H W :
  GCRDB.init c ContextBlock2d.class n g = Ok self ->
  0 < c / 4 -> (0 < n -> 0 < g /\ N * H * W <> 1) ->
  0 <= N -> 0 < H -> 0 < W ->
  outcome (GCRDB.forward self [N; c; H; W]) = Ok [N; c; H; W].
Proof.
  intros E Hc Hn HN HH HW.
  rewrite (GCRDB_forward_described _ _ _ _ _ E).
  apply GCRDB_init_final_att in E.
  apply ContextBlock2d_class_forward in E as (inst & Einst & ->).
  unfold described_GCRDB.
  assert (Ed : described_dense_layers c g (Z.to_nat n) [N; c; H; W]
               = Ok [N; c + Z.of_nat (Z.to_nat n) * g; H; W]).
  { destruct (Z.to_nat n) as [ | k ] eqn:En.
    - cbn [described_dense_layers]. do 3 f_equal. lia.
    - destruct Hn as (Hg & Hv); [ lia | ].
      now apply dense_layers_shape. }
  rewrite Ed. shape_run.
  rewrite (ContextBlock2d_keeps_shape _ _ _ _ _ Einst) by assumption.
  shape_run. reflexivity.
Qed.








End ShapesOfBlocks.

(** * GCRDB keeps the shape of its input *)

Section ShapeOfGCRDB.
Local Existing Instance Shape.framework.
Import modules_4channel.

Lemma conv_gives c x y :
  Conv2d_forward c x = Some y ->
  exists N H W,
    x = [N; conv_in_channels c; H; W]
    /\ y = [N; conv_out_channels c;
            Shape.conv_len H (conv_kernel_size c) (conv_stride c)
                           (conv_padding c);
            Shape.conv_len W (conv_kernel_size c) (conv_stride c)
                           (conv_padding c)]
    /\ conv_kernel_size c <= H + 2 * conv_padding c
    /\ conv_kernel_size c <= W + 2 * conv_padding c
    /\ 0 < conv_out_channels c.
Proof.
  cbn [Conv2d_forward Shape.framework]. unfold Shape.conv2d.
  destruct x as [ | N [ | ch [ | H [ | W [ | ? ? ] ] ] ] ]; try discriminate.
  destruct (ch =? conv_in_channels c) eqn:Ec; [ | discriminate ].
  destruct (0 <? conv_out_channels c) eqn:Eo; [ | discriminate ].
  destruct (0 <? conv_stride c); [ | discriminate ].
  destruct (conv_kernel_size c <=? H + 2 * conv_padding c) eqn:EH;
    [ | discriminate ].
  destruct (conv_kernel_size c <=? W + 2 * conv_padding c) eqn:EW;
    [ | discriminate ].
  cbn [andb]. intros [= <-]. exists N, H, W.
  apply Z.eqb_eq in Ec. subst ch.
  repeat split; lia.
Qed.

Lemma conv_accepts c x y :
  Conv2d_forward c x = Some y ->
  exists N H W,
    x = [N; conv_in_channels c; H; W]
    /\ conv_kernel_size c <= H + 2 * conv_padding c
    /\ conv_kernel_size c <= W + 2 * conv_padding c.
Proof.
  intros E. apply conv_gives in E as (N & H & W & Ex & _ & HH & HW & _).
  exists N, H, W. auto.
Qed.

Lemma conv_without_output i o k s p b x :
  o <= 0 -> Conv2d_forward (conv i o k s p b) x = None.
Proof.
  intros Ho. destruct (Conv2d_forward _ x) as [ y | ] eqn:E; [ | reflexivity ].
  apply conv_gives in E as (_ & _ & _ & _ & _ & _ & _ & Hp).
  cbn [conv conv_out_channels] in Hp. lia.
Qed.

Lemma described_GCRDB_accepts c g n att x out :
  described_GCRDB c g n att x = Ok out ->
  exists N H W, x = [N; c; H; W] /\ 0 < H /\ 0 < W.
Proof.
  unfold described_GCRDB. intros E.
  apply result_bind_inv in E. destruct E as (d & Ed & E).
  destruct n as [ | n ].
  - cbn [described_dense_layers] in Ed. inversion Ed; subst d.
    apply result_bind_inv in E. destruct E as (p & Ep & _).
    destruct (Conv2d_forward _ x) eqn:Ec; [ | discriminate ].
    apply conv_accepts in Ec. destruct Ec as (N & H & W & -> & HH & HW).
    cbn [conv conv_in_channels conv_kernel_size conv_padding] in *.
    exists N, H, W. repeat split; try lia. do 2 f_equal. lia.
  - cbn [described_dense_layers] in Ed.
    apply result_bind_inv in Ed. destruct Ed as (y & Ey & _).
    destruct (Conv2d_forward _ x) eqn:Ec; [ | discriminate ].
    apply conv_accepts in Ec. destruct Ec as (N & H & W & -> & HH & HW).
    cbn [conv conv_in_channels conv_kernel_size conv_padding] in *.
    exists N, H, W. repeat split; lia.
Qed.

(** What a first dense layer that returns tells of the growth rate and of
    the batch. *)
Lemma dense_layers_accept c g n N H W out :
  described_dense_layers c g (S n) [N; c; H; W] = Ok out ->
  0 < g /\ N * H * W <> 1.
Proof.
  cbn [described_dense_layers]. intros E.
  apply result_bind_inv in E. destruct E as (y & Ey & E).
  apply result_bind_inv in E. destruct E as (r & Er & E).
  apply result_bind_inv in E. destruct E as (b & Eb & _).
  destruct (Conv2d_forward _ _) as [ y' | ] eqn:Ec; [ | discriminate ].
  apply conv_gives in Ec
    as (N' & H' & W' & Ex & -> & _ & _ & Hg).
  cbn [conv conv_out_channels conv_kernel_size conv_stride conv_padding]
    in *.
  inversion Ex; subst N' H' W'. inversion Ey; subst y.
  cbn [F_relu Shape.framework lift] in Er. inversion Er; subst r.
  rewrite !conv_len_same in Eb.
  split; [ exact Hg | ].
  intros Hv. unfold BatchNorm2d_call in Eb.
  cbn [tensor_size Shape.framework] in Eb.
  rewrite (proj2 (Z.eqb_eq _ _) Hv) in Eb. discriminate.
Qed.

Lemma ContextBlock2d_default_rejects c self N H W :
  ContextBlock2d.init c c "att" ["channel_add"] 4 = Ok self ->
  0 < H -> 0 < W -> N < 0 \/ c / 4 <= 0 ->
  exists e, outcome (ContextBlock2d.forward self [N; c; H; W]) = Err e.
Proof.
  rewrite ContextBlock2d_init_default. intros E HH HW Hr. init_inv.
  match goal with
  | E : nn_LayerNorm _ = Ok _ |- _ => apply nn_LayerNorm_Ok in E; subst
  end.
  unfold ContextBlock2d.forward, ContextBlock2d.spatial_pool.
  cbn [ContextBlock2d.pool ContextBlock2d.conv_mask ContextBlock2d.softmax
       ContextBlock2d.channel_mul_conv ContextBlock2d.channel_add_conv].
  change (String.eqb "att" "att") with true. cbv iota.
  destruct (Z_lt_le_dec N 0) as [ HN | HN ].
  - shape_run.
    cbn [tensor_view Shape.framework]. unfold Shape.view. cbn [forallb].
    rewrite (proj2 (Z.leb_gt 0 N)) by lia.
    cbn [andb lift]. eexists. reflexivity.
  - assert (Hc : c / 4 <= 0) by lia.
    repeat first
           [ progress shape_run
           | rewrite view_as
               by first [ solve [ repeat constructor; nia ]
                        | solve [ unfold Shape.prod; cbn [fold_right];
                                  ring ] ]
           | rewrite conv_without_output by assumption
           | progress cbn [lift and_then result_raising] ].
    eexists. reflexivity.
Qed.

(** C9: a block built by [GCRDB.__init__] (with the context block as
    attention) keeps the shape of its input.  Whatever the input, a forward
    pass that returns was given a batch whose channel count is the
    configured [in_channels], and returns a tensor of the very shape of the
    input.  It does return on every batch of non-empty images of
    [in_channels] channels, when [in_channels] is at least 4 (the
    reduction ratio of the context block), the growth rate is positive and
    the batch has more than one value per channel (the batch normalisation
    of the dense layers being in training mode); the last two matter only
    when the block has a dense layer. *)
Theorem GCRDB_preserves_shape :
  forall (in_channels num_dense_layer growth_rate : Z) (self : GCRDB.t),
    GCRDB.init in_channels ContextBlock2d.class num_dense_layer growth_rate
    = Ok self ->
    (4 <= in_channels -> (0 < num_dense_layer -> 0 < growth_rate) ->
     forall N H W,
       0 < N -> 0 < H -> 0 < W -> (0 < num_dense_layer -> 1 < N * H * W) ->
       outcome (GCRDB.forward self (image N in_channels H W))
       = Ok (image N in_channels H W))
    /\ (forall x out,
           outcome (GCRDB.forward self x) = Ok out ->
           out = x /\ exists N H W, x = image N in_channels H W).
Proof.
  intros c n g self E. split.
  - intros Hc Hg N H W HN HH HW Hv.
    apply (GCRDB_keeps_shape c n g);
      [ exact E | arith | | lia | assumption | assumption ].
    intros Hn. split; [ auto | ]. specialize (Hv Hn). lia.
  - intros x out Ex.
    pose proof Ex as Ed.
    rewrite (GCRDB_forward_described _ _ _ _ _ E) in Ed.
    pose proof (described_GCRDB_accepts _ _ _ _ _ _ Ed)
      as (N & H & W & -> & HH & HW).
    split; [ | exists N, H, W; reflexivity ].
    assert (Hn : 0 < n -> 0 < g /\ N * H * W <> 1).
    { intros Hn. unfold described_GCRDB in Ed.
      apply result_bind_inv in Ed. destruct Ed as (d & Ed & _).
      destruct (Z.to_nat n) as [ | k ] eqn:En; [ lia | ].
      now apply dense_layers_accept in Ed. }
    assert (Hd : described_dense_layers c g (Z.to_nat n) [N; c; H; W]
                 = Ok [N; c + Z.of_nat (Z.to_nat n) * g; H; W]).
    { destruct (Z.to_nat n) as [ | k ] eqn:En.
      - cbn [described_dense_layers]. do 3 f_equal. lia.
      - destruct Hn as (Hg & Hv); [ lia | ].
        now apply dense_layers_shape. }
    assert (Hc : 0 < c / 4 /\ 0 <= N).
    { pose proof E as Ef.
      apply GCRDB_init_final_att in Ef.
      apply ContextBlock2d_class_forward in Ef as (inst & Einst & Ef).
      unfold described_GCRDB in Ed. rewrite Hd, Ef in Ed.
      rewrite result_bind_Ok in Ed.
      destruct (Z_lt_le_dec 0 (c / 4)) as [ Hq | Hq ];
        [ destruct (Z_lt_le_dec N 0) as [ HN | HN ]; [ | auto ] | ].
      - exfalso. revert Ed. shape_run.
        destruct (ContextBlock2d_default_rejects _ _ N H W Einst HH HW)
          as (e & ->); [ auto | discriminate ].
      - exfalso. revert Ed.
        destruct (Z_lt_le_dec 0 c) as [ Hp | Hp ].
        + shape_run.
          destruct (ContextBlock2d_default_rejects _ _ N H W Einst HH HW)
            as (e & ->); [ auto | discriminate ].
        + rewrite conv_without_output by assumption. discriminate. }
    destruct Hc as (Hc & HN).
    rewrite (GCRDB_keeps_shape c n g) in Ex by assumption.
    now inversion Ex.
Qed.

End ShapeOfGCRDB.

(** * The classes of the modules file, fitted, behave as described *)

Lemma nn_Conv2d_nonneg i o k s p b :
  0 <= i -> 0 <= o -> 0 <= k ->
  nn_Conv2d i o k s p b = Ok (conv i o k s p b).
Proof.
  intros Hi Ho Hk. unfold nn_Conv2d.
  rewrite (proj2 (Z.ltb_ge i 0)), (proj2 (Z.ltb_ge o 0)),
    (proj2 (Z.ltb_ge k 0)) by lia.
  reflexivity.
Qed.

Lemma nn_BatchNorm2d_nonneg n :
  0 <= n -> nn_BatchNorm2d n = Ok {| num_features := n |}.
Proof.
  intros Hn. unfold nn_BatchNorm2d.
  now rewrite (proj2 (Z.ltb_ge n 0)) by lia.
Qed.

Lemma nn_LayerNorm_nonneg m :
  0 <= m -> nn_LayerNorm [m; 1; 1] = Ok {| normalized_shape := [m; 1; 1] |}.
Proof.
  intros Hm. unfold nn_LayerNorm. cbn [existsb].
  now rewrite (proj2 (Z.ltb_ge m 0)) by lia.
Qed.

(** Running a constructor whose channel counts are not negative. *)
Ltac init_run :=
  repeat first
         [ rewrite nn_Conv2d_nonneg by arith
         | rewrite nn_BatchNorm2d_nonneg by arith
         | rewrite nn_LayerNorm_nonneg by arith
         | rewrite result_bind_Ok
         | progress cbn [for_range_from map_m] ].

Section Builds.
Context `{Framework}.
Import modules_4channel.

Lemma ContextBlock2d_class_builds c :
  0 <= c -> exists f, ContextBlock2d.class c c = Ok f.
Proof.
  intros Hc. unfold ContextBlock2d.class.
  rewrite ContextBlock2d_init_default. init_run. eexists. reflexivity.
Qed.

Lemma GCRDB_builds c :
  0 <= c -> exists self, GCRDB.init c ContextBlock2d.class 6 16 = Ok self.
Proof.
  intros Hc. destruct (ContextBlock2d_class_builds c Hc) as (f & Ef).
  unfold GCRDB.init, for_range, MakeDense.init.
  change (Z.to_nat 6) with 6%nat.
  init_run. rewrite Ef. init_run. eexists. reflexivity.
Qed.




Lemma GCWTResDown_builds c att :
  0 <= c -> exists self, GCWTResDown.init c att None = Ok self.
Proof.
  intros Hc. unfold GCWTResDown.init. init_run. eexists. reflexivity.
Qed.

Lemma GCIWTResUp_builds c att :
  0 <= c -> exists self, GCIWTResUp.init c att None = Ok self.
Proof.
  intros Hc. unfold GCIWTResUp.init. init_run. eexists. reflexivity.
Qed.

End Builds.

Section ResidualBlocksOfAStage.
Context `{Framework}.
Import model_3channel.
Context {imports : modules_3channel}.


End ResidualBlocksOfAStage.


Section Fitted.
Local Existing Instance Shape.framework.
Import modules_4channel.


End Fitted.

(** * The five outputs of AWNet.forward *)

(** Sizes along one axis of an image whose size is [16 * k]. *)
Ltac size_is a b :=
  match goal with
  | |- context [ a ] => replace a with b by arith
  end.

Ltac sizes k :=
  repeat first
         [ size_is (16 * k / 2) (8 * k)
         | size_is (8 * k / 2) (4 * k)
         | size_is (4 * k / 2) (2 * k)
         | size_is (2 * k / 2) k
         | size_is (2 * (2 * k)) (4 * k)
         | size_is (2 * (4 * k)) (8 * k)
         | size_is (2 * (8 * k)) (16 * k)
         | size_is (16 * k / 4) (4 * k)
         | size_is (16 * k / 8) (2 * k)
         | size_is (16 * k / 16) k ].

Section Outputs.
Local Existing Instance Shape.framework.
Import model_3channel.





End Outputs.

Section ScalesAndLatent.
Import model_3channel.


End ScalesAndLatent.

(** * Where the construction of AWNet stops *)

Lemma for_range_total {S} (body : Z -> S -> result S) :
  (forall i s, exists s', body i s = Ok s') ->
  forall n s, exists s', for_range n body s = Ok s'.
Proof.
  intros Hb n s. unfold for_range. generalize 0 as i. revert s.
  induction (Z.to_nat n) as [ | k IH ]; intros s i; cbn [for_range_from].
  - now exists s.
  - destruct (Hb i s) as (s' & ->). rewrite result_bind_Ok. apply IH.
Qed.

Lemma getitem_total {A} (l : list A) (i : nat) :
  (i < List.length l)%nat -> exists a, getitem l i = Ok a.
Proof.
  intros Hi. unfold getitem.
  destruct (nth_error l i) eqn:E; [ eauto | ].
  apply nth_error_None in E. lia.
Qed.

Section StopsAtShortcut.
Context `{Framework}.
Import model_3channel.

Lemma append_GCRDB_builds n c l :
  0 <= c ->
  exists l',
    AWNet.append_GCRDB (imports := from_modules_4channel) n c l = Ok l'.
Proof.
  intros Hc. unfold AWNet.append_GCRDB. apply for_range_total.
  intros i s. cbn [GCRDB ContextBlock2d from_modules_4channel].
  destruct (GCRDB_builds c Hc) as (self & ->).
  rewrite !result_bind_Ok. eexists. reflexivity.
Qed.

(** When [in_channels] is not negative and [block] has its five entries,
    everything before the first shortcut block is built, and the exception
    is the [TypeError] of the call [shortcutblock(64)]. *)
Lemma AWNet_init_raises_TypeError in_channels out_channels block :
  0 <= in_channels -> (5 <= List.length block)%nat ->
  AWNet.init (imports := from_modules_4channel)
             in_channels out_channels block
  = Err (TypeError "__init__() missing 1 required positional argument: 'out_channels'").
Proof.
  intros Hi Hb. unfold AWNet.init.
  rewrite nn_Conv2d_nonneg by lia.
  cbn [GCWTResDown GCIWTResUp shortcutblock from_modules_4channel].
  repeat first
         [ rewrite result_bind_Ok
         | progress cbn [pure result_raising]
         | match goal with
           | |- context [ getitem block ?i ] =>
               let n := fresh "n" in
               destruct (getitem_total block i) as (n & ->); [ lia | ]
           | |- context [ AWNet.append_GCRDB ?n ?c ?l ] =>
               let l' := fresh "l" in
               destruct (append_GCRDB_builds n c l) as (l' & ->); [ lia | ]
           | |- context [ modules_4channel.GCWTResDown.init ?c ?a None ] =>
               let d := fresh "d" in
               destruct (GCWTResDown_builds c a) as (d & ->); [ lia | ]
           | |- context [ modules_4channel.GCIWTResUp.init ?c ?a None ] =>
               let d := fresh "d" in
               destruct (GCIWTResUp_builds c a) as (d & ->); [ lia | ]
           end ].
  reflexivity.
Qed.

End StopsAtShortcut.

(** * The theorems at concrete inputs *)

Section Instances.
Local Existing Instance Shape.framework.
Import modules_4channel.
Import model_3channel.

(** The run of the [__main__] block of the modules file: a tensor of 256
    channels at 112 x 112 goes down to 56 x 56 and back up. *)
Lemma wavelet_blocks_resample_witness :
  (exists self,
      GCWTResDown.init 256 ContextBlock2d.class (Some BatchNorm2d_class)
      = Ok self
      /\ outcome (GCWTResDown.forward self [1; 256; 112; 112])
         = Ok ([1; 512; 56; 56], [1; 1024; 56; 56]))
  /\ (exists self,
         GCIWTResUp.init 1024 ContextBlock2d.class None = Ok self
         /\ outcome (GCIWTResUp.forward self [1; 512; 56; 56] [1; 1024; 56; 56])
            = Ok [1; 256; 112; 112]).
Proof.
  split.
  - eexists. split; [ reflexivity | ].
    match goal with
    | |- outcome (GCWTResDown.forward ?self _) = _ =>
        destruct (proj1 (wavelet_blocks_resample (H := Shape.framework))
                        256 ContextBlock2d.class (Some BatchNorm2d_class)
                        self eq_refl)
          as (norm & Hn & Hd)
    end.
    rewrite Hd. destruct norm as [ l | ]; [ | contradiction ].
    cbn in Hn. inversion Hn. reflexivity.
  - eexists. split; [ reflexivity | ].
    match goal with
    | |- outcome (GCIWTResUp.forward ?self _ _) = _ =>
        destruct (proj2 (wavelet_blocks_resample (H := Shape.framework))
                        1024 ContextBlock2d.class None self eq_refl)
          as (norm & Hn & Hd)
    end.
    rewrite Hd. destruct norm; [ contradiction | ]. reflexivity.
Defined.


Lemma GCRDB_forward_dense_then_gate_witness :
  exists self,
    GCRDB.init 64 ContextBlock2d.class 6 16 = Ok self
    /\ outcome (GCRDB.forward self [1; 64; 8; 8])
       = described_GCRDB 64 16 6 (GCRDB.final_att self) [1; 64; 8; 8]
    /\ outcome (GCRDB.forward self [1; 64; 8; 8]) = Ok [1; 64; 8; 8].
Proof.
  eexists. split; [ reflexivity | ]. split.
  - apply (GCRDB_forward_dense_then_gate 64 ContextBlock2d.class 6 16).
    reflexivity.
  - reflexivity.
Defined.

Lemma PSPModule_forward_pools_and_aggregates_witness :
  PSPModule.default_sizes = [1; 2; 3; 6]
  /\ exists self,
      PSPModule.init 64 64 PSPModule.default_sizes = Ok self
      /\ outcome (PSPModule.forward self [1; 64; 8; 8])
         = described_PSPModule 64 64 [1; 2; 3; 6] [1; 64; 8; 8]
      /\ described_PSPModule 64 64 [1; 2; 3; 6] [1; 64; 8; 8]
         = Ok [1; 64; 8; 8].
Proof.
  split; [ reflexivity | ].
  eexists. split; [ reflexivity | ]. split.
  - apply (PSPModule_forward_pools_and_aggregates 64 64 [1; 2; 3; 6]).
    reflexivity.
  - reflexivity.
Defined.

Lemma GCRDB_preserves_shape_witness :
  exists self,
    GCRDB.init 64 ContextBlock2d.class 6 16 = Ok self
    /\ outcome (GCRDB.forward self (image 1 64 8 8)) = Ok (image 1 64 8 8).
Proof.
  eexists. split; [ reflexivity | ].
  apply (proj1 (GCRDB_preserves_shape 64 6 16 _ eq_refl)); lia.
Defined.



Lemma forward_passes_are_finite_witness :
  exists self,
    GCRDB.init 64 ContextBlock2d.class 6 16 = Ok self
    /\ (steps (GCRDB.forward self (image 1 64 8 8)) <= 41)%nat.
Proof.
  eexists. split; [ reflexivity | ].
  destruct (forward_passes_are_finite (H := Shape.framework))
    as (_ & _ & Hatt & Hrdb & _).
  eapply Nat.le_trans.
  - apply Hrdb. intros y. apply Hatt.
  - vm_compute. apply le_n.
Defined.

End Instances.

(** A height that 16 does not divide is rejected on the way down: 24 is
    halved three times, and the fourth wavelet transform meets 3 rows. *)
Lemma AWNet_forward_rejects_24 :
  exists self,
    model_3channel.AWNet.init (imports := fitted_modules_4channel) 3 3
                              model_3channel.AWNet.default_block
    = Ok self
    /\ outcome (model_3channel.AWNet.forward self (image 1 3 24 24) None None)
       = Err (RuntimeError "operand rejected").
Proof.
  eexists. split; [ reflexivity | vm_compute; reflexivity ].
Qed.

(** * The squeeze-excitation gate *)

Lemma floordiv_Ok a b q :
  floordiv (m := result) a b = Ok q <-> b <> 0 /\ q = a / b.
Proof.
  unfold floordiv. destruct (b =? 0) eqn:E.
  - apply Z.eqb_eq in E. split; [ discriminate | intros (Hb & _); lia ].
  - apply Z.eqb_neq in E. cbn. split.
    + intros [= <-]. now split.
    + intros (_ & ->). reflexivity.
Qed.

Lemma floordiv_nonzero a b :
  b <> 0 -> floordiv (m := result) a b = Ok (a / b).
Proof. intros Hb. now apply floordiv_Ok. Qed.

Section SqueezeExcitation.
Local Existing Instance Shape.framework.
Import modules_4channel.

Lemma SE_net_init_Ok i o r a self :
  SE_net.init i o r a = Ok self
  <-> (0 <= i /\ 0 <= o /\ r <> 0 /\ 0 <= i / r
       /\ self = {| SE_net.attention := a;
                    SE_net.avg_pool := {| output_size := (1, 1) |};
                    SE_net.conv_in := conv i i 1 1 0 true;
                    SE_net.conv_mid := conv i (i / r) 1 1 0 true;
                    SE_net.conv_out := conv (i / r) o 1 1 0 true;
                    SE_net.x_red := conv i o 1 1 0 true |}).
Proof.
  unfold SE_net.init. split.
  - intros E. init_inv.
    repeat match goal with
           | E : floordiv _ _ = Ok _ |- _ =>
               apply floordiv_Ok in E; destruct E as (? & ->)
           end.
    repeat split; try assumption; lia.
  - intros (Hi & Ho & Hr & Hm & ->).
    repeat first [ rewrite floordiv_nonzero by assumption
                 | progress init_run ].
    reflexivity.
Qed.

(** X1: [SE_net.__init__] returns exactly when [in_channels] and
    [out_channels] are not negative, [reduction] is not zero and
    [in_channels // reduction] is not negative, and then the four
    convolutions have the channel counts of the source; with a zero
    [reduction] and a valid [in_channels] the exception is the
    [ZeroDivisionError] of [in_channels // reduction]. *)
Theorem SE_net_init_returns_iff :
  forall i o r a,
    (forall self,
        SE_net.init i o r a = Ok self
        <-> (0 <= i /\ 0 <= o /\ r <> 0 /\ 0 <= i / r
             /\ self = {| SE_net.attention := a;
                          SE_net.avg_pool := {| output_size := (1, 1) |};
                          SE_net.conv_in := conv i i 1 1 0 true;
                          SE_net.conv_mid := conv i (i / r) 1 1 0 true;
                          SE_net.conv_out := conv (i / r) o 1 1 0 true;
                          SE_net.x_red := conv i o 1 1 0 true |}))
    /\ (0 <= i -> r = 0 ->
        SE_net.init i o r a
        = Err (ZeroDivisionError "integer division or modulo by zero")).
Proof.
  intros i o r a. split.
  - intros self. apply SE_net_init_Ok.
  - intros Hi ->. unfold SE_net.init. init_run. reflexivity.
Qed.

Lemma SE_net_init_returns_iff_witness :
  (exists self, SE_net.init 64 32 4 true = Ok self)
  /\ SE_net.init 64 32 0 true
     = Err (ZeroDivisionError "integer division or modulo by zero").
Proof.
  split.
  - eexists.
    apply (proj1 (SE_net_init_returns_iff 64 32 4 true)).
    repeat split; first [ lia | discriminate | reflexivity ].
  - apply (proj2 (SE_net_init_returns_iff 64 32 0 true)); [ lia | reflexivity ].
Defined.

Lemma SE_net_forward_shape i o r self N H W :
  SE_net.init i o r true = Ok self -> 0 < i / r -> 0 < o ->
  0 < H -> 0 < W ->
  outcome (SE_net.forward self [N; i; H; W]) = Ok [N; o; H; W].
Proof.
  intros E Hm' Ho' HH HW. apply SE_net_init_Ok in E.
  destruct E as (Hi & Ho & Hr & Hm & ->).
  assert (Hi' : 0 < i)
    by (destruct (Z.eq_dec i 0) as [-> | ];
        [ rewrite Z.div_0_l in Hm' by assumption; lia | lia ]).
  unfold SE_net.forward.
  cbn [SE_net.attention SE_net.avg_pool SE_net.conv_in SE_net.conv_mid
       SE_net.conv_out SE_net.x_red].
  shape_run. reflexivity.
Qed.

(** X2: a gate built with attention, with at least one channel in its
    squeezed map ([0 < in_channels // reduction]) and at least one output
    channel, maps a non-empty batch of non-empty images of [in_channels]
    channels to the same batch with [out_channels] channels; a gate built
    with [attention=False] returns its input as it is, without applying any
    operator, whatever [out_channels] is. *)
Theorem SE_net_forward_shapes :
  forall i o r self,
    (SE_net.init i o r true = Ok self ->
     0 < i / r -> 0 < o ->
     forall N H W, 0 < N -> 0 < H -> 0 < W ->
       outcome (SE_net.forward self [N; i; H; W]) = Ok [N; o; H; W])
    /\ (SE_net.init i o r false = Ok self ->
        forall x, SE_net.forward self x = (0%nat, Ok x)).
Proof.
  intros i o r self. split.
  - intros E Hm Ho N H W _ HH HW. now apply (SE_net_forward_shape i o r).
  - intros E x. apply SE_net_init_Ok in E.
    destruct E as (_ & _ & _ & _ & ->). reflexivity.
Qed.

Lemma SE_net_forward_shapes_witness :
  (exists self,
      SE_net.init 64 32 4 true = Ok self
      /\ outcome (SE_net.forward self [2; 64; 8; 8]) = Ok [2; 32; 8; 8])
  /\ (exists self,
         SE_net.init 64 32 4 false = Ok self
         /\ SE_net.forward self [2; 64; 8; 8] = (0%nat, Ok [2; 64; 8; 8])).
Proof.
  split.
  - eexists. split; [ reflexivity | ].
    apply (proj1 (SE_net_forward_shapes 64 32 4 _));
      first [ reflexivity | lia ].
  - eexists. split; [ reflexivity | ].
    apply (proj2 (SE_net_forward_shapes 64 32 4 _)). reflexivity.
Defined.

End SqueezeExcitation.

(** * The context block, in every configuration *)

Lemma str_in_two x a b : str_in x [a; b] = true -> x = a \/ x = b.
Proof.
  unfold str_in. cbn [existsb]. rewrite !orb_true_iff, !String.eqb_eq.
  intros [E | [E | E]]; [ now left | now right | discriminate ].
Qed.

Lemma asserted_pool pool fusions :
  asserted pool fusions = true -> pool = "avg" \/ pool = "att".
Proof.
  unfold asserted. rewrite !andb_true_iff. intros ((Hp & _) & _).
  now apply str_in_two.
Qed.

Lemma asserted_some_fusion pool fusions :
  asserted pool fusions = true ->
  str_in "channel_add" fusions = true \/ str_in "channel_mul" fusions = true.
Proof.
  unfold asserted. rewrite !andb_true_iff. intros ((_ & Hf) & Hn).
  destruct fusions as [ | f fusions ]; [ discriminate | ].
  cbn [forallb] in Hf. apply andb_true_iff in Hf as (Hf & _).
  apply str_in_two in Hf. unfold str_in. cbn [existsb].
  destruct Hf as [-> | ->]; [ left | right ];
    now rewrite String.eqb_refl.
Qed.

Lemma channel_conv_Ok i p ratio l :
  modules_4channel.ContextBlock2d.channel_conv i p ratio = Ok l
  <-> ratio <> 0 /\ 0 <= i /\ 0 <= p / ratio /\ l = fusion_layers i p ratio.
Proof.
  unfold modules_4channel.ContextBlock2d.channel_conv. split.
  - intros E. init_inv.
    repeat match goal with
           | E : floordiv _ _ = Ok _ |- _ =>
               apply floordiv_Ok in E; destruct E as (? & ->)
           | E : nn_LayerNorm _ = Ok _ |- _ =>
               apply nn_LayerNorm_Ok in E; subst
           end.
    repeat split; try assumption; lia.
  - intros (Hr & Hi & Hm & ->).
    repeat first [ rewrite floordiv_nonzero by assumption
                 | progress init_run ].
    reflexivity.
Qed.

Section ContextBlock.
Local Existing Instance Shape.framework.
Import modules_4channel.

Lemma ContextBlock2d_init_inv inplanes planes pool fusions ratio self :
  ContextBlock2d.init inplanes planes pool fusions ratio = Ok self ->
  asserted pool fusions = true /\ ratio <> 0
  /\ 0 <= inplanes /\ 0 <= planes / ratio
  /\ self
     = {| ContextBlock2d.inplanes := inplanes;
          ContextBlock2d.planes := planes;
          ContextBlock2d.pool := pool;
          ContextBlock2d.fusions := fusions;
          ContextBlock2d.conv_mask :=
            if String.eqb pool "att"
            then Some (conv inplanes 1 1 1 0 true) else None;
          ContextBlock2d.softmax :=
            if String.eqb pool "att"
            then Some {| softmax_dim := 2 |} else None;
          ContextBlock2d.avg_pool :=
            if String.eqb pool "att"
            then None else Some {| output_size := (1, 1) |};
          ContextBlock2d.channel_add_conv :=
            if str_in "channel_add" fusions
            then Some (fusion_layers inplanes planes ratio) else None;
          ContextBlock2d.channel_mul_conv :=
            if str_in "channel_mul" fusions
            then Some (fusion_layers inplanes planes ratio) else None |}.
Proof.
  rename inplanes into ip, planes into p.
  intros E.
  destruct (asserted pool fusions) eqn:Ha.
  2: { destruct (ContextBlock2d_init_rejected ip p pool fusions ratio Ha)
         as (msg & Em). congruence. }
  pose proof (asserted_pool _ _ Ha) as Hpool.
  pose proof (asserted_some_fusion _ _ Ha) as Hsome.
  unfold asserted in Ha. rewrite !andb_true_iff in Ha.
  destruct Ha as ((H1 & H2) & H3).
  unfold ContextBlock2d.init in E. rewrite H1, H2, H3 in E.
  cbn [assert] in E. rewrite !result_bind_Ok in E.
  destruct (str_in "channel_add" fusions) eqn:Eadd;
    destruct (str_in "channel_mul" fusions) eqn:Emul;
    destruct Hpool as [-> | ->];
    change (substr_in "att" "avg") with false in E;
    change (substr_in "att" "att") with true in E;
    cbv iota in E; init_inv;
    repeat match goal with
           | E : ContextBlock2d.channel_conv _ _ _ = Ok _ |- _ =>
               apply channel_conv_Ok in E; destruct E as (? & ? & ? & ->)
           end;
    try (destruct Hsome; discriminate);
    repeat split; try assumption; try reflexivity.
Qed.

Lemma ContextBlock2d_init_builds inplanes planes pool fusions ratio :
  asserted pool fusions = true -> ratio <> 0 ->
  0 <= inplanes -> 0 <= planes / ratio ->
  exists self,
    ContextBlock2d.init inplanes planes pool fusions ratio = Ok self.
Proof.
  rename inplanes into ip, planes into p.
  intros Ha Hr Hi Hm.
  pose proof (asserted_pool _ _ Ha) as Hpool.
  unfold asserted in Ha. rewrite !andb_true_iff in Ha.
  destruct Ha as ((H1 & H2) & H3).
  unfold ContextBlock2d.init. rewrite H1, H2, H3.
  cbn [assert]. rewrite !result_bind_Ok.
  assert (Ec : ContextBlock2d.channel_conv ip p ratio
               = Ok (fusion_layers ip p ratio))
    by (apply channel_conv_Ok; repeat split; assumption).
  destruct (str_in "channel_add" fusions);
    destruct (str_in "channel_mul" fusions);
    destruct Hpool as [-> | ->];
    change (substr_in "att" "avg") with false;
    change (substr_in "att" "att") with true;
    cbv iota; rewrite ?Ec;
    repeat first [ rewrite nn_Conv2d_nonneg by lia
                 | rewrite result_bind_Ok
                 | progress cbn [pure result_raising] ];
    eexists; reflexivity.
Qed.

(** Reshaping to a size of as many elements. *)
Ltac view_run :=
  repeat (shape_run;
          try (rewrite view_as
                by first [ solve [ repeat constructor; nia ]
                         | solve [ unfold Shape.prod; cbn [fold_right];
                                   ring ] ])).

Lemma ContextBlock2d_forward_shape inplanes planes pool fusions ratio self :
  ContextBlock2d.init inplanes planes pool fusions ratio = Ok self ->
  0 < inplanes -> 0 < planes / ratio ->
  forall N H W, 0 <= N -> 0 < H -> 0 < W ->
    outcome (ContextBlock2d.forward self [N; inplanes; H; W])
    = Ok [N; inplanes; H; W].
Proof.
  intros E Hi' Hm' N H W HN HH HW.
  apply ContextBlock2d_init_inv in E as (Ha & Hr & Hi & Hm & ->).
  unfold ContextBlock2d.forward, ContextBlock2d.spatial_pool, fusion_layers.
  cbn [ContextBlock2d.pool ContextBlock2d.conv_mask ContextBlock2d.softmax
       ContextBlock2d.avg_pool
       ContextBlock2d.channel_mul_conv ContextBlock2d.channel_add_conv].
  destruct (asserted_pool _ _ Ha) as [-> | ->];
    change (String.eqb "avg" "att") with false;
    change (String.eqb "att" "att") with true; cbv iota;
    destruct (str_in "channel_add" fusions);
    destruct (str_in "channel_mul" fusions);
    view_run; reflexivity.
Qed.

(** X3: [ContextBlock2d.__init__] returns exactly when its three assertions
    hold, [ratio] is not zero, and [inplanes] and [planes // ratio] are not
    negative.  The instance then has the mask convolution and the softmax
    when [pool] is "att" and the average pooling when it is "avg", and one
    bottleneck per fusion named in [fusions]. *)
Theorem ContextBlock2d_init_returns_iff :
  forall inplanes planes pool fusions ratio,
    (exists self,
        ContextBlock2d.init inplanes planes pool fusions ratio = Ok self)
    <-> (asserted pool fusions = true /\ ratio <> 0
         /\ 0 <= inplanes /\ 0 <= planes / ratio).
Proof.
  intros ip p pool fusions ratio. split.
  - intros (self & E). apply ContextBlock2d_init_inv in E. tauto.
  - intros (Ha & Hr & Hi & Hm). now apply ContextBlock2d_init_builds.
Qed.

(** X4: the instance that [ContextBlock2d.__init__] returns has the mask
    convolution and the softmax exactly when [pool] is "att", the average
    pooling exactly when it is "avg", and a bottleneck of two pointwise
    convolutions around a layer normalisation for each fusion that
    [fusions] names, [None] for the other. *)
Theorem ContextBlock2d_init_attributes :
  forall inplanes planes pool fusions ratio self,
    ContextBlock2d.init inplanes planes pool fusions ratio = Ok self ->
    (ContextBlock2d.conv_mask self
     = if String.eqb pool "att"
       then Some (conv inplanes 1 1 1 0 true) else None)
    /\ (ContextBlock2d.softmax self
        = if String.eqb pool "att" then Some {| softmax_dim := 2 |} else None)
    /\ (ContextBlock2d.avg_pool self
        = if String.eqb pool "att"
          then None else Some {| output_size := (1, 1) |})
    /\ (ContextBlock2d.channel_add_conv self
        = if str_in "channel_add" fusions
          then Some (fusion_layers inplanes planes ratio) else None)
    /\ (ContextBlock2d.channel_mul_conv self
        = if str_in "channel_mul" fusions
          then Some (fusion_layers inplanes planes ratio) else None)
    /\ (ContextBlock2d.channel_add_conv self <> None
        \/ ContextBlock2d.channel_mul_conv self <> None).
Proof.
  intros ip p pool fusions ratio self E.
  apply ContextBlock2d_init_inv in E as (Ha & _ & _ & _ & ->).
  cbn [ContextBlock2d.conv_mask ContextBlock2d.softmax
       ContextBlock2d.avg_pool
       ContextBlock2d.channel_mul_conv ContextBlock2d.channel_add_conv].
  repeat split.
  destruct (asserted_some_fusion _ _ Ha) as [-> | ->];
    [ left | right ]; discriminate.
Qed.

(** X5: in every configuration that [ContextBlock2d.__init__] accepts
    (either pooling, either fusion or both) with at least one input channel
    and at least one channel in the bottleneck ([0 < planes // ratio]),
    [forward] maps a non-empty batch of non-empty [inplanes]-channel maps,
    held as a contiguous tensor, to a tensor of the same shape. *)
Theorem ContextBlock2d_forward_keeps_shape :
  forall inplanes planes pool fusions ratio self,
    ContextBlock2d.init inplanes planes pool fusions ratio = Ok self ->
    0 < inplanes -> 0 < planes / ratio ->
    forall N H W, 0 < N -> 0 < H -> 0 < W ->
      outcome (ContextBlock2d.forward self [N; inplanes; H; W])
      = Ok [N; inplanes; H; W].
Proof.
  intros ip p pool fusions ratio self E Hi Hm N H W HN HH HW.
  apply (ContextBlock2d_forward_shape ip p pool fusions ratio);
    first [ assumption | lia ].
Qed.

Lemma ContextBlock2d_init_returns_iff_witness :
  (exists self, ContextBlock2d.init 9 32 "att" ["channel_add"] 4 = Ok self)
  /\ (asserted "avg" ["channel_mul"; "channel_add"] = true /\ 8 <> 0
      /\ 0 <= 64 /\ 0 <= 64 / 8).
Proof.
  split.
  - apply (proj2 (ContextBlock2d_init_returns_iff 9 32 "att" ["channel_add"]
                                                  4)).
    repeat split; first [ lia | discriminate | reflexivity ].
  - apply (proj1 (ContextBlock2d_init_returns_iff
                    64 64 "avg" ["channel_mul"; "channel_add"] 8)).
    eexists. reflexivity.
Defined.

Lemma ContextBlock2d_init_attributes_witness :
  exists self,
    ContextBlock2d.init 64 64 "avg" ["channel_mul"] 8 = Ok self
    /\ ContextBlock2d.conv_mask self = None
    /\ ContextBlock2d.avg_pool self = Some {| output_size := (1, 1) |}
    /\ ContextBlock2d.channel_add_conv self = None
    /\ ContextBlock2d.channel_mul_conv self = Some (fusion_layers 64 64 8).
Proof.
  eexists. split; [ reflexivity | ].
  destruct (ContextBlock2d_init_attributes
              64 64 "avg" ["channel_mul"] 8 _ eq_refl)
    as (E1 & _ & E3 & E4 & E5 & _).
  repeat split; assumption.
Defined.

Lemma ContextBlock2d_forward_keeps_shape_witness :
  exists self,
    ContextBlock2d.init 64 64 "avg" ["channel_mul"; "channel_add"] 8 = Ok self
    /\ outcome (ContextBlock2d.forward self [2; 64; 8; 6]) = Ok [2; 64; 8; 6].
Proof.
  eexists. split; [ reflexivity | ].
  apply (ContextBlock2d_forward_keeps_shape
           64 64 "avg" ["channel_mul"; "channel_add"] 8 _ eq_refl);
    first [ lia | reflexivity ].
Defined.

End ContextBlock.

(** * Which exceptions a forward pass can raise *)

Section RaisesOnly.
Context `{Framework}.
Import modules_4channel.

Lemma raises_only_bind {A B} allowed (r : counted A) (k : A -> counted B) :
  raises_only allowed (outcome r) ->
  (forall a, raises_only allowed (outcome (k a))) ->
  raises_only allowed (outcome (a <- r ;; k a)).
Proof.
  destruct r as [n [a | e]]; cbn; intros Hr Hk; [ | exact Hr ].
  specialize (Hk a). destruct (k a) as [n' r']. exact Hk.
Qed.

Lemma raises_only_op {A} (allowed : exception -> bool) (o : option A) :
  (forall msg, allowed (RuntimeError msg) = true) ->
  raises_only allowed (outcome (op o)).
Proof. intros Ha. destruct o; cbn; [ exact I | apply Ha ]. Qed.

Lemma raises_only_pure {A} allowed (a : A) :
  raises_only allowed (outcome (pure a)).
Proof. exact I. Qed.

Lemma raises_only_chain {A} allowed (call : A -> tensor -> counted tensor) :
  (forall m x, raises_only allowed (outcome (call m x))) ->
  forall modules x, raises_only allowed (outcome (chain call modules x)).
Proof.
  intros Hc modules. induction modules as [ | m rest IH ]; intros x.
  - exact I.
  - cbn [chain]. apply raises_only_bind; [ apply Hc | exact IH ].
Qed.

Lemma raises_only_BatchNorm2d_call (allowed : exception -> bool) b x :
  (forall msg, allowed (RuntimeError msg) = true) ->
  (forall msg, allowed (ValueError msg) = true) ->
  raises_only allowed (outcome (BatchNorm2d_call b x)).
Proof.
  intros Ha Hv. unfold BatchNorm2d_call.
  destruct (tensor_size x) as [ | n [ | c [ | h [ | w [ | ? ? ] ] ] ] ];
    try apply Hv.
  destruct (n * h * w =? 1); [ apply Hv | now apply raises_only_op ].
Qed.

Lemma raises_only_Sequential (allowed : exception -> bool) :
  (forall msg, allowed (RuntimeError msg) = true) ->
  (forall msg, allowed (ValueError msg) = true) ->
  forall layers x,
    raises_only allowed (outcome (Sequential_forward layers x)).
Proof.
  intros Ha Hv. apply raises_only_chain. intros l x.
  destruct l;
    first [ now apply raises_only_op
          | now apply raises_only_BatchNorm2d_call ].
Qed.

Lemma raises_only_map_m {A B} allowed (f : A -> counted B) :
  (forall a, raises_only allowed (outcome (f a))) ->
  forall l, raises_only allowed (outcome (map_m f l)).
Proof.
  intros Hf l. induction l as [ | a rest IH ]; cbn [map_m].
  - exact I.
  - apply raises_only_bind; [ apply Hf | intros b ].
    apply raises_only_bind; [ exact IH | intros bs; exact I ].
Qed.

Lemma raises_only_weaken {A} (allowed allowed' : exception -> bool)
      (r : result A) :
  (forall e, allowed e = true -> allowed' e = true) ->
  raises_only allowed r -> raises_only allowed' r.
Proof. intros Hw. destruct r; cbn; auto. Qed.

Lemma raises_only_unpack4 l :
  raises_only rejection_or_unpacking (outcome (unpack4 l)).
Proof.
  destruct l as [ | a [ | b [ | c [ | d [ | ? ? ] ] ] ] ]; reflexivity.
Qed.

Lemma raises_only_size_at (allowed : exception -> bool) x dim :
  (forall msg, allowed (IndexError msg) = true) ->
  raises_only allowed (outcome (size_at x dim)).
Proof.
  intros Hi. unfold size_at. destruct (nth_error _ _); [ exact I | apply Hi ].
Qed.

Lemma unpack4_short l :
  List.length l <> 4%nat ->
  unpack4 l = (0%nat, Err (ValueError "wrong number of values to unpack")).
Proof.
  destruct l as [ | a [ | b [ | c [ | d [ | ? ? ] ] ] ] ];
    cbn; intros Hl; try reflexivity.
  now contradiction Hl.
Qed.

End RaisesOnly.

(** One statement of a forward pass at a time. *)
Ltac only_step :=
  first [ apply raises_only_pure
        | apply raises_only_op; reflexivity
        | apply raises_only_Sequential; reflexivity
        | apply raises_only_BatchNorm2d_call; reflexivity
        | apply raises_only_unpack4
        | apply raises_only_size_at; reflexivity
        | match goal with
          | |- raises_only _ (outcome (and_then _ _)) =>
              apply raises_only_bind; [ | intros ]
          | |- raises_only _ (outcome (match ?p with (_, _) => _ end)) =>
              destruct p
          | |- raises_only _ (outcome (if ?b then _ else _)) => destruct b
          end ].

Ltac raising := repeat only_step.

Section ForwardExceptions.
Context `{Framework}.
Import modules_4channel.

Lemma SE_net_forward_raises self x :
  raises_only rejection (outcome (SE_net.forward self x)).
Proof. unfold SE_net.forward. raising. Qed.

Lemma MakeDense_forward_raises self x :
  raises_only rejection_or_unpacking (outcome (MakeDense.forward self x)).
Proof. unfold MakeDense.forward. raising. Qed.

Lemma ContextBlock2d_forward_raises inplanes planes pool fusions ratio self :
  ContextBlock2d.init inplanes planes pool fusions ratio = Ok self ->
  forall x,
    raises_only rejection_or_unpacking (outcome (ContextBlock2d.forward self x)).
Proof.
  intros E x.
  apply ContextBlock2d_init_inv in E as (Ha & _ & _ & _ & ->).
  unfold ContextBlock2d.forward, ContextBlock2d.spatial_pool.
  cbn [ContextBlock2d.pool ContextBlock2d.conv_mask ContextBlock2d.softmax
       ContextBlock2d.avg_pool
       ContextBlock2d.channel_mul_conv ContextBlock2d.channel_add_conv].
  destruct (asserted_pool _ _ Ha) as [-> | ->];
    change (String.eqb "avg" "att") with false;
    change (String.eqb "att" "att") with true; cbv iota;
    destruct (str_in "channel_add" fusions);
    destruct (str_in "channel_mul" fusions);
    cbn [getattr]; raising.
Qed.

Lemma PSPModule_forward_raises self x :
  raises_only rejection_unpacking_or_axis
              (outcome (PSPModule.forward self x)).
Proof.
  unfold PSPModule.forward. raising.
  apply raises_only_map_m. intros stage. raising.
Qed.

Lemma shortcutblock_forward_raises self x :
  raises_only rejection (outcome (shortcutblock.forward self x)).
Proof.
  unfold shortcutblock.forward. raising. apply SE_net_forward_raises.
Qed.

Lemma GCWTResDown_forward_raises self x :
  raises_only rejection_or_unpacking (outcome (GCWTResDown.forward self x)).
Proof. unfold GCWTResDown.forward. raising. Qed.

Lemma GCIWTResUp_forward_raises self x x_dwt :
  raises_only rejection_or_unpacking
              (outcome (GCIWTResUp.forward self x x_dwt)).
Proof. unfold GCIWTResUp.forward. raising. Qed.

Lemma rejection_weakens {A} (r : result A) :
  raises_only rejection r -> raises_only rejection_unpacking_or_axis r.
Proof. apply raises_only_weaken. now intros []. Qed.

Lemma rejection_or_unpacking_weakens {A} (r : result A) :
  raises_only rejection_or_unpacking r ->
  raises_only rejection_unpacking_or_axis r.
Proof. apply raises_only_weaken. now intros []. Qed.

(** X6: the [forward] of an instance that [ContextBlock2d.__init__]
    returned raises nothing but the framework's rejection of an operand and
    the [ValueError] of unpacking [x.size()]: the attributes that
    [__init__] sets on one branch only are there whenever [forward] reads
    them.  An input that has not four axes raises that [ValueError] before
    any operator is applied. *)
Theorem ContextBlock2d_forward_exceptions :
  forall inplanes planes pool fusions ratio self,
    ContextBlock2d.init inplanes planes pool fusions ratio = Ok self ->
    forall x,
      raises_only rejection_or_unpacking
                  (outcome (ContextBlock2d.forward self x))
      /\ (List.length (tensor_size x) <> 4%nat ->
          ContextBlock2d.forward self x
          = (0%nat, Err (ValueError "wrong number of values to unpack"))).
Proof.
  intros ip p pool fusions ratio self E x. split.
  - now apply (ContextBlock2d_forward_raises ip p pool fusions ratio).
  - intros Hl. unfold ContextBlock2d.forward, ContextBlock2d.spatial_pool.
    now rewrite (unpack4_short _ Hl).
Qed.

End ForwardExceptions.

Section ForwardExceptionsInstances.
Local Existing Instance Shape.framework.
Import modules_4channel.

Lemma ContextBlock2d_forward_exceptions_witness :
  exists self,
    ContextBlock2d.init 9 32 "att" ["channel_add"] 4 = Ok self
    /\ raises_only rejection_or_unpacking
                   (outcome (ContextBlock2d.forward self [1; 9; 4]))
    /\ ContextBlock2d.forward self [1; 9; 4]
       = (0%nat, Err (ValueError "wrong number of values to unpack")).
Proof.
  eexists. split; [ reflexivity | ].
  destruct (ContextBlock2d_forward_exceptions
              (H := Shape.framework)
              9 32 "att" ["channel_add"] 4 _ eq_refl [1; 9; 4])
    as (Hr & Hv).
  split; [ exact Hr | apply Hv; discriminate ].
Defined.

End ForwardExceptionsInstances.

(** * The dense layer and the residual dense block *)

Lemma MakeDense_init_Ok c g k self :
  modules_4channel.MakeDense.init c g k = Ok self
  <-> 0 <= c /\ 0 <= g /\ 0 <= k
      /\ self = {| modules_4channel.MakeDense.conv :=
                     conv c g k 1 ((k - 1) / 2) true;
                   modules_4channel.MakeDense.norm_layer := {| num_features := g |} |}.
Proof.
  unfold modules_4channel.MakeDense.init. split.
  - intros E. init_inv. repeat split; assumption.
  - intros (Hc & Hg & Hk & ->). init_run. reflexivity.
Qed.

Section DenseLayer.
Local Existing Instance Shape.framework.
Import modules_4channel.

Lemma conv_len_odd len k :
  k mod 2 = 1 -> Shape.conv_len len k 1 ((k - 1) / 2) = len.
Proof. unfold Shape.conv_len. rewrite Z.div_1_r. intros. arith. Qed.

Lemma conv_len_even len k :
  k mod 2 = 0 -> Shape.conv_len len k 1 ((k - 1) / 2) = len - 1.
Proof. unfold Shape.conv_len. rewrite Z.div_1_r. intros. arith. Qed.

Lemma cat_rejects_height N a b H H' W W' :
  H <> H' -> torch_cat [[N; a; H; W]; [N; b; H'; W']] 1 = None.
Proof.
  intros Hne. cbn [torch_cat Shape.framework]. unfold Shape.cat.
  change (Z.to_nat 1) with 1%nat.
  cbn [Shape.set_dim List.length Nat.ltb Nat.leb forallb Shape.list_eqb].
  replace (H' =? H) with false by (symmetry; apply Z.eqb_neq; lia).
  now rewrite !andb_false_r.
Qed.

(** X8: a [MakeDense] built with an odd [kernel_size] pads by half the
    kernel, so its convolution keeps height and width: with at least one
    input channel and a positive [growth_rate], [forward] appends
    [growth_rate] channels to a non-empty batch of non-empty images that
    holds more than one value per channel, as the batch normalisation
    requires in training mode.  Built with an even [kernel_size], the
    padding [(kernel_size - 1) // 2] leaves the convolved map one row and
    one column short, and [forward] returns on no input at all: it raises
    the rejection of an operand, at the latest that of the concatenation
    with the input, or the [ValueError] of the batch normalisation. *)
Theorem MakeDense_kernel_parity :
  forall c g k self,
    MakeDense.init c g k = Ok self -> 0 < k ->
    (k mod 2 = 1 -> 0 < c -> 0 < g ->
     forall N H W, 0 < N -> 0 < H -> 0 < W -> 1 < N * H * W ->
       outcome (MakeDense.forward self [N; c; H; W]) = Ok [N; c + g; H; W])
    /\ (k mod 2 = 0 ->
        forall x,
        exists e,
          outcome (MakeDense.forward self x) = Err e
          /\ rejection_or_unpacking e = true).
Proof.
  intros c g k self E Hk.
  apply MakeDense_init_Ok in E as (Hc & Hg & _ & ->).
  unfold MakeDense.forward. cbn [MakeDense.conv MakeDense.norm_layer].
  split.
  - intros Ek Hc' Hg' N H W HN HH HW Hv.
    assert (Econv : Conv2d_forward (conv c g k 1 ((k - 1) / 2) true)
                                   [N; c; H; W] = Some [N; g; H; W]).
    { shape_cbn. rewrite Z.eqb_refl. bool_true. shape_cbn.
      now rewrite !conv_len_odd. }
    rewrite outcome_bind, outcome_op, Econv. shape_run. reflexivity.
  - intros Ek x.
    rewrite outcome_bind, outcome_op.
    destruct (Conv2d_forward _ x) as [y | ] eqn:Econv;
      [ | eexists; split; reflexivity ].
    apply conv_gives in Econv as (N & H & W & -> & -> & _ & _ & _).
    cbn [conv_out_channels conv_kernel_size conv_stride conv_padding conv
         conv_in_channels].
    rewrite !conv_len_even by assumption.
    cbn [lift]. rewrite result_bind_Ok, outcome_bind, outcome_op.
    cbn [F_relu Shape.framework lift].
    rewrite result_bind_Ok, outcome_bind.
    unfold BatchNorm2d_call. cbn [tensor_size Shape.framework].
    destruct (N * (H - 1) * (W - 1) =? 1);
      [ eexists; split; reflexivity | ].
    rewrite outcome_op, batch_norm_same.
    cbn [lift].
    rewrite result_bind_Ok, outcome_bind, outcome_op, cat_rejects_height
      by lia.
    eexists; split; reflexivity.
Qed.

Lemma MakeDense_kernel_parity_witness :
  (exists self,
      MakeDense.init 8 4 3 = Ok self
      /\ outcome (MakeDense.forward self [1; 8; 5; 7]) = Ok [1; 12; 5; 7])
  /\ (exists self e,
         MakeDense.init 8 4 2 = Ok self
         /\ outcome (MakeDense.forward self [1; 8; 5; 7]) = Err e
         /\ rejection_or_unpacking e = true).
Proof.
  split.
  - eexists. split; [ reflexivity | ].
    apply (proj1 (MakeDense_kernel_parity 8 4 3 _ eq_refl eq_refl) eq_refl);
      lia.
  - eexists.
    destruct (proj2 (MakeDense_kernel_parity 8 4 2 _ eq_refl eq_refl) eq_refl
                    [1; 8; 5; 7]) as (e & He).
    exists e. split; [ reflexivity | exact He ].
Defined.

End DenseLayer.

Section ResidualDenseBlock.
Context `{Framework}.
Import modules_4channel.

Lemma dense_loop_builds g :
  forall n i ms cin,
    ((0 < n)%nat -> 0 <= cin /\ 0 <= g) ->
    for_range_from i n
      (fun _ st =>
         let '(modules, _in_channels) := st in
         m <- MakeDense.init _in_channels g 3 ;;
         pure (modules ++ [m], _in_channels + g))
      (ms, cin)
    = Ok (ms ++ map (dense_layer cin g) (seq 0 n), cin + Z.of_nat n * g).
Proof.
  induction n as [ | n IH ]; intros i ms cin Hpos.
  - cbn [for_range_from seq map]. rewrite app_nil_r. do 2 f_equal. lia.
  - destruct Hpos as (Hc & Hg); [ lia | ].
    cbn [for_range_from].
    rewrite (proj2 (MakeDense_init_Ok cin g 3 _))
      by (repeat split; auto; lia).
    repeat first [ rewrite result_bind_Ok
                 | progress cbn [pure result_raising] ].
    rewrite IH by (intros _; lia).
    rewrite <- app_assoc. cbn [app seq map].
    rewrite <- seq_shift, map_map.
    assert (E0 : dense_layer cin g 0
                 = {| MakeDense.conv := conv cin g 3 1 ((3 - 1) / 2) true;
                      MakeDense.norm_layer := {| num_features := g |} |}).
    { unfold dense_layer, conv. change ((3 - 1) / 2) with 1.
      do 2 f_equal. cbn. lia. }
    assert (Es : map (fun x => dense_layer cin g (S x)) (seq 0 n)
                 = map (dense_layer (cin + g) g) (seq 0 n)).
    { apply map_ext. intros j. unfold dense_layer. do 2 f_equal. lia. }
    rewrite E0, Es. do 2 f_equal. lia.
Qed.

Lemma dense_loop_inv g n i ms cin r :
  for_range_from i n
    (fun _ st =>
       let '(modules, _in_channels) := st in
       m <- MakeDense.init _in_channels g 3 ;;
       pure (modules ++ [m], _in_channels + g))
    (ms, cin) = Ok r ->
  ((0 < n)%nat -> 0 <= cin /\ 0 <= g).
Proof.
  destruct n as [ | n ]; [ lia | ].
  cbn [for_range_from]. intros E _.
  apply result_bind_inv in E. destruct E as (st & E & _).
  apply result_bind_inv in E. destruct E as (m & E & _).
  apply MakeDense_init_Ok in E. tauto.
Qed.

Lemma GCRDB_init_Ok c att n g self :
  GCRDB.init c att n g = Ok self
  <-> 0 <= c /\ (0 < n -> 0 <= g)
      /\ exists f,
          att c c = Ok f
          /\ self = {| GCRDB.residual_dense_layers :=
                         map (dense_layer c g) (seq 0 (Z.to_nat n));
                       GCRDB.conv_1x1 :=
                         conv (c + Z.max 0 n * g) c 1 1 0 true;
                       GCRDB.final_att := f |}.
Proof.
  unfold GCRDB.init, for_range. split.
  - intros E. apply result_bind_inv in E. destruct E as ([ms cin] & El & E).
    pose proof (dense_loop_inv _ _ _ _ _ _ El) as Hpos.
    rewrite dense_loop_builds in El by exact Hpos.
    inversion El; subst; clear El. init_inv.
    replace (Z.of_nat (Z.to_nat n)) with (Z.max 0 n) in * by lia.
    repeat split; [ assumption | intros Hn; apply Hpos; lia | ].
    eexists. split; [ eassumption | reflexivity ].
  - intros (Hc & Hg & f & Ef & ->).
    rewrite dense_loop_builds by (intros Hn; split; [ lia | apply Hg; lia ]).
    rewrite result_bind_Ok. cbn [app].
    replace (Z.of_nat (Z.to_nat n)) with (Z.max 0 n) by lia.
    rewrite nn_Conv2d_nonneg; [ | | lia | lia ].
    + rewrite result_bind_Ok, Ef, result_bind_Ok. reflexivity.
    + destruct (Z.max_spec 0 n) as [(Hn & ->) | (Hn & ->)]; [ | lia ].
      specialize (Hg Hn). nia.
Qed.

(** X9: [GCRDB.__init__] returns exactly when [in_channels] is not
    negative, [growth_rate] is not negative if there is any dense layer, and
    [att_block(in_channels, in_channels)] returns.  The block then holds
    [num_dense_layer] dense layers (none for a negative count), the [i]-th
    taking [in_channels + i * growth_rate] channels and adding
    [growth_rate]; the 1x1 convolution that brings the
    [in_channels + num_dense_layer * growth_rate] channels back to
    [in_channels]; and the attention instance. *)
Theorem GCRDB_init_returns_iff :
  forall c att n g self,
    GCRDB.init c att n g = Ok self
    <-> 0 <= c /\ (0 < n -> 0 <= g)
        /\ exists f,
            att c c = Ok f
            /\ self = {| GCRDB.residual_dense_layers :=
                           map (dense_layer c g) (seq 0 (Z.to_nat n));
                         GCRDB.conv_1x1 :=
                           conv (c + Z.max 0 n * g) c 1 1 0 true;
                         GCRDB.final_att := f |}.
Proof. intros. apply GCRDB_init_Ok. Qed.

End ResidualDenseBlock.

Section ResidualDenseBlockInstances.
Local Existing Instance Shape.framework.
Import modules_4channel.

Lemma GCRDB_init_returns_iff_witness :
  exists self,
    GCRDB.init 64 ContextBlock2d.class 6 16 = Ok self
    /\ List.length (GCRDB.residual_dense_layers self) = 6%nat
    /\ GCRDB.conv_1x1 self = conv 160 64 1 1 0 true.
Proof.
  eexists. split.
  - apply (proj2 (GCRDB_init_returns_iff
                    (H := Shape.framework) 64 ContextBlock2d.class 6 16 _)).
    repeat split; try lia.
    eexists. split; reflexivity.
  - split; reflexivity.
Defined.

End ResidualDenseBlockInstances.

(** * The wavelet blocks *)

Section WaveletBlocks.
Local Existing Instance Shape.framework.
Import modules_4channel.

(** The two values [norm_layer] takes in this repository. *)
Lemma norm_called_BatchNorm2d norm_layer c norm :
  norm_layer = None \/ norm_layer = Some BatchNorm2d_class ->
  norm_called norm_layer c norm ->
  (norm_layer = None /\ norm = None)
  \/ (norm_layer = Some BatchNorm2d_class
      /\ norm = Some (LBatchNorm2d {| num_features := c |})).
Proof.
  intros [-> | ->]; destruct norm as [l | ]; unfold norm_called;
    try contradiction; auto.
  unfold BatchNorm2d_class. intros E. right.
  apply result_bind_inv in E. destruct E as (b & Eb & E).
  apply nn_BatchNorm2d_Ok in Eb as (-> & _). now inversion E.
Qed.

Lemma GCWTResDown_shape c att norm_layer self N H W :
  norm_layer = None \/ norm_layer = Some BatchNorm2d_class ->
  GCWTResDown.init c att norm_layer = Ok self ->
  0 < c -> 0 < N -> 0 < H -> 0 < W -> H mod 2 = 0 -> W mod 2 = 0 ->
  (norm_layer = Some BatchNorm2d_class -> 1 < N * (H / 2) * (W / 2)) ->
  outcome (GCWTResDown.forward self [N; c; H; W])
  = Ok ([N; 2 * c; H / 2; W / 2], [N; 4 * c; H / 2; W / 2]).
Proof.
  intros Hn E Hc' HN HH HW EH EW Hv.
  apply GCWTResDown_forward_described in E as (norm & Hc & ->).
  destruct (norm_called_BatchNorm2d _ _ _ Hn Hc) as [(-> & ->) | (-> & ->)];
    [ clear Hv | specialize (Hv eq_refl) ];
    unfold described_GCWTResDown, described_down_stem;
    shape_run; cbv beta iota; shape_run;
    replace (c + c) with (2 * c) by lia; reflexivity.
Qed.

Lemma GCIWTResUp_shape c att norm_layer self N H W :
  norm_layer = None \/ norm_layer = Some BatchNorm2d_class ->
  GCIWTResUp.init (4 * c) att norm_layer = Ok self ->
  0 < c -> 0 < N -> 0 < H -> 0 < W ->
  outcome (GCIWTResUp.forward self [N; 2 * c; H; W] [N; 4 * c; H; W])
  = Ok [N; c; 2 * H; 2 * W].
Proof.
  intros Hn E Hc' HN HH HW.
  apply GCIWTResUp_forward_described in E as (norm & Hc & ->).
  replace (4 * c / 4) with c in Hc by arith.
  destruct (norm_called_BatchNorm2d _ _ _ Hn Hc) as [(_ & ->) | (_ & ->)];
    unfold described_GCIWTResUp, described_up_stem;
    replace (4 * c / 2) with (2 * c) by arith;
    replace (4 * c / 4) with c by arith;
    shape_run;
    replace (4 * c / 4) with c by arith;
    replace (H * 2) with (2 * H) by lia;
    replace (W * 2) with (2 * W) by lia;
    shape_run;
    replace (4 * c / 4) with c by arith;
    shape_run;
    replace (c + c) with (2 * c) by lia;
    shape_run; reflexivity.
Qed.

(** X10: as in the [__main__] block of the file, for any positive channel
    count: the two outputs of [GCWTResDown(c, ..)] on a non-empty batch of
    [c]-channel maps of even height and width are accepted by
    [GCIWTResUp(4 * c, ..)], which gives back a tensor of the shape of the
    input.  This holds with and without batch normalisation in either
    block; when the down block normalises, the half-resolution maps of the
    batch hold more than one value per channel, as training mode
    requires. *)
Theorem wavelet_round_trip :
  forall c att att' norm_down norm_up down up,
    norm_down = None \/ norm_down = Some BatchNorm2d_class ->
    norm_up = None \/ norm_up = Some BatchNorm2d_class ->
    GCWTResDown.init c att norm_down = Ok down ->
    GCIWTResUp.init (4 * c) att' norm_up = Ok up ->
    0 < c ->
    forall N H W,
      0 < N -> 0 < H -> 0 < W -> H mod 2 = 0 -> W mod 2 = 0 ->
      (norm_down = Some BatchNorm2d_class -> 1 < N * (H / 2) * (W / 2)) ->
      outcome (' (out, dwt) <- GCWTResDown.forward down [N; c; H; W] ;;
               GCIWTResUp.forward up out dwt)
      = Ok [N; c; H; W].
Proof.
  intros c att att' nd nu down up Hd Hu Ed Eu Hc N H W HN HH HW EH EW Hv.
  rewrite outcome_bind.
  rewrite (GCWTResDown_shape _ _ _ _ N H W Hd Ed) by assumption.
  rewrite result_bind_Ok.
  rewrite (GCIWTResUp_shape _ _ _ _ N (H / 2) (W / 2) Hu Eu) by arith.
  replace (2 * (H / 2)) with H by arith.
  replace (2 * (W / 2)) with W by arith.
  reflexivity.
Qed.

Lemma wavelet_round_trip_witness :
  exists down up,
    GCWTResDown.init 256 ContextBlock2d.class (Some BatchNorm2d_class)
    = Ok down
    /\ GCIWTResUp.init 1024 ContextBlock2d.class None = Ok up
    /\ outcome (' (out, dwt) <- GCWTResDown.forward down [1; 256; 112; 112] ;;
                GCIWTResUp.forward up out dwt)
       = Ok [1; 256; 112; 112].
Proof.
  eexists. eexists. split; [ reflexivity | split; [ reflexivity | ] ].
  apply (wavelet_round_trip
           256 ContextBlock2d.class ContextBlock2d.class
           (Some BatchNorm2d_class) None _ _
           (or_intror eq_refl) (or_introl eq_refl) eq_refl eq_refl);
    first [ reflexivity | intros _; reflexivity ].
Defined.

Lemma pixel_shuffle_rejects N C H W :
  C mod 4 <> 0 ->
  PixelShuffle_forward {| upscale_factor := 2 |} [N; C; H; W] = None.
Proof.
  intros HC. cbn [PixelShuffle_forward Shape.framework].
  unfold Shape.pixel_shuffle. cbn [upscale_factor].
  change (2 * 2) with 4.
  replace (C mod 4 =? 0) with false by (symmetry; now apply Z.eqb_neq).
  now rewrite andb_false_r.
Qed.

(** X11: a [GCIWTResUp] whose [in_channels] is not a multiple of 4 can be
    built, but its [forward] returns on no pair of inputs: the pixel shuffle
    that opens the stem is given [in_channels] channels, which it cannot
    split in four. *)
Theorem GCIWTResUp_needs_multiple_of_4 :
  forall c att norm_layer self,
    GCIWTResUp.init c att norm_layer = Ok self ->
    c mod 4 <> 0 ->
    forall x x_dwt,
      outcome (GCIWTResUp.forward self x x_dwt)
      = Err (RuntimeError "operand rejected").
Proof.
  intros c att norm_layer self E Hc x x_dwt.
  apply GCIWTResUp_forward_described in E as (norm & _ & ->).
  unfold described_GCIWTResUp.
  destruct (Conv2d_forward _ x) as [y | ] eqn:Econv; [ | reflexivity ].
  apply conv_gives in Econv as (N & H & W & _ & -> & _).
  cbn [lift conv conv_out_channels]. rewrite result_bind_Ok.
  destruct norm; unfold described_up_stem, Sequential_forward;
    cbn [chain apply_layer]; rewrite outcome_bind, outcome_op;
    rewrite pixel_shuffle_rejects by assumption; reflexivity.
Qed.

Lemma GCIWTResUp_needs_multiple_of_4_witness :
  exists self,
    GCIWTResUp.init 6 ContextBlock2d.class None = Ok self
    /\ outcome (GCIWTResUp.forward self [1; 3; 4; 4] [1; 6; 4; 4])
       = Err (RuntimeError "operand rejected").
Proof.
  eexists. split; [ reflexivity | ].
  apply (GCIWTResUp_needs_multiple_of_4 6 ContextBlock2d.class None _ eq_refl).
  discriminate.
Defined.

End WaveletBlocks.

(** * The shortcut, the pyramid and the last up-sampling *)

Section HeadBlocks.
Local Existing Instance Shape.framework.
Import modules_4channel.

Lemma pixel_shuffle_gives x y :
  PixelShuffle_forward {| upscale_factor := 2 |} x = Some y ->
  exists N C H W,
    x = [N; C; H; W] /\ C mod 4 = 0 /\ y = [N; C / 4; H * 2; W * 2].
Proof.
  cbn [PixelShuffle_forward Shape.framework]. unfold Shape.pixel_shuffle.
  destruct x as [ | N [ | C [ | H [ | W [ | ? ? ] ] ] ] ]; try discriminate.
  cbn [upscale_factor]. change (2 * 2) with 4.
  destruct (C mod 4 =? 0) eqn:EC; [ | rewrite andb_false_r; discriminate ].
  cbn. intros [= <-]. exists N, C, H, W.
  apply Z.eqb_eq in EC. auto.
Qed.

(** X12: [shortcutblock.__init__] returns exactly when neither channel
    count is negative.  With at least one input channel and at least four
    output channels (the gate of the block squeezes to
    [out_channels // 4]), [forward] then maps a non-empty batch of non-empty
    [in_channels]-channel maps to the same batch with [out_channels]
    channels. *)
Theorem shortcutblock_changes_channels :
  forall i o,
    ((exists self, shortcutblock.init i o = Ok self) <-> 0 <= i /\ 0 <= o)
    /\ (forall self,
           shortcutblock.init i o = Ok self ->
           0 < i -> 4 <= o ->
           forall N H W, 0 < N -> 0 < H -> 0 < W ->
             outcome (shortcutblock.forward self [N; i; H; W])
             = Ok [N; o; H; W]).
Proof.
  intros i o. split; [ split | ].
  - intros (self & E). unfold shortcutblock.init in E. init_inv. auto.
  - intros (Hi & Ho). unfold shortcutblock.init. init_run.
    rewrite (proj2 (SE_net_init_Ok o o 4 true _))
      by (repeat split; first [ reflexivity | arith ]).
    rewrite result_bind_Ok. eexists. reflexivity.
  - intros self E Hi Ho N H W HN HH HW.
    unfold shortcutblock.init in E. init_inv.
    unfold shortcutblock.forward.
    cbn [shortcutblock.conv1 shortcutblock.conv2 shortcutblock.se
         shortcutblock.relu].
    shape_run.
    match goal with
    | E : SE_net.init _ _ _ _ = Ok _ |- _ =>
        now rewrite (SE_net_forward_shape _ _ _ _ _ _ _ E) by arith
    end.
Qed.

Lemma shortcutblock_changes_channels_witness :
  exists self,
    shortcutblock.init 64 32 = Ok self
    /\ outcome (shortcutblock.forward self [2; 64; 8; 6]) = Ok [2; 32; 8; 6].
Proof.
  eexists. split; [ reflexivity | ].
  apply (proj2 (shortcutblock_changes_channels 64 32) _ eq_refl); lia.
Defined.

Lemma channels_of_copies N f H W k :
  fold_right Z.add 0 (map (fun t => Shape.dim_of t 1) (repeat [N; f; H; W] k))
  = f * Z.of_nat k.
Proof.
  induction k as [ | k IH ].
  - cbn. lia.
  - cbn [repeat map fold_right]. rewrite IH.
    unfold Shape.dim_of. cbn [nth]. lia.
Qed.

Lemma cat_copies N f H W k :
  torch_cat (repeat [N; f; H; W] (S k)) 1
  = Some [N; f * Z.of_nat (S k); H; W].
Proof.
  cbn [torch_cat Shape.framework]. unfold Shape.cat.
  rewrite channels_of_copies.
  cbn [repeat]. change (Z.to_nat 1) with 1%nat.
  cbn [List.length Nat.ltb Nat.leb Shape.set_dim].
  replace (forallb _ (repeat [N; f; H; W] k)) with true.
  - reflexivity.
  - symmetry. apply forallb_forall. intros t Ht.
    apply repeat_spec in Ht. subst t. cbn [Shape.set_dim Shape.list_eqb].
    now rewrite !Z.eqb_refl.
Qed.

Lemma priors_shape f N H W sizes :
  0 < f -> 0 < H -> 0 < W -> Forall (fun size => 0 < size) sizes ->
  map_m (m := result) (described_prior f H W [N; f; H; W]) sizes
  = Ok (repeat [N; f; H; W] (List.length sizes)).
Proof.
  intros Hf HH HW Hs. induction Hs as [ | size sizes Hsize _ IH ].
  - reflexivity.
  - cbn [map_m List.length repeat]. rewrite IH.
    unfold described_prior. shape_run. reflexivity.
Qed.

Lemma PSPModule_forward_shape f o sizes self N H W :
  PSPModule.init f o sizes = Ok self ->
  Forall (fun size => 0 < size) sizes -> 0 < f -> 0 < o -> 0 < H -> 0 < W ->
  outcome (PSPModule.forward self [N; f; H; W]) = Ok [N; o; H; W].
Proof.
  intros E Hs Hf Ho HH HW.
  rewrite (PSPModule_forward_described _ _ _ _ E).
  unfold described_PSPModule. shape_run.
  rewrite priors_shape by assumption. rewrite result_bind_Ok.
  change ([[N; f; H; W]]) with (repeat [N; f; H; W] 1).
  rewrite <- repeat_app, Nat.add_1_r, cat_copies.
  replace (Z.of_nat (S (List.length sizes)))
    with (Z.of_nat (List.length sizes) + 1) by lia.
  shape_run. reflexivity.
Qed.

(** X13: whatever the list of pyramid sizes, as long as each is positive
    (the empty list included), and with at least one channel on either
    side, [PSPModule.forward] maps a non-empty batch of non-empty
    [features]-channel maps to [out_features] channels at the same height
    and width. *)
Theorem PSPModule_any_pyramid :
  forall features out_features sizes self,
    PSPModule.init features out_features sizes = Ok self ->
    Forall (fun size => 0 < size) sizes ->
    0 < features -> 0 < out_features ->
    forall N H W, 0 < N -> 0 < H -> 0 < W ->
      outcome (PSPModule.forward self [N; features; H; W])
      = Ok [N; out_features; H; W].
Proof.
  intros f o sizes self E Hs Hf Ho N H W HN HH HW.
  now apply (PSPModule_forward_shape f o sizes).
Qed.

Lemma PSPModule_any_pyramid_witness :
  exists self,
    PSPModule.init 16 24 [2; 5] = Ok self
    /\ outcome (PSPModule.forward self [1; 16; 8; 6]) = Ok [1; 24; 8; 6].
Proof.
  eexists. split; [ reflexivity | ].
  apply (PSPModule_any_pyramid 16 24 [2; 5] _ eq_refl);
    first [ lia | repeat constructor ].
Defined.

Lemma last_upsample_shape self N H W :
  last_upsample.init = Ok self -> 0 < H -> 0 < W ->
  outcome (last_upsample.forward self [N; 64; H; W])
  = Ok [N; 3; 2 * H; 2 * W].
Proof.
  unfold last_upsample.init. intros E HH HW. init_inv.
  unfold last_upsample.forward.
  cbn [last_upsample.up last_upsample.pre_enhance last_upsample.enhance
       last_upsample.post_conv last_upsample.se last_upsample.final].
  shape_run. change (64 / 4) with 16.
  replace (H * 2) with (2 * H) by lia.
  replace (W * 2) with (2 * W) by lia.
  shape_run.
  match goal with
  | E : PSPModule.init _ _ _ = Ok _ |- _ =>
      rewrite (PSPModule_forward_shape _ _ _ _ N (2 * H) (2 * W) E)
        by first [ lia | repeat constructor; lia ]
  end.
  shape_run. change (16 + 16) with 32. shape_run.
  match goal with
  | E : SE_net.init _ _ _ _ = Ok _ |- _ =>
      rewrite (SE_net_forward_shape _ _ _ _ N (2 * H) (2 * W) E)
        by first [ lia | reflexivity ]
  end.
  shape_run. reflexivity.
Qed.

(** X14: [last_upsample()] is always built, and its [forward] returns
    exactly on the batches of 64-channel maps: [N] maps of [H] x [W] give
    [N] three-channel images of [2H] x [2W]. *)
Theorem last_upsample_returns_iff :
  (exists self, last_upsample.init = Ok self)
  /\ forall self,
      last_upsample.init = Ok self ->
      forall x y,
        outcome (last_upsample.forward self x) = Ok y
        <-> exists N H W,
            x = [N; 64; H; W] /\ 0 < H /\ 0 < W
            /\ y = [N; 3; 2 * H; 2 * W].
Proof.
  split; [ eexists; reflexivity | ].
  intros self E x y. split.
  - intros Ey.
    assert (Hx : exists N H W, x = [N; 64; H; W] /\ 0 < H /\ 0 < W).
    { unfold last_upsample.init in E. init_inv.
      unfold last_upsample.forward in Ey.
      cbn [last_upsample.up last_upsample.pre_enhance] in Ey.
      rewrite outcome_bind, outcome_op in Ey.
      destruct (PixelShuffle_forward _ x) as [x1 | ] eqn:E1;
        [ | discriminate ].
      apply pixel_shuffle_gives in E1 as (N & C & h & w & -> & HC & ->).
      cbn [lift] in Ey. rewrite result_bind_Ok in Ey.
      rewrite outcome_bind, outcome_op in Ey.
      destruct (Conv2d_forward _ _) as [x2 | ] eqn:E2; [ | discriminate ].
      apply conv_gives in E2 as (N' & h' & w' & Ex & _ & Hh & Hw).
      cbn [conv conv_in_channels conv_kernel_size conv_padding] in *.
      inversion Ex; subst.
      exists N', h, w. repeat split; try lia.
      do 2 f_equal. arith. }
    destruct Hx as (N & H & W & -> & HH & HW).
    rewrite (last_upsample_shape _ N H W E HH HW) in Ey.
    inversion Ey. exists N, H, W. auto.
  - intros (N & H & W & -> & HH & HW & ->).
    now apply last_upsample_shape.
Qed.

Lemma last_upsample_returns_iff_witness :
  exists self,
    last_upsample.init = Ok self
    /\ outcome (last_upsample.forward self [1; 64; 4; 6]) = Ok [1; 3; 8; 12].
Proof.
  eexists. split; [ reflexivity | ].
  apply (proj2 last_upsample_returns_iff _ eq_refl).
  exists 1, 4, 6. repeat split.
Defined.

End HeadBlocks.

(** * Building AWNet *)

Section ConstructionOnModules4.
Context `{Framework}.
Import model_3channel.

(** X15: with the imported names bound to the classes of
    [models/modules_4channel.py], [AWNet.__init__] raises the framework's
    [RuntimeError] when [in_channels] is negative; otherwise the
    [IndexError] of [block[k]] when [block] has fewer than five entries;
    otherwise the [TypeError] of [shortcutblock(64)], everything before it
    having been built. *)
Theorem AWNet_init_exception :
  forall in_channels out_channels block,
    (in_channels < 0 ->
     AWNet.init (imports := from_modules_4channel)
                in_channels out_channels block
     = Err (RuntimeError "Trying to create tensor with negative dimension"))
    /\ (0 <= in_channels -> (List.length block < 5)%nat ->
        AWNet.init (imports := from_modules_4channel)
                   in_channels out_channels block
        = Err (IndexError "list index out of range"))
    /\ (0 <= in_channels -> (5 <= List.length block)%nat ->
        AWNet.init (imports := from_modules_4channel)
                   in_channels out_channels block
        = Err (TypeError "__init__() missing 1 required positional argument: 'out_channels'")).
Proof.
  intros ic oc block. split; [ | split ].
  - intros Hi. unfold AWNet.init, nn_Conv2d.
    rewrite (proj2 (Z.ltb_lt ic 0)) by assumption. reflexivity.
  - intros Hi Hb. unfold AWNet.init.
    rewrite nn_Conv2d_nonneg by lia.
    cbn [GCWTResDown GCIWTResUp shortcutblock from_modules_4channel].
    destruct block as [ | b0 [ | b1 [ | b2 [ | b3 [ | b4 rest ] ] ] ] ];
      [ | | | | | cbn [List.length] in Hb; lia ];
      repeat first
             [ rewrite result_bind_Ok
             | progress cbn [pure result_raising getitem nth_error]
             | match goal with
               | |- context [ AWNet.append_GCRDB ?n ?c ?l ] =>
                   let l' := fresh "l" in
                   destruct (append_GCRDB_builds n c l) as (l' & ->);
                   [ lia | ]
               | |- context [ modules_4channel.GCWTResDown.init ?c ?a None ] =>
                   let d := fresh "d" in
                   destruct (GCWTResDown_builds c a) as (d & ->); [ lia | ]
               end ];
      reflexivity.
  - apply AWNet_init_raises_TypeError.
Qed.

End ConstructionOnModules4.

Section Depth.
Context `{Framework}.
Import model_3channel.
Context {imports : modules_3channel}.

(** X16: whatever the imported classes are, [AWNet.__init__] reads the
    first five entries of [block] and nothing else of it, and a negative
    entry builds as many residual blocks as zero does: none. *)
Theorem AWNet_init_reads_five_counts :
  forall in_channels out_channels block,
    (5 <= List.length block)%nat ->
    AWNet.init in_channels out_channels block
    = AWNet.init in_channels out_channels (map (Z.max 0) (firstn 5 block)).
Proof.
  intros ic oc block Hb.
  destruct block as [ | b0 [ | b1 [ | b2 [ | b3 [ | b4 rest ] ] ] ] ];
    try (cbn [List.length] in Hb; lia).
  unfold AWNet.init, AWNet.append_GCRDB, for_range.
  cbn [firstn map getitem nth_error].
  repeat first
         [ reflexivity
         | rewrite result_bind_Ok
         | match goal with
           | |- context [ Z.to_nat (Z.max 0 ?b) ] =>
               replace (Z.to_nat (Z.max 0 b)) with (Z.to_nat b) by lia
           end
         | apply result_bind_ext; intros ? ].
Qed.

End Depth.

Section ConstructionInstances.
Local Existing Instance Shape.framework.
Import model_3channel.

Lemma AWNet_init_exception_witness :
  AWNet.init (imports := from_modules_4channel) (-1) 3 AWNet.default_block
  = Err (RuntimeError "Trying to create tensor with negative dimension")
  /\ AWNet.init (imports := from_modules_4channel) 3 3 [2; 2]
     = Err (IndexError "list index out of range")
  /\ AWNet.init (imports := from_modules_4channel) 3 3 AWNet.default_block
     = Err (TypeError "__init__() missing 1 required positional argument: 'out_channels'").
Proof.
  split; [ | split ].
  - apply (proj1 (AWNet_init_exception
                    (H := Shape.framework) (-1) 3 AWNet.default_block)).
    lia.
  - apply (proj1 (proj2 (AWNet_init_exception
                           (H := Shape.framework) 3 3 [2; 2])));
      cbn; lia.
  - apply (proj2 (proj2 (AWNet_init_exception
                           (H := Shape.framework) 3 3 AWNet.default_block)));
      cbn; lia.
Defined.

Lemma AWNet_init_reads_five_counts_witness :
  AWNet.init (imports := fitted_modules_4channel) 3 3 [1; -2; 0; 0; 0; 7]
  = AWNet.init (imports := fitted_modules_4channel) 3 3 [1; 0; 0; 0; 0].
Proof.
  apply (AWNet_init_reads_five_counts
           (imports := fitted_modules_4channel) 3 3 [1; -2; 0; 0; 0; 7]).
  cbn. lia.
Defined.

End ConstructionInstances.

(** * The inputs the context block accepts *)

Section ContextBlockAccepts.
Local Existing Instance Shape.framework.
Import modules_4channel.

Lemma conv_pointwise_rejects i o b N C H W :
  C <> i -> Conv2d_forward (conv i o 1 1 0 b) [N; C; H; W] = None.
Proof.
  intros Hr. cbn [Conv2d_forward Shape.framework]. unfold Shape.conv2d.
  cbn [conv conv_in_channels].
  now rewrite (proj2 (Z.eqb_neq C i)) by assumption.
Qed.

(** Running a forward pass up to the operator that rejects its operand. *)
Ltac rejecting :=
  repeat first
         [ rewrite outcome_bind
         | rewrite outcome_op
         | rewrite outcome_pure
         | rewrite result_bind_Ok
         | rewrite pool_to
         | rewrite conv_pointwise_rejects by auto
         | rewrite unsqueeze_1
         | rewrite view_as
             by first [ solve [ repeat constructor; nia ]
                      | solve [ unfold Shape.prod; cbn [fold_right];
                                ring ] ]
         | progress cbn [lift getattr unpack4 tensor_size Shape.framework
                         Sequential_forward chain apply_layer
                         and_then result_raising] ];
  reflexivity.

Lemma ContextBlock2d_forward_rejects inplanes planes pool fusions ratio self :
  ContextBlock2d.init inplanes planes pool fusions ratio = Ok self ->
  forall N C H W,
    0 <= N -> 0 <= C -> 0 <= H -> 0 <= W ->
    C <> inplanes ->
    outcome (ContextBlock2d.forward self [N; C; H; W])
    = Err (RuntimeError "operand rejected").
Proof.
  intros E N C H W HN HC HH HW Hr.
  apply ContextBlock2d_init_inv in E as (Ha & _ & _ & _ & ->).
  pose proof (asserted_some_fusion _ _ Ha) as Hsome.
  unfold ContextBlock2d.forward, ContextBlock2d.spatial_pool, fusion_layers.
  cbn [ContextBlock2d.pool ContextBlock2d.conv_mask ContextBlock2d.softmax
       ContextBlock2d.avg_pool
       ContextBlock2d.channel_mul_conv ContextBlock2d.channel_add_conv].
  destruct (asserted_pool _ _ Ha) as [-> | ->];
    change (String.eqb "avg" "att") with false;
    change (String.eqb "att" "att") with true; cbv iota.
  - destruct Hsome as [-> | ->];
      [ destruct (str_in "channel_mul" fusions) | ];
      rejecting.
  - rejecting.
Qed.

(** X18: on a non-empty batch of non-empty maps, held as a contiguous
    tensor, the [forward] of a context block built for [inplanes] channels,
    with at least one input channel and at least one channel in its
    bottleneck ([0 < planes // ratio]), returns exactly when the maps have
    [inplanes] channels, and what it returns has the shape of its input. *)
Theorem ContextBlock2d_forward_returns_iff :
  forall inplanes planes pool fusions ratio self,
    ContextBlock2d.init inplanes planes pool fusions ratio = Ok self ->
    0 < inplanes -> 0 < planes / ratio ->
    forall N C H W y,
      0 < N -> 0 < C -> 0 < H -> 0 < W ->
      (outcome (ContextBlock2d.forward self [N; C; H; W]) = Ok y
       <-> C = inplanes /\ y = [N; C; H; W]).
Proof.
  intros ip p pool fusions ratio self E Hi Hm N C H W y HN HC HH HW. split.
  - intros Ey.
    destruct (Z.eq_dec C ip) as [-> | HCi].
    + rewrite (ContextBlock2d_forward_shape _ _ _ _ _ _ E) in Ey
        by first [ assumption | lia ].
      inversion Ey. now split.
    + rewrite (ContextBlock2d_forward_rejects _ _ _ _ _ _ E) in Ey
        by first [ assumption | lia ].
      discriminate.
  - intros (-> & ->).
    apply (ContextBlock2d_forward_shape ip p pool fusions ratio);
      first [ assumption | lia ].
Qed.

Lemma ContextBlock2d_forward_returns_iff_witness :
  exists self,
    ContextBlock2d.init 64 64 "avg" ["channel_mul"] 8 = Ok self
    /\ outcome (ContextBlock2d.forward self [2; 64; 8; 6]) = Ok [2; 64; 8; 6].
Proof.
  eexists. split; [ reflexivity | ].
  apply (proj2 (ContextBlock2d_forward_returns_iff
                  64 64 "avg" ["channel_mul"] 8 _ eq_refl
                  ltac:(lia) ltac:(reflexivity)
                  2 64 8 6 [2; 64; 8; 6]
                  ltac:(lia) ltac:(lia) ltac:(lia) ltac:(lia))).
  split; reflexivity.
Defined.

End ContextBlockAccepts.

(** * The channels of what AWNet.forward returns *)

Lemma lift_Ok {A} (o : option A) (a : A) : lift o = Ok a -> o = Some a.
Proof. destruct o; cbn; [ now intros [= ->] | discriminate ]. Qed.

Section ChannelsOfOutputs.
Local Existing Instance Shape.framework.
Import model_3channel.

Section AnyImports.
Context {imports : modules_3channel}.

Lemma AWNet_init_convolutions in_channels out_channels block self :
  AWNet.init in_channels out_channels block = Ok self ->
  AWNet.conv1 self = conv in_channels 64 3 1 1 true
  /\ AWNet.scale_5 self = conv 1024 out_channels 3 1 1 true
  /\ AWNet.scale_4 self = conv 512 out_channels 3 1 1 true
  /\ AWNet.scale_3 self = conv 256 out_channels 3 1 1 true
  /\ AWNet.scale_2 self = conv 128 out_channels 3 1 1 true
  /\ AWNet.final_conv self = conv 64 out_channels 3 1 1 true.
Proof.
  unfold AWNet.init. intros E. init_inv. repeat split.
Qed.

Lemma scale_has_channels i o t a y :
  lift (Conv2d_forward (conv i o 3 1 1 true) t) = Ok a ->
  lift (torch_sigmoid a) = Ok y ->
  has_channels t i /\ has_channels y o.
Proof.
  intros Ea Ey. apply lift_Ok in Ea, Ey.
  cbn [torch_sigmoid Shape.framework] in Ey. inversion Ey; subst.
  apply conv_gives in Ea as (N & H & W & -> & -> & _).
  split; do 3 eexists; reflexivity.
Qed.

(** X19: whatever the imported classes compute, a forward pass of a
    built [AWNet] that returns was given a batch of [in_channels]-channel
    maps, and it returns five outputs of [out_channels] channels each and a
    latent tensor of 1024 channels. *)
Theorem AWNet_channels_of_outputs :
  forall in_channels out_channels block self,
    AWNet.init in_channels out_channels block = Ok self ->
    forall x out x2_out x3_out x4_out x5_out latent,
      outcome (AWNet.forward self x None None)
      = Ok ((out, x2_out, x3_out, x4_out, x5_out), latent) ->
      has_channels x in_channels
      /\ has_channels out out_channels
      /\ has_channels x2_out out_channels
      /\ has_channels x3_out out_channels
      /\ has_channels x4_out out_channels
      /\ has_channels x5_out out_channels
      /\ has_channels latent 1024.
Proof.
  intros ic oc block self E x out x2_out x3_out x4_out x5_out latent Er.
  apply AWNet_init_convolutions in E
    as (E1 & E5 & E4 & E3 & E2 & Ef).
  unfold AWNet.forward in Er. rewrite E1, E5, E4, E3, E2, Ef in Er.
  run_inv.
  repeat match goal with
         | Ea : lift (Conv2d_forward (conv ?i ?o 3 1 1 true) ?t) = Ok ?a,
           Ey : lift (torch_sigmoid ?a) = Ok ?y |- _ =>
             let Ht := fresh "Ht" in
             let Hy := fresh "Hy" in
             destruct (scale_has_channels i o t a y Ea Ey) as (Ht & Hy);
             clear Ey
         end.
  repeat split; try assumption.
  match goal with
  | Ea : lift (Conv2d_forward (conv ic 64 3 1 1 true) x) = Ok _ |- _ =>
      apply lift_Ok in Ea;
      apply conv_gives in Ea as (N & H & W & -> & _)
  end.
  do 3 eexists. reflexivity.
Qed.

End AnyImports.

Lemma AWNet_channels_of_outputs_witness :
  exists self,
    AWNet.init (imports := fitted_modules_4channel) 3 5 [0; 0; 0; 0; 0]
    = Ok self
    /\ outcome (AWNet.forward self (image 1 3 16 16) None None)
       = Ok ((image 1 5 16 16, image 1 5 8 8, image 1 5 4 4,
              image 1 5 2 2, image 1 5 1 1),
             image 1 1024 1 1)
    /\ has_channels (image 1 3 16 16) 3
    /\ has_channels (image 1 5 8 8) 5
    /\ has_channels (image 1 1024 1 1) 1024.
Proof.
  eassert (E : AWNet.init (imports := fitted_modules_4channel) 3 5
                          [0; 0; 0; 0; 0] = Ok _) by reflexivity.
  match type of E with
  | _ = Ok ?self =>
      assert (R : outcome (AWNet.forward self (image 1 3 16 16) None None)
                  = Ok ((image 1 5 16 16, image 1 5 8 8, image 1 5 4 4,
                         image 1 5 2 2, image 1 5 1 1),
                        image 1 1024 1 1))
        by (vm_compute; reflexivity)
  end.
  destruct (AWNet_channels_of_outputs
              (imports := fitted_modules_4channel)
              3 5 [0; 0; 0; 0; 0] _ E _ _ _ _ _ _ _ R)
    as (Hx & _ & H2 & _ & _ & _ & Hl).
  eexists. split; [ exact E | ].
  split; [ exact R | ]. split; [ exact Hx | ]. split; [ exact H2 | exact Hl ].
Defined.

End ChannelsOfOutputs.

(** * How many operators a returning forward pass applies *)

Section ReturnsAfter.
Context `{Framework}.
Import modules_4channel.

Lemma returns_after_bind {A B} (m : counted A) (k : A -> counted B) n1 n2 :
  returns_after m n1 -> (forall a, returns_after (k a) n2) ->
  returns_after (a <- m ;; k a) (n1 + n2).
Proof.
  unfold returns_after. destruct m as [n [a | e]]; cbn; intros Hm Hk y.
  - specialize (Hk a). destruct (k a) as [n' r]. cbn in *.
    intros ->. rewrite (Hm a eq_refl), (Hk y eq_refl). reflexivity.
  - discriminate.
Qed.

Lemma returns_after_op {A} (o : option A) : returns_after (op o) 1.
Proof. intros y _. reflexivity. Qed.

Lemma returns_after_pure {A} (a : A) : returns_after (pure a) 0.
Proof. intros y _. reflexivity. Qed.

Lemma returns_after_eq {A} (m : counted A) n n' :
  n = n' -> returns_after m n -> returns_after m n'.
Proof. now intros ->. Qed.

Lemma returns_after_chain {A} (call : A -> tensor -> counted tensor) b :
  (forall m x, returns_after (call m x) b) ->
  forall ms x, returns_after (chain call ms x) (List.length ms * b).
Proof.
  intros Hc ms. induction ms as [ | m ms IH ]; intros x.
  - apply returns_after_pure.
  - cbn [chain List.length Nat.mul].
    apply returns_after_bind; [ apply Hc | exact IH ].
Qed.

Lemma returns_after_BatchNorm2d_call b x :
  returns_after (BatchNorm2d_call b x) 1.
Proof.
  unfold BatchNorm2d_call.
  destruct (tensor_size x) as [ | n [ | c [ | h [ | w [ | ? ? ] ] ] ] ];
    try (intros y E; discriminate).
  destruct (n * h * w =? 1);
    [ intros y E; discriminate | apply returns_after_op ].
Qed.

Lemma returns_after_Sequential ls x :
  returns_after (Sequential_forward ls x) (List.length ls).
Proof.
  eapply returns_after_eq;
    [ | apply (returns_after_chain apply_layer 1) ].
  - lia.
  - intros l y.
    destruct l;
      first [ apply returns_after_op | apply returns_after_BatchNorm2d_call ].
Qed.

Lemma returns_after_unpack4 l : returns_after (unpack4 l) 0.
Proof.
  destruct l as [ | a [ | b [ | c [ | d [ | ? ? ] ] ] ] ];
    intros y E; first [ discriminate | reflexivity ].
Qed.

Lemma returns_after_size_at x d : returns_after (size_at x d) 0.
Proof.
  unfold size_at. destruct (nth_error _ _); intros y E;
    first [ discriminate | reflexivity ].
Qed.

Lemma returns_after_priors feats h w stages :
  returns_after
    (map_m (fun stage =>
              s <- Sequential_forward stage feats ;;
              op (F_upsample s (h, w) "bilinear")) stages)
    (pyramid_steps stages).
Proof.
  induction stages as [ | stage stages IH ]; cbn [map_m].
  - apply returns_after_pure.
  - change (pyramid_steps (stage :: stages))
      with (List.length stage + 1 + pyramid_steps stages)%nat.
    eapply returns_after_eq;
      [ | apply returns_after_bind;
          [ apply returns_after_bind;
            [ apply returns_after_Sequential
            | intros; apply returns_after_op ]
          | intros; apply returns_after_bind;
            [ apply IH | intros; apply returns_after_pure ] ] ].
    lia.
Qed.

End ReturnsAfter.

(** Counting the operators of a returning run, statement by statement. *)
Ltac counting leaf :=
  match goal with
  | |- returns_after (and_then _ _) _ =>
      eapply returns_after_bind; [ counting leaf | intros ?; counting leaf ]
  | |- returns_after (op _) _ => apply returns_after_op
  | |- returns_after (BatchNorm2d_call _ _) _ =>
      apply returns_after_BatchNorm2d_call
  | |- returns_after (pure _) _ => apply returns_after_pure
  | |- returns_after (match ?p with (_, _) => _ end) _ =>
      destruct p; counting leaf
  | _ => leaf
  end.

Ltac counted_as leaf :=
  eapply returns_after_eq; [ | counting leaf ]; try (cbn [List.length]; lia).

Section OperatorCounts.
Context `{Framework}.
Import modules_4channel.

Lemma MakeDense_returns_after self x :
  returns_after (MakeDense.forward self x) 4.
Proof. unfold MakeDense.forward. counted_as idtac. Qed.

Lemma SE_net_returns_after self x :
  SE_net.attention self = true ->
  returns_after (SE_net.forward self x) 9.
Proof.
  intros Ea. unfold SE_net.forward. rewrite Ea. counted_as idtac.
Qed.

Lemma PSPModule_returns_after self x :
  returns_after (PSPModule.forward self x)
                (pyramid_steps (PSPModule.stages self) + 3).
Proof.
  unfold PSPModule.forward.
  counted_as ltac:(first [ apply returns_after_size_at
                         | apply returns_after_priors ]).
Qed.

Lemma ContextBlock2d_default_returns_after i p self x :
  ContextBlock2d.init i p "att" ["channel_add"] 4 = Ok self ->
  returns_after (ContextBlock2d.forward self x) 13.
Proof.
  intros E. apply ContextBlock2d_init_inv in E as (_ & _ & _ & _ & ->).
  unfold ContextBlock2d.forward, ContextBlock2d.spatial_pool, fusion_layers.
  cbn [ContextBlock2d.pool ContextBlock2d.conv_mask ContextBlock2d.softmax
       ContextBlock2d.avg_pool
       ContextBlock2d.channel_mul_conv ContextBlock2d.channel_add_conv].
  change (String.eqb "att" "att") with true.
  change (str_in "channel_add" ["channel_add"]) with true.
  change (str_in "channel_mul" ["channel_add"]) with false.
  cbv iota. cbn [getattr].
  counted_as ltac:(first [ apply returns_after_unpack4
                         | apply returns_after_Sequential ]).
Qed.

Lemma GCRDB_returns_after c n g self x :
  GCRDB.init c ContextBlock2d.class n g = Ok self ->
  returns_after (GCRDB.forward self x) (4 * Z.to_nat n + 15).
Proof.
  intros E. apply GCRDB_init_Ok in E as (_ & _ & f & Ef & ->).
  apply ContextBlock2d_class_forward in Ef as (inst & Einst & ->).
  unfold GCRDB.forward.
  cbn [GCRDB.residual_dense_layers GCRDB.conv_1x1 GCRDB.final_att].
  counted_as ltac:(first
                     [ apply (returns_after_chain MakeDense.forward 4);
                       intros; apply MakeDense_returns_after
                     | apply (ContextBlock2d_default_returns_after
                                _ _ _ _ Einst) ]).
  rewrite length_map, length_seq. lia.
Qed.

Lemma pyramid_steps_of_stages features :
  forall sizes stages,
    map_m (fun size => PSPModule._make_stage features size) sizes = Ok stages ->
    pyramid_steps stages = (3 * List.length sizes)%nat.
Proof.
  induction sizes as [ | size sizes IH ]; intros stages E.
  - inversion E. reflexivity.
  - cbn [map_m] in E. unfold PSPModule._make_stage at 1 in E. init_inv.
    match goal with
    | E : map_m _ sizes = Ok _ |- _ => apply IH in E
    end.
    match goal with
    | |- pyramid_steps (?stage :: ?stages) = _ =>
        change (pyramid_steps (stage :: stages))
          with (List.length stage + 1 + pyramid_steps stages)%nat
    end.
    cbn [List.length] in *. lia.
Qed.

(** X20: a forward pass that returns has applied every operator of its
    body, so many: 4 for a dense layer, 9 for a squeeze-excitation gate, 13
    for the context block in its default configuration, [4 n + 15] for a
    residual dense block of [n] dense layers, 7 (9 with normalisation) for
    the down-sampling block, 11 (13) for the up-sampling block, 13 for the
    shortcut, 3 per pyramid level and 3 more for the pyramid module, and 30
    for the last up-sampling. *)
Theorem operators_of_returning_runs :
  (forall self x, returns_after (MakeDense.forward self x) 4)
  /\ (forall i o r self x,
         SE_net.init i o r true = Ok self ->
         returns_after (SE_net.forward self x) 9)
  /\ (forall i p self x,
         ContextBlock2d.init i p "att" ["channel_add"] 4 = Ok self ->
         returns_after (ContextBlock2d.forward self x) 13)
  /\ (forall c n g self x,
         GCRDB.init c ContextBlock2d.class n g = Ok self ->
         returns_after (GCRDB.forward self x) (4 * Z.to_nat n + 15))
  /\ (forall c att norm_layer self x,
         GCWTResDown.init c att norm_layer = Ok self ->
         returns_after (GCWTResDown.forward self x)
                       (match norm_layer with Some _ => 9 | None => 7 end))
  /\ (forall c att norm_layer self x x_dwt,
         GCIWTResUp.init c att norm_layer = Ok self ->
         returns_after (GCIWTResUp.forward self x x_dwt)
                       (match norm_layer with Some _ => 13 | None => 11 end))
  /\ (forall i o self x,
         shortcutblock.init i o = Ok self ->
         returns_after (shortcutblock.forward self x) 13)
  /\ (forall f o sizes self x,
         PSPModule.init f o sizes = Ok self ->
         returns_after (PSPModule.forward self x)
                       (3 * List.length sizes + 3))
  /\ (forall self x,
         last_upsample.init = Ok self ->
         returns_after (last_upsample.forward self x) 30).
Proof.
  repeat split.
  - apply MakeDense_returns_after.
  - intros i o r self x E. apply SE_net_returns_after.
    apply SE_net_init_Ok in E. destruct E as (_ & _ & _ & _ & ->).
    reflexivity.
  - intros i p self x. apply ContextBlock2d_default_returns_after.
  - intros c n g self x. apply GCRDB_returns_after.
  - intros c att norm_layer self x E.
    unfold GCWTResDown.init in E.
    destruct norm_layer as [f | ]; init_inv;
      unfold GCWTResDown.forward;
      cbn [GCWTResDown.stem GCWTResDown.dwt GCWTResDown.conv1x1];
      counted_as ltac:(apply returns_after_Sequential).
  - intros c att norm_layer self x x_dwt E.
    unfold GCIWTResUp.init in E.
    destruct norm_layer as [f | ]; init_inv;
      unfold GCIWTResUp.forward;
      cbn [GCIWTResUp.stem GCIWTResUp.pre_conv_stem GCIWTResUp.pre_conv
           GCIWTResUp.post_conv GCIWTResUp.iwt GCIWTResUp.last_conv];
      counted_as ltac:(apply returns_after_Sequential).
  - intros i o self x E. unfold shortcutblock.init in E. init_inv.
    unfold shortcutblock.forward.
    cbn [shortcutblock.conv1 shortcutblock.conv2 shortcutblock.se
         shortcutblock.relu].
    match goal with
    | E : SE_net.init _ _ _ _ = Ok _ |- _ =>
        apply SE_net_init_Ok in E; destruct E as (_ & _ & _ & _ & ->)
    end.
    counted_as ltac:(apply SE_net_returns_after; reflexivity).
  - intros f o sizes self x E.
    eapply returns_after_eq; [ | apply PSPModule_returns_after ].
    unfold PSPModule.init in E. init_inv. cbn [PSPModule.stages].
    match goal with
    | E : map_m _ sizes = Ok _ |- _ =>
        rewrite (pyramid_steps_of_stages _ _ _ E)
    end.
    reflexivity.
  - intros self x E. unfold last_upsample.init in E. init_inv.
    unfold last_upsample.forward.
    cbn [last_upsample.up last_upsample.pre_enhance last_upsample.enhance
         last_upsample.post_conv last_upsample.se last_upsample.final].
    match goal with
    | E : SE_net.init _ _ _ _ = Ok _ |- _ =>
        apply SE_net_init_Ok in E; destruct E as (_ & _ & _ & _ & ->)
    end.
    match goal with
    | E : PSPModule.init _ _ _ = Ok _ |- _ =>
        unfold PSPModule.init, PSPModule.default_sizes,
          PSPModule._make_stage in E;
        cbn [map_m] in E; init_inv
    end.
    counted_as ltac:(first [ apply SE_net_returns_after; reflexivity
                           | apply PSPModule_returns_after ]).
    cbn. lia.
Qed.

End OperatorCounts.

Section OperatorCountsInstances.
Local Existing Instance Shape.framework.
Import modules_4channel.

Lemma operators_of_returning_runs_witness :
  exists self,
    GCRDB.init 8 ContextBlock2d.class 2 4 = Ok self
    /\ outcome (GCRDB.forward self [1; 8; 4; 4]) = Ok [1; 8; 4; 4]
    /\ steps (GCRDB.forward self [1; 8; 4; 4]) = 23%nat.
Proof.
  eexists. split; [ reflexivity | ].
  split; [ vm_compute; reflexivity | ].
  destruct (operators_of_returning_runs (H := Shape.framework))
    as (_ & _ & _ & Hrdb & _).
  apply (Hrdb 8 2 4 _ [1; 8; 4; 4] eq_refl [1; 8; 4; 4]).
  vm_compute. reflexivity.
Defined.

End OperatorCountsInstances.

(** * Which exceptions AWNet.forward can raise *)

Section ExceptionsOfAWNet.
Context `{Framework}.
Import model_3channel.

Lemma raises_only_chain_in {A} allowed
      (call : A -> tensor -> counted tensor) ms :
  (forall m, In m ms -> forall x, raises_only allowed (outcome (call m x))) ->
  forall x, raises_only allowed (outcome (chain call ms x)).
Proof.
  induction ms as [ | m ms IH ]; intros Hc x; cbn [chain]; [ exact I | ].
  apply raises_only_bind.
  - apply Hc. now left.
  - intros y. apply IH. intros m' Hin. apply Hc. now right.
Qed.

(** X21: [AWNet.forward] adds no exception of its own to those of its
    sub-modules but the framework's rejection of an operand: whatever set of
    exceptions holds every [RuntimeError] and everything the sub-modules can
    raise, holds everything the forward pass can raise. *)
Theorem AWNet_forward_exceptions :
  forall (allowed : exception -> bool) self x target teacher_latent,
    (forall msg, allowed (RuntimeError msg) = true) ->
    every_call (fun _ m => raises_only allowed (outcome m)) self ->
    raises_only allowed
                (outcome (AWNet.forward self x target teacher_latent)).
Proof.
  intros allowed self x target teacher_latent Ha Hc.
  apply every_call_fields in Hc.
  destruct Hc as ((? & ? & ? & ? & ?) & (? & ? & ? & ? & ?)
                  & (? & ? & ? & ? & ?) & (? & ? & ? & ?) & (? & ? & ? & ?)).
  unfold AWNet.forward, AWNet.encoder_forward.
  repeat first
         [ apply raises_only_pure
         | apply raises_only_op; exact Ha
         | apply raises_only_chain_in; assumption
         | match goal with
           | |- raises_only _ (outcome (and_then _ _)) =>
               apply raises_only_bind; [ | intros ]
           | |- raises_only _ (outcome (match ?p with (_, _) => _ end)) =>
               destruct p
           | Hx : forall x, raises_only _ _ |- _ => apply Hx
           | Hx : forall x y, raises_only _ _ |- _ => apply Hx
           end ].
Qed.

End ExceptionsOfAWNet.

Section ExceptionsOfAWNetInstances.
Local Existing Instance Shape.framework.
Import modules_4channel.
Import model_3channel.

Lemma AWNet_forward_exceptions_witness :
  exists self,
    AWNet.init (imports := fitted_modules_4channel) 3 3 [0; 0; 0; 0; 0]
    = Ok self
    /\ forall x,
        raises_only rejection_unpacking_or_axis
                    (outcome (AWNet.forward self x None None)).
Proof.
  eexists. split; [ reflexivity | ].
  intros x.
  apply (AWNet_forward_exceptions (H := Shape.framework)
                                  rejection_unpacking_or_axis);
    [ reflexivity | ].
  unfold every_call, unary_submodules, down_submodules, up_submodules.
  cbn [AWNet.se1 AWNet.se2 AWNet.se3 AWNet.se4 AWNet.se5 AWNet.layer1
       AWNet.layer2 AWNet.layer3 AWNet.layer4 AWNet.layer5 AWNet.sc_x1
       AWNet.sc_x2 AWNet.sc_x3 AWNet.sc_x4 AWNet.enhance AWNet.layer4_up
       AWNet.layer3_up AWNet.layer2_up AWNet.layer1_up fst snd app].
  repeat split; intros m Hin; cbn [In] in Hin;
    repeat (destruct Hin as [<- | Hin]; [ | ]);
    try contradiction; intros;
    first [ apply PSPModule_forward_raises
          | apply rejection_weakens;
            first [ apply SE_net_forward_raises
                  | apply shortcutblock_forward_raises ]
          | apply rejection_or_unpacking_weakens;
            first [ apply GCWTResDown_forward_raises
                  | apply GCIWTResUp_forward_raises ] ].
Defined.

End ExceptionsOfAWNetInstances.

(** * The inputs the gate and the residual dense block accept *)

Section AcceptedInputs.
Local Existing Instance Shape.framework.
Import modules_4channel.

(** X22: on a non-empty batch of non-empty maps, the [forward] of a
    squeeze-excitation gate built with attention, with at least one channel
    in its squeezed map ([0 < in_channels // reduction]) and at least one
    output channel, returns exactly when the maps have [in_channels]
    channels, and it maps them to [out_channels] channels at the same
    height and width. *)
Theorem SE_net_forward_returns_iff :
  forall i o r self,
    SE_net.init i o r true = Ok self ->
    0 < i / r -> 0 < o ->
    forall N C H W y,
      0 < N -> 0 < C -> 0 < H -> 0 < W ->
      (outcome (SE_net.forward self [N; C; H; W]) = Ok y
       <-> C = i /\ y = [N; o; H; W]).
Proof.
  intros i o r self E Hm Ho N C H W y HN HC HH HW. split.
  - intros Ey.
    assert (HCi : C = i).
    { apply SE_net_init_Ok in E as Hs.
      destruct Hs as (_ & _ & _ & _ & ->).
      unfold SE_net.forward in Ey.
      cbn [SE_net.attention SE_net.avg_pool SE_net.conv_in] in Ey.
      rewrite outcome_bind, outcome_op, pool_to in Ey.
      cbn [lift] in Ey. rewrite result_bind_Ok in Ey.
      rewrite outcome_bind, outcome_op in Ey.
      destruct (Conv2d_forward _ _) as [c | ] eqn:Ec; [ | discriminate ].
      apply conv_gives in Ec as (N' & h' & w' & Ex & _).
      cbn [conv conv_in_channels] in Ex. now inversion Ex. }
    subst C. split; [ reflexivity | ].
    rewrite (SE_net_forward_shape _ _ _ _ N H W E Hm Ho HH HW) in Ey.
    now inversion Ey.
  - intros (-> & ->).
    now apply (SE_net_forward_shape i o r).
Qed.

Lemma SE_net_forward_returns_iff_witness :
  exists self,
    SE_net.init 64 32 4 true = Ok self
    /\ outcome (SE_net.forward self [2; 64; 8; 6]) = Ok [2; 32; 8; 6].
Proof.
  eexists. split; [ reflexivity | ].
  apply (proj2 (SE_net_forward_returns_iff
                  64 32 4 _ eq_refl ltac:(reflexivity) ltac:(lia)
                  2 64 8 6 [2; 32; 8; 6]
                  ltac:(lia) ltac:(lia) ltac:(lia) ltac:(lia))).
  split; reflexivity.
Defined.

(** X23: on a non-empty batch of non-empty maps that holds more than one
    value per channel, the [forward] of a residual dense block built with
    the context block, for at least four channels and with a positive
    growth rate, returns exactly when the maps have [in_channels] channels,
    and the result has the shape of the input.  The growth rate and the
    number of values per channel matter only when the block has a dense
    layer. *)
Theorem GCRDB_forward_returns_iff :
  forall c n g self,
    GCRDB.init c ContextBlock2d.class n g = Ok self ->
    4 <= c -> (0 < n -> 0 < g) ->
    forall N C H W y,
      0 < N -> 0 < C -> 0 < H -> 0 < W -> (0 < n -> 1 < N * H * W) ->
      (outcome (GCRDB.forward self [N; C; H; W]) = Ok y
       <-> C = c /\ y = [N; C; H; W]).
Proof.
  intros c n g self E Hc Hg N C H W y HN HC HH HW Hv.
  assert (Hk : outcome (GCRDB.forward self [N; c; H; W]) = Ok [N; c; H; W]).
  { apply (GCRDB_keeps_shape c n g);
      [ exact E | arith | | lia | assumption | assumption ].
    intros Hn. split; [ auto | ]. specialize (Hv Hn). lia. }
  split.
  - intros Ey.
    assert (HCc : C = c).
    { pose proof Ey as Ed.
      rewrite (GCRDB_forward_described _ _ _ _ _ E) in Ed.
      apply described_GCRDB_accepts in Ed as (N' & H' & W' & Ex & _).
      now inversion Ex. }
    subst C. split; [ reflexivity | ].
    rewrite Hk in Ey. now inversion Ey.
  - intros (-> & ->). exact Hk.
Qed.

Lemma GCRDB_forward_returns_iff_witness :
  exists self,
    GCRDB.init 8 ContextBlock2d.class 2 4 = Ok self
    /\ outcome (GCRDB.forward self [1; 8; 4; 6]) = Ok [1; 8; 4; 6].
Proof.
  eexists. split; [ reflexivity | ].
  apply (proj2 (GCRDB_forward_returns_iff
                  8 2 4 _ eq_refl ltac:(lia) ltac:(lia)
                  1 8 4 6 [1; 8; 4; 6]
                  ltac:(lia) ltac:(lia) ltac:(lia) ltac:(lia) ltac:(lia))).
  split; reflexivity.
Defined.

End AcceptedInputs.

(** * The constructors of the wavelet blocks and of the pyramid *)

Section Constructors.
Context `{Framework}.
Import modules_4channel.

Lemma BatchNorm2d_class_Ok n l :
  BatchNorm2d_class n = Ok l
  <-> 0 <= n /\ l = LBatchNorm2d {| num_features := n |}.
Proof.
  unfold BatchNorm2d_class. split.
  - intros E. apply result_bind_inv in E. destruct E as (b & Eb & E).
    apply nn_BatchNorm2d_Ok in Eb as (-> & Hn). inversion E. auto.
  - intros (Hn & ->). rewrite nn_BatchNorm2d_nonneg by assumption.
    reflexivity.
Qed.

(** X24: [GCWTResDown.__init__] and [GCIWTResUp.__init__], with
    [norm_layer] absent or batch normalisation, return exactly when
    [in_channels] is not negative, whatever [att_block] is: the argument is
    required but never called, and an [att_block] that always raises builds
    the same instance. *)
Theorem wavelet_blocks_never_call_att_block :
  forall c (att : att_class) norm_layer,
    norm_layer = None \/ norm_layer = Some BatchNorm2d_class ->
    ((exists self, GCWTResDown.init c att norm_layer = Ok self) <-> 0 <= c)
    /\ ((exists self, GCIWTResUp.init c att norm_layer = Ok self) <-> 0 <= c)
    /\ GCWTResDown.init c att norm_layer
       = GCWTResDown.init c (fun _ _ => Err (TypeError "")) norm_layer
    /\ GCIWTResUp.init c att norm_layer
       = GCIWTResUp.init c (fun _ _ => Err (TypeError "")) norm_layer.
Proof.
  intros c att norm_layer Hn.
  split; [ | split; [ | split; reflexivity ] ].
  - split.
    + intros (self & E). unfold GCWTResDown.init in E.
      destruct Hn as [-> | ->]; init_inv; assumption.
    + intros Hc. unfold GCWTResDown.init.
      destruct Hn as [-> | ->].
      * init_run. eexists. reflexivity.
      * rewrite (proj2 (BatchNorm2d_class_Ok c _) (conj Hc eq_refl)).
        init_run. eexists. reflexivity.
  - split.
    + intros (self & E). unfold GCIWTResUp.init in E.
      destruct Hn as [-> | ->]; init_inv; assumption.
    + intros Hc. unfold GCIWTResUp.init.
      assert (Hq : 0 <= c / 4) by arith.
      destruct Hn as [-> | ->].
      * init_run. eexists. reflexivity.
      * rewrite (proj2 (BatchNorm2d_class_Ok (c / 4) _) (conj Hq eq_refl)).
        init_run. eexists. reflexivity.
Qed.

Lemma stages_length features :
  forall sizes stages,
    map_m (fun size => PSPModule._make_stage features size) sizes = Ok stages ->
    List.length stages = List.length sizes.
Proof.
  induction sizes as [ | size sizes IH ]; intros stages E.
  - inversion E. reflexivity.
  - cbn [map_m] in E. unfold PSPModule._make_stage at 1 in E. init_inv.
    match goal with
    | E : map_m _ sizes = Ok _ |- _ => apply IH in E
    end.
    cbn [List.length]. now f_equal.
Qed.

Lemma stages_build features :
  0 <= features ->
  forall sizes,
    exists stages,
      map_m (fun size => PSPModule._make_stage features size) sizes
      = Ok stages.
Proof.
  intros Hf. induction sizes as [ | size sizes (stages & IH) ].
  - eexists. reflexivity.
  - cbn [map_m]. unfold PSPModule._make_stage at 1.
    rewrite nn_Conv2d_nonneg by first [ assumption | lia ].
    repeat first [ rewrite result_bind_Ok
                 | rewrite IH
                 | progress cbn [pure result_raising] ].
    eexists. reflexivity.
Qed.

(** X25: [PSPModule.__init__] returns exactly when [features] and
    [out_features] are not negative, whatever [sizes] is; the module then
    has one stage per entry of [sizes], and a bottleneck convolution from
    [features * (len(sizes) + 1)] channels to [out_features]. *)
Theorem PSPModule_init_returns_iff :
  forall features out_features sizes,
    ((exists self, PSPModule.init features out_features sizes = Ok self)
     <-> 0 <= features /\ 0 <= out_features)
    /\ (forall self,
           PSPModule.init features out_features sizes = Ok self ->
           List.length (PSPModule.stages self) = List.length sizes
           /\ PSPModule.bottleneck self
              = conv (features * (Z.of_nat (List.length sizes) + 1))
                     out_features 1 1 0 true).
Proof.
  intros f o sizes. split; [ split | ].
  - intros (self & E). unfold PSPModule.init in E. init_inv.
    split; [ nia | assumption ].
  - intros (Hf & Ho). unfold PSPModule.init.
    destruct (stages_build f Hf sizes) as (stages & ->).
    rewrite result_bind_Ok, nn_Conv2d_nonneg by nia.
    rewrite result_bind_Ok. eexists. reflexivity.
  - intros self E. unfold PSPModule.init in E. init_inv.
    cbn [PSPModule.stages PSPModule.bottleneck].
    split; [ | reflexivity ].
    match goal with
    | E : map_m _ sizes = Ok _ |- _ => now apply stages_length in E
    end.
Qed.

End Constructors.

Section ConstructorsInstances.
Local Existing Instance Shape.framework.
Import modules_4channel.

Lemma wavelet_blocks_never_call_att_block_witness :
  (exists self,
      GCWTResDown.init 256 (fun _ _ => Err (TypeError ""))
                       (Some BatchNorm2d_class) = Ok self)
  /\ (exists self,
         GCIWTResUp.init 1024 (fun _ _ => Err (TypeError "")) None = Ok self).
Proof.
  split.
  - apply (proj1 (wavelet_blocks_never_call_att_block
                    (H := Shape.framework)
                    256 (fun _ _ => Err (TypeError ""))
                    (Some BatchNorm2d_class) (or_intror eq_refl))).
    lia.
  - apply (proj1 (proj2 (wavelet_blocks_never_call_att_block
                           (H := Shape.framework)
                           1024 (fun _ _ => Err (TypeError ""))
                           None (or_introl eq_refl)))).
    lia.
Defined.

Lemma PSPModule_init_returns_iff_witness :
  exists self,
    PSPModule.init 16 16 PSPModule.default_sizes = Ok self
    /\ List.length (PSPModule.stages self) = 4%nat
    /\ PSPModule.bottleneck self = conv 80 16 1 1 0 true.
Proof.
  eexists. split; [ reflexivity | ].
  apply (proj2 (PSPModule_init_returns_iff 16 16 PSPModule.default_sizes)).
  reflexivity.
Defined.

End ConstructorsInstances.
